(** * Warehouse real-time processing pipeline: a shallow embedding

    The development follows the Python sources of the processing pipeline
    (consumers, processors, aggregators, anomaly detection, enrichers,
    storage) and of the alert manager.  Python dictionaries that the code
    only reads and extends are insertion-ordered association lists; the
    alert manager's [active_alerts] dictionary is a finite map.  Python
    floats are read as exact rationals, so the rounding of float
    arithmetic, infinities and NaN are outside the model; [float] on an
    integer is Python's: it rounds to the nearest double, ties to even,
    and raises [OverflowError] beyond the range of doubles.  Functions of
    the Python standard library (ISO parsing, the clock, string hashing)
    are parameters of the sections that use them. *)

From Stdlib Require Import ZArith QArith Qabs Lia Lqa Ascii String.
From stdpp Require Import base option list strings gmap.

Local Open Scope string_scope.
Local Open Scope list_scope.
Local Open Scope Z_scope.

(** ** Python values *)

Module Py.

(** [datetime.datetime]: the calendar fields and the UTC offset of an aware
    value in seconds ([None] for a naive one). *)
Record datetime := mkDatetime {
  dt_year : Z;
  dt_month : Z;
  dt_day : Z;
  dt_hour : Z;
  dt_minute : Z;
  dt_second : Z;
  dt_microsecond : Z;
  dt_utcoffset : option Z
}.

(** The values a decoded JSON message and the records derived from it hold. *)
#[warnings="-register-all"]
Inductive pyval :=
| PNone
| PBool (b : bool)
| PInt (z : Z)
| PFloat (q : Q)
| PStr (s : string)
| PList (l : list pyval)
| PDict (d : list (string * pyval))
| PDatetime (t : datetime).

(** A [dict] with string keys, in insertion order. *)
Abbreviation dict := (list (string * pyval)).

Inductive exn :=
| TypeError
| ValueError
| AttributeError
| KeyError
| OverflowError
| WriteError
| ConnectionError
| StorageError.

Inductive result (A : Type) :=
| Ok (a : A)
| Raise (e : exn).
Arguments Ok {A} a.
Arguments Raise {A} e.

Definition bind {A B} (r : result A) (k : A -> result B) : result B :=
  match r with
  | Ok a => k a
  | Raise e => Raise e
  end.

Definition returns {A} (r : result A) : bool :=
  match r with
  | Ok _ => true
  | Raise _ => false
  end.

(** [d.get(k)] as an option, [k in d], [d.get(k)], [d.get(k, default)]. *)
Fixpoint dict_lookup (k : string) (d : dict) : option pyval :=
  match d with
  | [] => None
  | (k', v) :: d' => if String.eqb k k' then Some v else dict_lookup k d'
  end.

Definition dict_in (k : string) (d : dict) : bool :=
  match dict_lookup k d with
  | Some _ => true
  | None => false
  end.

Definition dict_get (k : string) (d : dict) : pyval :=
  match dict_lookup k d with
  | Some v => v
  | None => PNone
  end.

Definition dict_get_default (k : string) (dflt : pyval) (d : dict) : pyval :=
  match dict_lookup k d with
  | Some v => v
  | None => dflt
  end.

(** [d[k] = v]: an existing key keeps its position, a new key goes last. *)
Fixpoint dict_set (k : string) (v : pyval) (d : dict) : dict :=
  match d with
  | [] => [(k, v)]
  | (k', v') :: d' =>
      if String.eqb k k' then (k', v) :: d' else (k', v') :: dict_set k v d'
  end.

(** Truth value of an object, as [if x:] and [not x] take it. *)
Definition truthy (v : pyval) : bool :=
  match v with
  | PNone => false
  | PBool b => b
  | PInt z => negb (z =? 0)
  | PFloat q => negb (Qeq_bool q 0)
  | PStr s => negb (String.eqb s "")
  | PList l => match l with [] => false | _ => true end
  | PDict d => match d with [] => false | _ => true end
  | PDatetime _ => true
  end.

(** [x == "s"] for a string literal. *)
Definition eq_str (v : pyval) (s : string) : bool :=
  match v with
  | PStr s' => String.eqb s' s
  | _ => false
  end.

(** Whether [hash(x)] returns: lists and dicts are unhashable. *)
Definition hashable (v : pyval) : bool :=
  match v with
  | PList _ | PDict _ => false
  | _ => true
  end.

Definition is_json_number (v : pyval) : bool :=
  match v with
  | PInt _ | PFloat _ => true
  | _ => false
  end.

(** The number a JSON number denotes. *)
Definition number_value (v : pyval) : Q :=
  match v with
  | PInt z => inject_Z z
  | PFloat q => q
  | _ => 0%Q
  end.

(** [float(n)] on an [int]: the nearest double, a tie going to the even
    significand, and [OverflowError] when that double would be [2 ^ 1024] or
    more.  An integer of magnitude below [2 ^ 53] is its own double. *)
Definition float_of_int (z : Z) : result Q :=
  let a := Z.abs z in
  if a <? 2 ^ 53 then Ok (inject_Z z)
  else
    let e := Z.log2 a - 52 in
    let q := a / 2 ^ e in
    let r := a mod 2 ^ e in
    let half := 2 ^ (e - 1) in
    let m := if (half <? r) || ((r =? half) && Z.odd q) then q + 1 else q in
    let v := m * 2 ^ e in
    if 2 ^ 1024 <=? v then Raise OverflowError
    else Ok (inject_Z (Z.sgn z * v)).

(** A JSON number that [float] converts without rounding: a float, or an
    integer of magnitude at most [2 ^ 53]. *)
Definition exact_as_double (v : pyval) : bool :=
  match v with
  | PInt z => Z.abs z <=? 2 ^ 53
  | _ => true
  end.

(** A JSON number that [float] converts at all: a float, or an integer
    below the midpoint between the largest double and [2 ^ 1024]. *)
Definition fits_double (v : pyval) : bool :=
  match v with
  | PInt z => Z.abs z <? 2 ^ 1024 - 2 ^ 970
  | _ => true
  end.

Section Float.
(** [float(s)] on a string: [None] when Python raises [ValueError]. *)
Variable float_of_string : string -> option Q.

(** [float(x)]. *)
Definition float_of (v : pyval) : result Q :=
  match v with
  | PFloat q => Ok q
  | PInt z => float_of_int z
  | PBool b => Ok (if b then 1%Q else 0%Q)
  | PStr s =>
      match float_of_string s with
      | Some q => Ok q
      | None => Raise ValueError
      end
  | PNone | PList _ | PDict _ | PDatetime _ => Raise TypeError
  end.
End Float.

(** [date.toordinal] and [date.weekday] of the proleptic Gregorian calendar,
    after CPython's [_ymd2ord]. *)
Definition is_leap (y : Z) : bool :=
  (y mod 4 =? 0) && (negb (y mod 100 =? 0) || (y mod 400 =? 0)).

Definition days_before_year (y : Z) : Z :=
  let y1 := y - 1 in
  y1 * 365 + y1 / 4 - y1 / 100 + y1 / 400.

Definition days_before_month (y m : Z) : Z :=
  let base := nth (Z.to_nat m)
                [0; 0; 31; 59; 90; 120; 151; 181; 212; 243; 273; 304; 334] 0 in
  if (2 <? m) && is_leap y then base + 1 else base.

Definition toordinal (t : datetime) : Z :=
  days_before_year (dt_year t) + days_before_month (dt_year t) (dt_month t)
  + dt_day t.

Definition weekday (t : datetime) : Z := (toordinal t + 6) mod 7.

(** Instant of an aware datetime in microseconds, for comparisons. *)
Definition instant (t : datetime) (offset : Z) : Z :=
  ((toordinal t * 86400 + dt_hour t * 3600 + dt_minute t * 60 + dt_second t)
   - offset) * 1000000 + dt_microsecond t.

Definition datetime_eqb (a b : datetime) : bool :=
  match dt_utcoffset a, dt_utcoffset b with
  | Some oa, Some ob => instant a oa =? instant b ob
  | None, None => instant a 0 =? instant b 0
  | _, _ => false
  end.

(** Numbers compare by value across [bool], [int] and [float]. *)
Definition num_of (v : pyval) : option Q :=
  match v with
  | PBool b => Some (if b then 1%Q else 0%Q)
  | PInt z => Some (inject_Z z)
  | PFloat q => Some q
  | _ => None
  end.

(** Equality of two hashable values used as dictionary keys. *)
Definition key_eqb (a b : pyval) : bool :=
  match num_of a, num_of b with
  | Some x, Some y => Qeq_bool x y
  | None, None =>
      match a, b with
      | PNone, PNone => true
      | PStr x, PStr y => String.eqb x y
      | PDatetime x, PDatetime y => datetime_eqb x y
      | _, _ => false
      end
  | _, _ => false
  end.

(** [x < c] against a numeric literal. *)
Definition lt_num (v : pyval) (c : Q) : result bool :=
  match num_of v with
  | Some q => Ok (negb (Qle_bool c q))
  | None => Raise TypeError
  end.

(** [x.get(k)] and [x.get(k, default)] on an arbitrary value. *)
Definition attr_get (v : pyval) (k : string) : result pyval :=
  match v with
  | PDict d => Ok (dict_get k d)
  | _ => Raise AttributeError
  end.

Definition attr_get_default (v : pyval) (k : string) (dflt : pyval)
  : result pyval :=
  match v with
  | PDict d => Ok (dict_get_default k dflt d)
  | _ => Raise AttributeError
  end.

End Py.

(** ** InventoryProcessor (processors/inventory_processor.py) *)

Module Processor.
Import Py.

Definition action_mappings : list (string * string) :=
  [("stock_in", "inbound"); ("stock_out", "outbound");
   ("adjustment", "adjustment"); ("transfer", "transfer")].

Fixpoint assoc (k : string) (l : list (string * string)) : option string :=
  match l with
  | [] => None
  | (k', v) :: l' => if String.eqb k k' then Some v else assoc k l'
  end.

(** [self.action_mappings.get(action, action)]: the key is hashed first. *)
Definition action_mappings_get (action : pyval) : result pyval :=
  if hashable action then
    match action with
    | PStr s =>
        match assoc s action_mappings with
        | Some m => Ok (PStr m)
        | None => Ok action
        end
    | _ => Ok action
    end
  else Raise TypeError.

(** [timestamp.replace('Z', '+00:00')]. *)
Fixpoint replace_Z (s : string) : string :=
  match s with
  | EmptyString => EmptyString
  | String c s' =>
      if Ascii.eqb c "Z"%char then "+00:00" +:+ replace_Z s'
      else String c (replace_Z s')
  end.

Definition _get_shift (hour : Z) : string :=
  if (6 <=? hour) && (hour <? 14) then "morning"
  else if (14 <=? hour) && (hour <? 22) then "afternoon"
  else "night".

Definition _get_business_context (timestamp : datetime) : dict :=
  let hour := dt_hour timestamp in
  let day_of_week := weekday timestamp in
  [("hour", PInt hour);
   ("day_of_week", PInt day_of_week);
   ("is_business_hours",
      PBool ((8 <=? hour) && (hour <=? 18) && (day_of_week <? 5)));
   ("is_weekend", PBool (5 <=? day_of_week));
   ("shift", PStr (_get_shift hour))].

Section WithLibrary.
(** [float] on strings, [datetime.fromisoformat] ([None] for
    [ValueError]), [datetime.fromtimestamp(_, tz=utc)] (which raises for
    instants outside the supported years) and [datetime.isoformat]. *)
Variable float_of_string : string -> option Q.
Variable fromisoformat : string -> option datetime.
Variable fromtimestamp : Q -> result datetime.
Variable isoformat : datetime -> string.

(** [now] is the reading [datetime.now(timezone.utc)] gives when a
    fallback is taken. *)
Definition _parse_timestamp (now : datetime) (timestamp : pyval)
  : result datetime :=
  match timestamp with
  | PDatetime t => Ok t
  | PInt z => fromtimestamp (inject_Z z)
  | PBool b => fromtimestamp (if b then 1%Q else 0%Q)
  | PFloat q => fromtimestamp q
  | PStr s =>
      match fromisoformat (replace_Z s) with
      | Some t => Ok t
      | None =>
          match float_of_string s with
          | None => Ok now
          | Some q =>
              match fromtimestamp q with
              | Ok t => Ok t
              | Raise ValueError => Ok now
              | Raise e => Raise e
              end
          end
      end
  | PNone | PList _ | PDict _ => Ok now
  end.

(** A timestamp whose conversion does not leave the range of
    [datetime.fromtimestamp]: the only way [_parse_timestamp] raises. *)
Definition timestamp_in_range (timestamp : pyval) : bool :=
  match timestamp with
  | PInt z => returns (fromtimestamp (inject_Z z))
  | PBool b => returns (fromtimestamp (if b then 1%Q else 0%Q))
  | PFloat q => returns (fromtimestamp q)
  | PStr s =>
      match fromisoformat (replace_Z s), float_of_string s with
      | None, Some q =>
          match fromtimestamp q with
          | Ok _ | Raise ValueError => true
          | Raise _ => false
          end
      | _, _ => true
      end
  | _ => true
  end.

(** The block of [process] under "Normalize action". *)
Definition normalize_action (d : dict) : result dict :=
  match dict_lookup "action" d with
  | Some a =>
      bind (action_mappings_get a) (fun m =>
      Ok (dict_set "normalized_action" m d))
  | None => Ok d
  end.

(** The rest of [process]: derived quantities, the parsed timestamp, the
    business context and the value. *)
Definition derive_fields (now1 : datetime) (d2 : dict) : result dict :=
  bind (float_of float_of_string
          (dict_get_default "quantity" (PInt 0) d2)) (fun q_abs =>
  let d3 := dict_set "quantity_abs" (PFloat (Qabs q_abs)) d2 in
  bind (float_of float_of_string
          (dict_get_default "quantity" (PInt 0) d3)) (fun quantity =>
  let d4 :=
    if eq_str (dict_get "action" d3) "stock_out" then
      dict_set "quantity_normalized" (PFloat (- Qabs quantity))
        (dict_set "quantity_direction" (PStr "negative") d3)
    else
      dict_set "quantity_normalized" (PFloat (Qabs quantity))
        (dict_set "quantity_direction" (PStr "positive") d3) in
  bind (_parse_timestamp now1 (dict_get "timestamp" d4)) (fun ts =>
  let d5 := dict_set "timestamp_parsed" (PDatetime ts) d4 in
  let d6 := dict_set "business_context"
              (PDict (_get_business_context ts)) d5 in
  match dict_lookup "unit_price" d6 with
  | Some up =>
      bind (float_of float_of_string up) (fun price =>
      Ok (dict_set "total_value" (PFloat (Qabs q_abs * price)) d6))
  | None => Ok d6
  end))).

(** [process(data, metadata)]; [now0] is the clock reading stored in
    [processed_at], [now1] the one a timestamp fallback would take. *)
Definition process (now0 now1 : datetime) (data : dict) (metadata : pyval)
  : result dict :=
  let d1 := dict_set "processing"
              (PDict [("processed_at", PStr (isoformat now0));
                      ("processor", PStr "inventory_processor");
                      ("kafka_metadata", metadata)]) data in
  bind (normalize_action d1) (derive_fields now1).
End WithLibrary.

(** Library behaviour on the inputs the examples below use. *)
Definition sample_float_of_string (s : string) : option Q :=
  if String.eqb s "1705314600" then Some 1705314600%Q else None.

Definition sample_fromisoformat (s : string) : option datetime :=
  if String.eqb s "2024-03-11T10:00:00+00:00"
  then Some (mkDatetime 2024 3 11 10 0 0 0 (Some 0))
  else None.

Definition sample_fromtimestamp (q : Q) : result datetime :=
  if Qeq_bool q 1705314600
  then Ok (mkDatetime 2024 1 15 10 30 0 0 (Some 0))
  else Raise OverflowError.

Definition sample_isoformat (t : datetime) : string :=
  "2024-03-11T10:00:01+00:00".

Definition sample_now : datetime := mkDatetime 2024 3 11 10 0 1 0 (Some 0).

Definition sample_process : dict -> pyval -> result dict :=
  process sample_float_of_string sample_fromisoformat sample_fromtimestamp
    sample_isoformat sample_now sample_now.

Definition stock_out_event : dict :=
  [("item_id", PStr "I1"); ("action", PStr "stock_out");
   ("quantity", PInt 10); ("timestamp", PStr "2024-03-11T10:00:00Z")].

Definition stock_out_processed : dict :=
  Eval vm_compute in
    match sample_process stock_out_event PNone with
    | Ok out => out
    | Raise _ => []
    end.


(** A stock-out of [2 ^ 53 + 1] units, an integer no double holds. *)
Definition large_quantity_event : dict :=
  [("item_id", PStr "I1"); ("action", PStr "stock_out");
   ("quantity", PInt 9007199254740993);
   ("timestamp", PStr "2024-03-11T10:00:00Z")].

(** A stock-in of [10 ^ 400] units, an integer beyond the doubles. *)
Definition huge_quantity_event : dict :=
  [("item_id", PStr "I1"); ("action", PStr "stock_in");
   ("quantity", PInt (10 ^ 400));
   ("timestamp", PStr "2024-03-11T10:00:00Z")].

Definition large_quantity_processed : dict :=
  Eval vm_compute in
    match sample_process large_quantity_event PNone with
    | Ok out => out
    | Raise _ => []
    end.

End Processor.

(** ** TimeWindow (aggregators/base_aggregator.py) *)

Module Window.

Section Payload.
(** The record stored with each timestamp. *)
Context {A : Type}.

(** Timestamps are instants on one time line (microseconds), [window_size]
    a [timedelta] in the same unit; [data] is the deque, front first. *)
Record TimeWindow := mkTimeWindow {
  window_size : Z;
  data : list (Z * A)
}.

Definition new_window (size : Z) : TimeWindow := mkTimeWindow size [].

(** [while self.data and self.data[0][0] < cutoff_time: popleft()]. *)
Fixpoint popleft_while (cutoff_time : Z) (l : list (Z * A)) : list (Z * A) :=
  match l with
  | [] => []
  | e :: l' => if fst e <? cutoff_time then popleft_while cutoff_time l' else l
  end.

Definition _cleanup_old_data (current_time : Z) (w : TimeWindow)
  : TimeWindow :=
  let cutoff_time := current_time - window_size w in
  mkTimeWindow (window_size w) (popleft_while cutoff_time (data w)).

Definition add (timestamp : Z) (x : A) (w : TimeWindow) : TimeWindow :=
  _cleanup_old_data timestamp
    (mkTimeWindow (window_size w) (data w ++ [(timestamp, x)])).

Definition timestamps (w : TimeWindow) : list Z := map fst (data w).

(** Timestamps never decrease from the front to the back. *)
Fixpoint nondecreasing (l : list Z) : Prop :=
  match l with
  | [] => True
  | t :: l' => Forall (fun t' => t <= t') l' /\ nondecreasing l'
  end.
End Payload.
Arguments TimeWindow A : clear implicits.

End Window.

(** ** InventoryAnomalyDetector (anomaly_detection/base_detector.py,
       anomaly_detection/inventory_anomaly_detector.py) *)

Module Detector.
Import Py.

(** [AnomalyResult] without [details], a dictionary of diagnostic values
    that no detector reads back. *)
Record AnomalyResult := mkAnomalyResult {
  is_anomaly : bool;
  confidence : Q;
  anomaly_type : string;
  severity : string
}.

Definition no_anomaly : AnomalyResult :=
  mkAnomalyResult false 0%Q "none" "medium".

(** Rank of a severity label, high > medium > low. *)
Definition severity_rank (s : string) : Z :=
  if String.eqb s "high" then 2
  else if String.eqb s "medium" then 1
  else 0.

Definition Qltb (x y : Q) : bool := negb (Qle_bool y x).
Definition Qmin_b (x y : Q) : Q := if Qle_bool x y then x else y.
Definition Qmax_b (x y : Q) : Q := if Qle_bool x y then y else x.

(** The detector: [deque(maxlen=window_size)] with the oldest entry first. *)
Record Detector := mkDetector {
  window_size : nat;
  data_window : list dict
}.

Definition _add_to_window (data : dict) (st : Detector) : Detector :=
  let l := data_window st ++ [data] in
  mkDetector (window_size st) (drop (length l - window_size st)%nat l).

(** [a == b]. *)
Fixpoint py_eq (a b : pyval) {struct a} : bool :=
  match a, b with
  | PNone, PNone => true
  | PStr x, PStr y => String.eqb x y
  | PDatetime x, PDatetime y => datetime_eqb x y
  | PList x, PList y =>
      (fix go (x y : list pyval) {struct x} : bool :=
         match x, y with
         | [], [] => true
         | u :: x', v :: y' => py_eq u v && go x' y'
         | _, _ => false
         end) x y
  | PDict x, PDict y =>
      Nat.eqb (length x) (length y) &&
      (fix all (x : dict) : bool :=
         match x with
         | [] => true
         | (k, v) :: x' =>
             match dict_lookup k y with
             | Some v' => py_eq v v'
             | None => false
             end && all x'
         end) x
  | _, _ =>
      match num_of a, num_of b with
      | Some p, Some q => Qeq_bool p q
      | _, _ => false
      end
  end.

Definition is_none (v : pyval) : bool :=
  match v with
  | PNone => true
  | _ => false
  end.

(** Comprehensions whose condition or element may raise. *)
Fixpoint filter_m {A} (f : A -> result bool) (l : list A) : result (list A) :=
  match l with
  | [] => Ok []
  | x :: l' =>
      bind (f x) (fun b =>
      bind (filter_m f l') (fun r => Ok (if b then x :: r else r)))
  end.

Fixpoint map_m {A B} (f : A -> result B) (l : list A) : result (list B) :=
  match l with
  | [] => Ok []
  | x :: l' => bind (f x) (fun y => bind (map_m f l') (fun r => Ok (y :: r)))
  end.

(** [sum(values)] on Python numbers. *)
Fixpoint sum_m (l : list pyval) : result Q :=
  match l with
  | [] => Ok 0%Q
  | v :: l' =>
      match num_of v with
      | Some q => bind (sum_m l') (fun r => Ok (q + r)%Q)
      | None => Raise TypeError
      end
  end.

Definition Qsum (l : list Q) : Q := fold_right Qplus 0%Q l.
Definition Qlen {A} (l : list A) : Q := inject_Z (Z.of_nat (length l)).

(** [np.mean] and the square of [np.std]. *)
Definition mean (l : list Q) : Q := (Qsum l / Qlen l)%Q.

Definition variance (l : list Q) : Q :=
  let mu := mean l in
  mean (map (fun x => ((x - mu) * (x - mu))%Q) l).

(** The square of [_calculate_z_score], which is [|value - mean| / std]:
    a z-score exceeds a threshold [t >= 0] when its square exceeds [t * t]. *)
Definition z_score_sq (value : Q) (historical_values : list Q) : Q :=
  if (length historical_values <? 3)%nat then 0%Q
  else
    let var := variance historical_values in
    if Qeq_bool var 0 then 0%Q
    else
      let dev := (value - mean historical_values)%Q in
      (dev * dev / var)%Q.

Definition z_exceeds (z_sq threshold : Q) : bool :=
  Qltb (threshold * threshold) z_sq.

Definition z_score_threshold : Q := 3.
Definition negative_stock_threshold : Q := -10.
Definition rapid_depletion_threshold : Q := 8 / 10.
Definition unusual_location_threshold : Q := 95 / 100.

Definition _matches_pattern (d1 d2 : dict) : bool :=
  py_eq (dict_get "action" d1) (dict_get "action" d2) &&
  py_eq (dict_get "item_id" d1) (dict_get "item_id" d2).

Definition one_hour : Z := 3600 * 1000000.

(** [current_time - timedelta(hours=1)] needs a datetime. *)
Definition as_datetime (v : pyval) : result datetime :=
  match v with
  | PDatetime t => Ok t
  | _ => Raise TypeError
  end.

(** [ts > current_time - timedelta(hours=1)]: both aware or both naive. *)
Definition within_last_hour (ts : pyval) (current_time : datetime)
  : result bool :=
  match ts with
  | PDatetime t =>
      match dt_utcoffset t, dt_utcoffset current_time with
      | Some o, Some oc =>
          Ok (instant current_time oc - one_hour <? instant t o)
      | None, None => Ok (instant current_time 0 - one_hour <? instant t 0)
      | _, _ => Raise TypeError
      end
  | _ => Raise TypeError
  end.

(** [_get_historical_frequencies]: the fixed hourly counts. *)
Definition _get_historical_frequencies : list Q :=
  [5; 7; 3; 8; 6; 4; 9; 2; 6; 7]%Q.

Definition high_risk_factors : list string :=
  ["after_hours"; "bulk_transaction"; "unusual_location"].

Definition is_high_risk_factor (f : pyval) : bool :=
  existsb (eq_str f) high_risk_factors.

(** The elements a [for] loop over a value visits that can be a risk
    factor (the characters of a string never are). *)
Definition iterate (v : pyval) : result (list pyval) :=
  match v with
  | PList l => Ok l
  | PDict d => Ok (map (fun kv => PStr (fst kv)) d)
  | PStr _ => Ok []
  | _ => Raise TypeError
  end.

Section WithLibrary.
Variable float_of_string : string -> option Q.
Variable hash : pyval -> Z.

Variable st : Detector.
Variable data : dict.

(** [_detect_volume_anomaly]; when the z-score exceeds the threshold,
    [min(z_score / threshold, 1.0)] is [1.0]. *)
Definition _detect_volume_anomaly : result (option AnomalyResult) :=
  let current_value := dict_get "quantity_abs" data in
  if is_none current_value then Ok None else
  bind (float_of float_of_string current_value) (fun current_value =>
  bind (filter_m (fun d => Ok (_matches_pattern d data &&
                               negb (is_none (dict_get "quantity_abs" d))))
          (data_window st)) (fun matching =>
  bind (map_m (fun d => float_of float_of_string
                          (dict_get_default "quantity_abs" (PInt 0) d))
          matching) (fun historical_values =>
  if (length historical_values <? 5)%nat then Ok None else
  let z_sq := z_score_sq current_value historical_values in
  if z_exceeds z_sq z_score_threshold then
    Ok (Some (mkAnomalyResult true 1 "volume_anomaly"
                (if z_exceeds z_sq 5 then "high" else "medium")))
  else Ok None))).

Definition _get_after_hours_frequency (activity_type : pyval) : result Q :=
  let same := filter (fun d => py_eq (dict_get "action" d) activity_type)
                (data_window st) in
  if (length same =? 0)%nat then Ok (1 / 2)%Q else
  bind (filter_m (fun d =>
          bind (attr_get_default
                  (dict_get_default "business_context" (PDict []) d)
                  "is_business_hours" (PBool true)) (fun b =>
          Ok (negb (truthy b)))) same) (fun after_hours =>
  Ok (Qlen after_hours / Qlen same)%Q).

Definition _detect_time_based_anomaly : result (option AnomalyResult) :=
  let timestamp := dict_get "timestamp_parsed" data in
  if negb (truthy timestamp) then Ok None else
  match timestamp with
  | PDatetime _ =>
      bind (attr_get (dict_get_default "business_context" (PDict []) data)
              "is_business_hours") (fun is_business_hours =>
      if negb (truthy is_business_hours) then
        bind (_get_after_hours_frequency
                (dict_get_default "action" (PStr "unknown") data))
          (fun historical_after_hours =>
        if Qltb historical_after_hours (1 / 10) then
          Ok (Some (mkAnomalyResult true (7 / 10) "unusual_timing"
                      "medium"))
        else Ok None)
      else Ok None)
  | _ => Raise AttributeError
  end.

Definition _detect_frequency_anomaly : result (option AnomalyResult) :=
  let current_time := dict_get "timestamp_parsed" data in
  if negb (truthy current_time) then Ok None else
  bind (as_datetime current_time) (fun current_time =>
  bind (filter_m (fun d =>
          if _matches_pattern d data
             && truthy (dict_get "timestamp_parsed" d)
          then within_last_hour (dict_get "timestamp_parsed" d)
                 current_time
          else Ok false) (data_window st)) (fun recent =>
  let historical_hourly_counts := _get_historical_frequencies in
  if (length historical_hourly_counts <? 5)%nat then Ok None else
  let z_sq := z_score_sq (Qlen recent) historical_hourly_counts in
  if z_exceeds z_sq z_score_threshold then
    Ok (Some (mkAnomalyResult true 1 "frequency_anomaly" "medium"))
  else Ok None)).

Definition _get_current_stock_level (item_id : pyval) : result Q :=
  let stock_changes :=
    map (dict_get_default "quantity_normalized" (PInt 0))
      (filter (fun d => py_eq (dict_get "item_id" d) item_id)
         (data_window st)) in
  if negb (hashable item_id) then Raise TypeError else
  let baseline_stock := inject_Z (hash item_id mod 1000 + 100) in
  bind (sum_m stock_changes) (fun total =>
  Ok (Qmax_b (baseline_stock + total) 0)).

Definition _detect_negative_stock : result (option AnomalyResult) :=
  let action := dict_get "action" data in
  let quantity := dict_get_default "quantity_normalized" (PInt 0) data in
  let item_id := dict_get "item_id" data in
  if negb (eq_str action "stock_out") then Ok None else
  bind (_get_current_stock_level item_id) (fun current_stock =>
  match num_of quantity with
  | None => Raise TypeError
  | Some quantity =>
      let projected_stock := (current_stock + quantity)%Q in
      if Qltb projected_stock negative_stock_threshold then
        Ok (Some (mkAnomalyResult true (9 / 10) "negative_stock_risk"
                    "high"))
      else Ok None
  end).

Definition _detect_rapid_depletion : result (option AnomalyResult) :=
  let item_id := dict_get "item_id" data in
  let current_time := dict_get "timestamp_parsed" data in
  if negb (truthy current_time)
     || negb (eq_str (dict_get "action" data) "stock_out")
  then Ok None else
  bind (as_datetime current_time) (fun current_time =>
  bind (filter_m (fun d =>
          if py_eq (dict_get "item_id" d) item_id
             && eq_str (dict_get "action" d) "stock_out"
             && truthy (dict_get "timestamp_parsed" d)
          then within_last_hour (dict_get "timestamp_parsed" d)
                 current_time
          else Ok false) (data_window st)) (fun recent =>
  let recent_depletions :=
    map (dict_get_default "quantity_abs" (PInt 0)) recent in
  bind (sum_m recent_depletions) (fun total_depleted =>
  bind (_get_current_stock_level item_id) (fun current_stock =>
  if Qltb 0 current_stock then
    let depletion_rate := (total_depleted / current_stock)%Q in
    if Qltb rapid_depletion_threshold depletion_rate then
      Ok (Some (mkAnomalyResult true (Qmin_b depletion_rate 1)
                  "rapid_stock_depletion" "high"))
    else Ok None
  else Ok None)))).

Definition _detect_unusual_location_activity
  : result (option AnomalyResult) :=
  let location_id := dict_get "location_id" data in
  let item_id := dict_get "item_id" data in
  if negb (truthy location_id) || negb (truthy item_id) then Ok None else
  let historical_locations :=
    map (dict_get "location_id")
      (filter (fun d => py_eq (dict_get "item_id" d) item_id
                        && negb (is_none (dict_get "location_id" d)))
         (data_window st)) in
  if (length historical_locations <? 5)%nat then Ok None else
  if negb (forallb hashable historical_locations) then Raise TypeError else
  if negb (hashable location_id) then Raise TypeError else
  let total_transactions := Qlen historical_locations in
  let current_location_freq :=
    (Qlen (filter (fun loc => py_eq loc location_id) historical_locations)
     / total_transactions)%Q in
  if Qltb current_location_freq (1 - unusual_location_threshold) then
    Ok (Some (mkAnomalyResult true (1 - current_location_freq)
                "unusual_location" "medium"))
  else Ok None.

Definition _detect_high_value_anomalies : result (option AnomalyResult) :=
  let item_details := dict_get_default "item_details" (PDict []) data in
  let risk_assessment :=
    dict_get_default "risk_assessment" (PDict []) data in
  bind (attr_get item_details "high_value") (fun high_value =>
  if negb (truthy high_value) then Ok None else
  bind (attr_get_default risk_assessment "factors" (PList []))
    (fun risk_factors =>
  bind (iterate risk_factors) (fun risk_factors =>
  let present_high_risks := filter is_high_risk_factor risk_factors in
  if (2 <=? length present_high_risks)%nat then
    Ok (Some (mkAnomalyResult true (8 / 10) "high_value_risk_combination"
                "high"))
  else Ok None))).

Definition _detect_supplier_anomalies : result (option AnomalyResult) :=
  let action := dict_get "action" data in
  bind (attr_get (dict_get_default "item_details" (PDict []) data)
          "supplier") (fun supplier =>
  if negb (eq_str action "stock_in") || negb (truthy supplier)
  then Ok None else
  bind (filter_m (fun d =>
          if eq_str (dict_get "action" d) "stock_in" then
            bind (attr_get
                    (dict_get_default "item_details" (PDict []) d)
                    "supplier") (fun s => Ok (py_eq s supplier))
          else Ok false) (data_window st)) (fun recent_deliveries =>
  if (length recent_deliveries <? 3)%nat then Ok None else
  let current_time := dict_get "timestamp_parsed" data in
  if truthy current_time then
    let last10 :=
      drop (length recent_deliveries - 10)%nat recent_deliveries in
    bind (filter_m (fun d =>
            bind (attr_get_default
                    (dict_get_default "business_context" (PDict []) d)
                    "is_weekend" (PBool false)) (fun w => Ok (truthy w)))
            last10) (fun weekend_deliveries =>
    bind (attr_get (dict_get_default "business_context" (PDict []) data)
            "is_weekend") (fun is_weekend =>
    if truthy is_weekend
       && Qltb (Qlen weekend_deliveries / Qlen last10) (1 / 10)
    then
      Ok (Some (mkAnomalyResult true (7 / 10)
                  "unusual_supplier_delivery_timing" "low"))
    else Ok None))
  else Ok None)).

(** [if r: anomalies.append(r)]. *)
Definition append_some (r : option AnomalyResult) : list AnomalyResult :=
  match r with
  | Some a => [a]
  | None => []
  end.

Definition _detect_inventory_specific_anomalies
  : result (list AnomalyResult) :=
  bind _detect_negative_stock (fun negative_stock =>
  bind _detect_rapid_depletion (fun rapid_depletion =>
  bind _detect_unusual_location_activity (fun location_anomaly =>
  bind _detect_high_value_anomalies (fun high_value_anomaly =>
  bind _detect_supplier_anomalies (fun supplier_anomaly =>
  Ok (append_some negative_stock ++ append_some rapid_depletion ++
      append_some location_anomaly ++ append_some high_value_anomaly ++
      append_some supplier_anomaly)))))).

(** [if r and r.is_anomaly: anomalies.append(r)]. *)
Definition append_hit (r : option AnomalyResult) : list AnomalyResult :=
  match r with
  | Some a => if is_anomaly a then [a] else []
  | None => []
  end.

(** The list [anomalies] that [detect] builds, in detector order. *)
Definition anomalies : result (list AnomalyResult) :=
  bind _detect_volume_anomaly (fun volume_anomaly =>
  bind _detect_time_based_anomaly (fun time_anomaly =>
  bind _detect_frequency_anomaly (fun frequency_anomaly =>
  bind _detect_inventory_specific_anomalies (fun inventory_anomalies =>
  Ok (append_hit volume_anomaly ++ append_hit time_anomaly ++
      append_hit frequency_anomaly ++ inventory_anomalies))))).
End WithLibrary.

(** [max(anomalies, key=lambda x: x.confidence)] on a non-empty list: the
    running best is replaced only by a strictly greater key. *)
Fixpoint max_by_confidence (best : AnomalyResult) (l : list AnomalyResult)
  : AnomalyResult :=
  match l with
  | [] => best
  | x :: l' =>
      if Qltb (confidence best) (confidence x)
      then max_by_confidence x l'
      else max_by_confidence best l'
  end.

(** The end of [detect]: no anomaly, or the maximum. *)
Definition select (anomalies : list AnomalyResult) : AnomalyResult :=
  match anomalies with
  | [] => no_anomaly
  | a :: l => max_by_confidence a l
  end.

Definition detect (float_of_string : string -> option Q) (hash : pyval -> Z)
    (data : dict) (st : Detector) : result AnomalyResult * Detector :=
  let st1 := _add_to_window data st in
  (bind (anomalies float_of_string hash st1 data) (fun l => Ok (select l)),
   st1).

(** [detect] on each event of a list in turn: the last result and the
    detector afterwards. *)
Fixpoint detect_all (float_of_string : string -> option Q)
    (hash : pyval -> Z) (events : list dict) (st : Detector)
    (last : result AnomalyResult) : result AnomalyResult * Detector :=
  match events with
  | [] => (last, st)
  | e :: events' =>
      let '(r, st1) := detect float_of_string hash e st in
      detect_all float_of_string hash events' st1 r
  end.

(** Thirteen stock-outs of five units of item 1000 within a minute, in
    business hours.  An integer is its own hash, so the baseline stock of
    the item is [1000 % 1000 + 100 = 100]. *)
Definition sample_hash (v : pyval) : Z :=
  match v with
  | PInt z => z
  | _ => 0
  end.

Definition sample_float_of_string (s : string) : option Q := None.

Definition depletion_event (second : Z) : dict :=
  [("item_id", PInt 1000); ("action", PStr "stock_out");
   ("quantity", PInt 5); ("quantity_abs", PFloat 5);
   ("quantity_normalized", PFloat (-5));
   ("timestamp_parsed",
      PDatetime (mkDatetime 2024 3 11 10 0 second 0 (Some 0)));
   ("business_context",
      PDict [("hour", PInt 10); ("day_of_week", PInt 0);
             ("is_business_hours", PBool true);
             ("is_weekend", PBool false); ("shift", PStr "morning")])].

Definition depletion_events : list dict :=
  map depletion_event [0; 1; 2; 3; 4; 5; 6; 7; 8; 9; 10; 11; 12].

Definition new_detector : Detector := mkDetector 1000 [].

Definition detector_after_twelve : Detector :=
  snd (detect_all sample_float_of_string sample_hash
         (take 12 depletion_events) new_detector (Ok no_anomaly)).

Definition frequency_hit : AnomalyResult :=
  mkAnomalyResult true 1 "frequency_anomaly" "medium".

Definition depletion_hit : AnomalyResult :=
  mkAnomalyResult true 1 "rapid_stock_depletion" "high".

End Detector.

(** ** AlertManager (monitoring/alerting/alert_manager.py) *)

Module Alerting.

Inductive AlertSeverity := INFO | WARNING | ERROR | CRITICAL.
Inductive AlertStatus := ACTIVE | RESOLVED | ACKNOWLEDGED.

(** [AlertSeverity(value)]: [None] when the enum raises [ValueError]. *)
Definition AlertSeverity_of_value (value : string) : option AlertSeverity :=
  if String.eqb value "info" then Some INFO
  else if String.eqb value "warning" then Some WARNING
  else if String.eqb value "error" then Some ERROR
  else if String.eqb value "critical" then Some CRITICAL
  else None.

Definition severity_levels (s : AlertSeverity) : Z :=
  match s with
  | INFO => 0
  | WARNING => 1
  | ERROR => 2
  | CRITICAL => 3
  end.

Record Alert := mkAlert {
  alert_id : string;
  title : string;
  description : string;
  severity : AlertSeverity;
  source : string;
  timestamp : Z;
  metadata : Py.dict;
  status : AlertStatus;
  acknowledged_by : option string;
  acknowledged_at : option Z;
  resolved_at : option Z
}.

(** [Alert.__init__]; [now] is the clock reading taken for [timestamp]. *)
Definition new_alert (now : Z) (alert_id title description : string)
    (severity : AlertSeverity) (source : string)
    (metadata : option Py.dict) : Alert :=
  mkAlert alert_id title description severity source now
    (match metadata with Some md => md | None => [] end)
    ACTIVE None None None.

Definition acknowledge (now : Z) (user : string) (a : Alert) : Alert :=
  mkAlert (alert_id a) (title a) (description a) (severity a) (source a)
    (timestamp a) (metadata a) ACKNOWLEDGED (Some user) (Some now)
    (resolved_at a).

Definition resolve (now : Z) (a : Alert) : Alert :=
  mkAlert (alert_id a) (title a) (description a) (severity a) (source a)
    (timestamp a) (metadata a) RESOLVED (acknowledged_by a)
    (acknowledged_at a) (Some now).

(** A notification channel: what its [send] coroutine yields for an alert. *)
Record NotificationChannel := mkChannel {
  channel_name : string;
  send : Alert -> Py.result bool
}.

(** The manager: the configured [min_notification_severity] ([None] when the
    key is absent), the alerts by id, the channels, and the trace of
    [channel.send(alert)] calls made so far, as (channel index, alert). *)
Record AlertManager := mkAlertManager {
  config_min_notification_severity : option string;
  active_alerts : gmap string Alert;
  notification_channels : list NotificationChannel;
  sent : list (nat * Alert)
}.

Definition with_alerts (m : AlertManager) (alerts : gmap string Alert)
  : AlertManager :=
  mkAlertManager (config_min_notification_severity m) alerts
    (notification_channels m) (sent m).

Definition with_sent (m : AlertManager) (log : list (nat * Alert))
  : AlertManager :=
  mkAlertManager (config_min_notification_severity m) (active_alerts m)
    (notification_channels m) log.

(** One [channel.send(alert)] task per channel, in channel order. *)
Definition dispatch (channels : list NotificationChannel) (a : Alert)
  : list (nat * Alert) :=
  imap (fun i _ => (i, a)) channels.

(** [self.config.get('min_notification_severity', 'warning')] as an enum. *)
Definition min_severity (m : AlertManager) : option AlertSeverity :=
  AlertSeverity_of_value
    (match config_min_notification_severity m with
     | Some v => v
     | None => "warning"
     end).

(** [_send_notifications]: the result and the manager afterwards. *)
Definition _send_notifications (a : Alert) (m : AlertManager)
  : Py.result unit * AlertManager :=
  match min_severity m with
  | None => (Py.Raise Py.ValueError, m)
  | Some min_sev =>
      if severity_levels (severity a) <? severity_levels min_sev
      then (Py.Ok tt, m)
      else (Py.Ok tt,
            with_sent m (sent m ++ dispatch (notification_channels m) a))
  end.

(** [create_alert]; a raise inside [_send_notifications] leaves the alert
    already stored. *)
Definition create_alert (now : Z) (alert_id title description : string)
    (severity : AlertSeverity) (source : string)
    (metadata : option Py.dict) (m : AlertManager)
  : Py.result Alert * AlertManager :=
  let create :=
    let alert :=
      new_alert now alert_id title description severity source metadata in
    let m1 := with_alerts m (<[alert_id := alert]> (active_alerts m)) in
    match _send_notifications alert m1 with
    | (Py.Ok _, m2) => (Py.Ok alert, m2)
    | (Py.Raise e, m2) => (Py.Raise e, m2)
    end in
  match active_alerts m !! alert_id with
  | Some existing_alert =>
      match status existing_alert with
      | ACTIVE => (Py.Ok existing_alert, m)
      | _ => create
      end
  | None => create
  end.

Definition acknowledge_alert (now : Z) (alert_id user : string)
    (m : AlertManager) : bool * AlertManager :=
  match active_alerts m !! alert_id with
  | None => (false, m)
  | Some alert =>
      (true,
       with_alerts m (<[alert_id := acknowledge now user alert]>
                        (active_alerts m)))
  end.

Definition resolve_alert (now : Z) (alert_id : string) (m : AlertManager)
  : bool * AlertManager :=
  match active_alerts m !! alert_id with
  | None => (false, m)
  | Some _ => (true, with_alerts m (delete alert_id (active_alerts m)))
  end.

(** The sends a run has added to the trace. *)
Definition sent_since (m0 m1 : AlertManager) : list (nat * Alert) :=
  drop (length (sent m0)) (sent m1).

(** A manager with the default threshold and one chat channel. *)
Definition sample_channel : NotificationChannel :=
  mkChannel "slack" (fun _ => Py.Ok true).

Definition sample_manager : AlertManager :=
  mkAlertManager None ∅ [sample_channel] [].

Definition sample_create (now : Z) (severity : AlertSeverity)
    (m : AlertManager) : Py.result Alert * AlertManager :=
  create_alert now "A1" "Stock low" "Stock below reorder point" severity
    "inventory" None m.

End Alerting.

(** ** StorageManager (storage/storage_manager.py) *)

Module Storage.
Import Py.

(** [str.lower] on ASCII letters and ['needle' in haystack]. *)
Definition lower_ascii (c : ascii) : ascii :=
  let n := nat_of_ascii c in
  if (65 <=? n)%nat && (n <=? 90)%nat then ascii_of_nat (n + 32) else c.

Fixpoint lower (s : string) : string :=
  match s with
  | EmptyString => EmptyString
  | String c s' => String (lower_ascii c) (lower s')
  end.

Fixpoint contains (needle haystack : string) : bool :=
  String.prefix needle haystack ||
  match haystack with
  | EmptyString => false
  | String _ h' => contains needle h'
  end.

(** [x.lower()] on an arbitrary value: only strings have the method. *)
Definition lower_of (v : pyval) : result string :=
  match v with
  | PStr s => Ok (lower s)
  | _ => Raise AttributeError
  end.

(** A storage adapter as the manager sees it: what [store(data)] yields. *)
Definition adapter := dict -> result bool.

Record StorageManager := mkStorageManager {
  routing_rules : list (string * list string);
  adapters : list (string * adapter)
}.

Definition default_routing_rules : list (string * list string) :=
  [("metrics", ["influxdb"]);
   ("logs", ["elasticsearch"]);
   ("alerts", ["elasticsearch"; "clickhouse"]);
   ("events", ["clickhouse"]);
   ("aggregated", ["clickhouse"]);
   ("performance", ["influxdb"; "clickhouse"])].

Fixpoint lookup_assoc {V : Type} (k : string) (l : list (string * V))
  : option V :=
  match l with
  | [] => None
  | (k', v) :: l' => if String.eqb k k' then Some v else lookup_assoc k l'
  end.

Definition _infer_data_type (data : dict) : result string :=
  if dict_in "metric_name" data || dict_in "measurement" data then
    Ok "metrics"
  else
    bind (lower_of (dict_get_default "event_type" (PStr "") data))
      (fun event_type =>
    if contains "alert" event_type || truthy (dict_get "severity" data) then
      Ok "alerts"
    else
      bind (lower_of (dict_get_default "data_type" (PStr "") data))
        (fun data_type =>
      if contains "aggregated" data_type then Ok "aggregated"
      else
        bind (lower_of (dict_get_default "source" (PStr "") data))
          (fun source =>
        if contains "performance" source then Ok "performance"
        else if truthy (dict_get "level" data)
                || truthy (dict_get "message" data) then Ok "logs"
        else Ok "events"))).

Definition _get_target_adapters (m : StorageManager) (data_type : string)
  : list string :=
  match lookup_assoc data_type (routing_rules m) with
  | Some l => l
  | None => ["clickhouse"]
  end.

(** [_store_to_adapter]: any exception of the adapter becomes [False]. *)
Definition _store_to_adapter (m : StorageManager) (adapter_name : string)
    (data : dict) : result bool :=
  match lookup_assoc adapter_name (adapters m) with
  | Some a =>
      match a data with
      | Ok b => Ok b
      | Raise _ => Ok false
      end
  | None => Raise KeyError
  end.

Definition available (m : StorageManager) (adapter_name : string) : bool :=
  match lookup_assoc adapter_name (adapters m) with
  | Some _ => true
  | None => false
  end.

(** [resolved] is the data type [store_data] routes [data] by: the type
    given when there is one and it is not empty, else the type
    [_infer_data_type] returns. *)
Definition routed_as (data : dict) (data_type : option string)
    (resolved : string) : Prop :=
  (exists t, data_type = Some t /\ t <> "" /\ resolved = t) \/
  ((data_type = None \/ data_type = Some "") /\
   _infer_data_type data = Ok resolved).

(** The data type [store_data] routes by: the argument unless it is [None]
    or empty, else the inferred one. *)
Definition resolve_data_type (data : dict) (data_type : option string)
  : result string :=
  match data_type with
  | Some t => if String.eqb t "" then _infer_data_type data else Ok t
  | None => _infer_data_type data
  end.

(** [store_data]: the first loop records the unavailable adapters and
    creates a task for each other one; the second awaits the tasks. *)
Definition store_data (m : StorageManager) (data : dict)
    (data_type : option string) : result (gmap string bool) :=
  bind (resolve_data_type data data_type) (fun data_type =>
  let target_adapters := _get_target_adapters m data_type in
  match target_adapters with
  | [] => Ok ∅
  | _ =>
      let results :=
        foldl (fun (acc : gmap string bool) adapter_name =>
                 if available m adapter_name then acc
                 else <[adapter_name := false]> acc)
              ∅ target_adapters in
      let tasks := filter (fun n => available m n = true) target_adapters in
      Ok (foldl (fun (acc : gmap string bool) adapter_name =>
                   match _store_to_adapter m adapter_name data with
                   | Ok success => <[adapter_name := success]> acc
                   | Raise _ => <[adapter_name := false]> acc
                   end)
                results tasks)
  end).

(** What one adapter alone contributes for a record. *)
Definition adapter_outcome (m : StorageManager) (adapter_name : string)
    (data : dict) : bool :=
  match lookup_assoc adapter_name (adapters m) with
  | Some a =>
      match a data with
      | Ok b => b
      | Raise _ => false
      end
  | None => false
  end.

(** The partial-failure scenario: the search adapter stores the record, the
    warehouse adapter raises [WriteError]. *)
Definition sample_manager : StorageManager :=
  mkStorageManager default_routing_rules
    [("elasticsearch", fun _ => Ok true);
     ("clickhouse", fun _ => Raise WriteError)].

Definition sample_alert_record : dict :=
  [("type", PStr "inventory_anomaly"); ("item_id", PStr "I1");
   ("severity", PStr "high")].

(** A record whose [event_type] is [null]. *)
Definition null_event_type_record : dict :=
  [("event_type", PNone); ("item_id", PStr "I1")].

Definition sample_alert_record_reordered : dict :=
  [("severity", PStr "high"); ("item_id", PStr "I1");
   ("type", PStr "inventory_anomaly")].

Definition sample_manager_search_only : StorageManager :=
  mkStorageManager default_routing_rules
    [("elasticsearch", fun _ => Ok false)].

(** Two records with the same keys and values, whatever their order. *)
Definition same_content (d1 d2 : dict) : Prop :=
  forall k, dict_lookup k d1 = dict_lookup k d2.

End Storage.

(** ** InventoryEnricher (enrichers/inventory_enricher.py) *)

Module Enricher.
Import Py.

(** A dictionary keyed by arbitrary hashable values. *)
Abbreviation cache := (list (pyval * pyval)).

Fixpoint cache_lookup (k : pyval) (c : cache) : option pyval :=
  match c with
  | [] => None
  | (k', v) :: c' => if key_eqb k k' then Some v else cache_lookup k c'
  end.

Fixpoint cache_set (k v : pyval) (c : cache) : cache :=
  match c with
  | [] => [(k, v)]
  | (k', v') :: c' =>
      if key_eqb k k' then (k', v) :: c' else (k', v') :: cache_set k v c'
  end.

(** The Redis server as a client sees it while [enrich] runs: the stored
    texts by key, decoded ([None] for a text [json.loads] rejects), and
    whether [get] and [setex] raise.  Entries do not expire meanwhile. *)
Record RedisClient := mkRedis {
  redis_store : gmap string (option pyval);
  get_raises : bool;
  setex_raises : bool
}.

(** The [try] block around [redis_client.get] and [json.loads]: the cached
    value, or [None] when the key is missing or an exception is caught. *)
Definition redis_cached (c : RedisClient) (key : string) : option pyval :=
  if get_raises c then None
  else
    match redis_store c !! key with
    | Some (Some v) => Some v
    | Some None | None => None
    end.

(** The [try] block around [redis_client.setex]. *)
Definition redis_setex (c : RedisClient) (key : string) (v : pyval)
  : RedisClient :=
  if setex_raises c then c
  else mkRedis (<[key := Some v]> (redis_store c)) (get_raises c)
         (setex_raises c).

(** The enricher: the Redis client when one is set, and the two in-memory
    caches. *)
Record InventoryEnricher := mkEnricher {
  redis_client : option RedisClient;
  item_cache : cache;
  location_cache : cache
}.

Definition nth_str (l : list string) (i : Z) : string :=
  nth (Z.to_nat i) l "".

Definition _get_volume_category (data : dict) : result string :=
  let quantity := dict_get_default "quantity_abs" (PInt 0) data in
  bind (lt_num quantity 10) (fun b1 =>
  if b1 then Ok "low" else
  bind (lt_num quantity 100) (fun b2 =>
  if b2 then Ok "medium" else
  bind (lt_num quantity 1000) (fun b3 =>
  if b3 then Ok "high" else Ok "bulk"))).

Definition _get_value_category (data : dict) : result string :=
  let total_value := dict_get "total_value" data in
  if negb (truthy total_value) then Ok "unknown" else
  bind (lt_num total_value 100) (fun b1 =>
  if b1 then Ok "low" else
  bind (lt_num total_value 1000) (fun b2 =>
  if b2 then Ok "medium" else
  bind (lt_num total_value 10000) (fun b3 =>
  if b3 then Ok "high" else Ok "critical"))).

Definition _get_urgency_level (data : dict) : result string :=
  let item_details := dict_get_default "item_details" (PDict []) data in
  bind (attr_get item_details "perishable") (fun perishable =>
  if truthy perishable then Ok "high" else
  bind (attr_get item_details "high_value") (fun high_value =>
  if truthy high_value then Ok "high"
  else if eq_str (dict_get "action" data) "stock_out" then Ok "medium"
  else Ok "low")).

Definition _classify_inventory_event (data : dict) : result dict :=
  bind (_get_volume_category data) (fun volume_category =>
  bind (_get_value_category data) (fun value_category =>
  bind (_get_urgency_level data) (fun urgency =>
  Ok [("event_type",
         dict_get_default "normalized_action" (PStr "unknown") data);
      ("volume_category", PStr volume_category);
      ("value_category", PStr value_category);
      ("urgency", PStr urgency)]))).

Definition _assess_risk (data : dict) : result dict :=
  bind (attr_get (dict_get_default "item_details" (PDict []) data)
          "high_value") (fun high_value =>
  let '(f1, s1) :=
    if truthy high_value then (["high_value_item"], 3) else ([], 0) in
  bind (attr_get (dict_get_default "classification" (PDict []) data)
          "volume_category") (fun volume_category =>
  let '(f2, s2) :=
    if eq_str volume_category "bulk"
    then ((f1 ++ ["bulk_transaction"])%list, s1 + 2) else (f1, s1) in
  bind (attr_get (dict_get_default "business_context" (PDict []) data)
          "is_business_hours") (fun is_business_hours =>
  let '(f3, s3) :=
    if negb (truthy is_business_hours)
    then ((f2 ++ ["after_hours"])%list, s2 + 1) else (f2, s2) in
  bind (attr_get (dict_get_default "item_details" (PDict []) data)
          "perishable") (fun perishable =>
  let '(risk_factors, risk_score) :=
    if truthy perishable
    then ((f3 ++ ["perishable_item"])%list, s3 + 1) else (f3, s3) in
  let risk_level :=
    if 5 <=? risk_score then "high"
    else if 3 <=? risk_score then "medium"
    else "low" in
  Ok [("score", PInt risk_score);
      ("level", PStr risk_level);
      ("factors", PList (map PStr risk_factors))])))).

Definition season_of (month : Z) : string :=
  if (month =? 12) || (month =? 1) || (month =? 2) then "winter"
  else if (month =? 3) || (month =? 4) || (month =? 5) then "spring"
  else if (month =? 6) || (month =? 7) || (month =? 8) then "summer"
  else "fall".

Definition _get_seasonal_context (data : dict) : result dict :=
  let timestamp := dict_get "timestamp_parsed" data in
  if negb (truthy timestamp) then Ok [] else
  match timestamp with
  | PDatetime t =>
      let month := dt_month t in
      let season := season_of month in
      bind (attr_get_default
              (dict_get_default "item_details" (PDict []) data)
              "category" (PStr "")) (fun category =>
      let seasonal_demand :=
        if String.eqb season "winter" && eq_str category "Clothing"
        then "high"
        else if String.eqb season "summer" && eq_str category "Electronics"
        then "high"
        else "normal" in
      Ok [("season", PStr season);
          ("month", PInt month);
          ("seasonal_demand", PStr seasonal_demand)])
  | _ => Raise AttributeError
  end.

(** Two records that agree on every key outside [ks]. *)
Definition agree_except (ks : list string) (a b : dict) : Prop :=
  forall k, forallb (fun k' => negb (String.eqb k k')) ks = true ->
            dict_lookup k a = dict_lookup k b.

Section WithLibrary.
(** The built-in [hash] on hashable values and [str] as an f-string
    formats a value. *)
Variable hash : pyval -> Z.
Variable str_of : pyval -> string.

Definition _generate_mock_item_details (item_id : pyval) : dict :=
  let hash_val := hash item_id mod 1000 in
  [("name", PStr ("Item_" +:+ str_of item_id));
   ("category",
      PStr (nth_str ["Electronics"; "Clothing"; "Food"; "Tools"; "Books"]
              (hash_val mod 5)));
   ("supplier",
      PStr (nth_str ["Supplier_A"; "Supplier_B"; "Supplier_C"; "Supplier_D"]
              (hash_val mod 4)));
   ("unit_cost", PInt (10 + hash_val mod 100));
   ("weight", PFloat ((1 + inject_Z (hash_val mod 50)) / 10));
   ("perishable", PBool (hash_val mod 4 =? 0));
   ("high_value", PBool (hash_val mod 10 =? 0));
   ("reorder_point", PInt (50 + hash_val mod 100));
   ("max_stock", PInt (500 + hash_val mod 1000))].

Definition _generate_mock_location_details (location_id : pyval) : dict :=
  let hash_val := hash location_id mod 100 in
  [("zone", PStr (nth_str ["A"; "B"; "C"; "D"] (hash_val mod 4)));
   ("type",
      PStr (nth_str ["storage"; "picking"; "shipping"; "receiving"]
              (hash_val mod 4)));
   ("capacity", PInt (1000 + hash_val mod 5000));
   ("temperature_controlled", PBool (hash_val mod 5 =? 0));
   ("automated", PBool (hash_val mod 3 =? 0))].

Definition redis_key (item_id : pyval) : string :=
  "item:" +:+ str_of item_id.

(** [_get_item_details]: the value returned ([None] as [None]) and the
    enricher afterwards. *)
Definition _get_item_details (item_id : pyval) (st : InventoryEnricher)
  : result (option pyval) * InventoryEnricher :=
  if negb (truthy item_id) then (Ok None, st) else
  match match redis_client st with
        | Some c => redis_cached c (redis_key item_id)
        | None => None
        end with
  | Some cached_data => (Ok (Some cached_data), st)
  | None =>
      if negb (hashable item_id) then (Raise TypeError, st) else
      match cache_lookup item_id (item_cache st) with
      | Some details => (Ok (Some details), st)
      | None =>
          let mock_details := PDict (_generate_mock_item_details item_id) in
          (Ok (Some mock_details),
           mkEnricher
             (match redis_client st with
              | Some c => Some (redis_setex c (redis_key item_id) mock_details)
              | None => None
              end)
             (cache_set item_id mock_details (item_cache st))
             (location_cache st))
      end
  end.

Definition _get_location_details (location_id : pyval)
    (st : InventoryEnricher)
  : result (option pyval) * InventoryEnricher :=
  if negb (truthy location_id) then (Ok None, st) else
  if negb (hashable location_id) then (Raise TypeError, st) else
  match cache_lookup location_id (location_cache st) with
  | Some details => (Ok (Some details), st)
  | None =>
      let mock_details :=
        PDict (_generate_mock_location_details location_id) in
      (Ok (Some mock_details),
       mkEnricher (redis_client st) (item_cache st)
         (cache_set location_id mock_details (location_cache st)))
  end.

(** [if details: enriched_data[key] = details]. *)
Definition set_if_truthy (key : string) (details : option pyval)
    (d : dict) : dict :=
  match details with
  | Some v => if truthy v then dict_set key v d else d
  | None => d
  end.

Definition enrich (data : dict) (st : InventoryEnricher)
  : result dict * InventoryEnricher :=
  match _get_item_details (dict_get "item_id" data) st with
  | (Raise e, st1) => (Raise e, st1)
  | (Ok item_details, st1) =>
      let d1 := set_if_truthy "item_details" item_details data in
      match _get_location_details (dict_get "location_id" data) st1 with
      | (Raise e, st2) => (Raise e, st2)
      | (Ok location_details, st2) =>
          let d2 := set_if_truthy "location_details" location_details d1 in
          (bind (_classify_inventory_event d2) (fun classification =>
           let d3 := dict_set "classification" (PDict classification) d2 in
           bind (_assess_risk d3) (fun risk_assessment =>
           let d4 :=
             dict_set "risk_assessment" (PDict risk_assessment) d3 in
           bind (_get_seasonal_context d4) (fun seasonal_context =>
           Ok (dict_set "seasonal_context" (PDict seasonal_context) d4)))),
           st2)
      end
  end.
End WithLibrary.

(** A hash and a formatter for the examples, and the stock-out event of the
    processor's example enriched by an enricher with empty caches and an
    empty, reachable Redis. *)
Definition sample_hash (v : pyval) : Z :=
  match v with
  | PStr s => Z.of_nat (String.length s) * 7
  | PInt z => z
  | _ => 0
  end.

Definition sample_str_of (v : pyval) : string :=
  match v with
  | PStr s => s
  | _ => ""
  end.

Definition new_enricher : InventoryEnricher :=
  mkEnricher (Some (mkRedis ∅ false false)) [] [].

Definition sample_enriched : dict :=
  Eval vm_compute in
    match enrich sample_hash sample_str_of Processor.stock_out_processed
            new_enricher with
    | (Ok d, _) => d
    | (Raise _, _) => []
    end.

Definition sample_enricher_after : InventoryEnricher :=
  Eval vm_compute in
    snd (enrich sample_hash sample_str_of Processor.stock_out_processed
           new_enricher).

End Enricher.

(** ** InventoryConsumer and BaseConsumer (consumers/inventory_consumer.py,
       consumers/base_consumer.py) *)

Module Consumer.
Import Py.

(** A record polled from the bus, with its decoded JSON value. *)
Record ConsumerRecord := mkConsumerRecord {
  topic : string;
  partition : Z;
  offset : Z;
  timestamp : Z;
  key : pyval;
  value : pyval
}.

Definition get_message_metadata (message : ConsumerRecord) : pyval :=
  PDict [("topic", PStr (topic message));
         ("partition", PInt (partition message));
         ("offset", PInt (offset message));
         ("timestamp", PInt (timestamp message));
         ("key", key message)].

Definition required_fields : list string :=
  ["item_id"; "action"; "quantity"; "timestamp"].

Definition valid_actions : list string :=
  ["stock_in"; "stock_out"; "adjustment"; "transfer"].

(** The normalized names of the valid actions. *)
Definition normalized_actions : list string :=
  ["inbound"; "outbound"; "adjustment"; "transfer"].

(** [AnomalyResult] is a plain class: it defines no [get], so the attribute
    lookup [anomaly_result.get] raises. *)
Definition anomaly_result_get (r : Detector.AnomalyResult) (k : string)
  : result pyval :=
  Raise AttributeError.

(** The consumer: its enricher and detector, and the messages handed to
    [kafka_client.send_message] so far, as (topic, key, value). *)
Record InventoryConsumer := mkInventoryConsumer {
  enricher : Enricher.InventoryEnricher;
  anomaly_detector : Detector.Detector;
  produced : list (string * pyval * dict)
}.

Definition ALERTS : string := "warehouse.alerts".
Definition PROCESSED_INVENTORY : string := "warehouse.processed.inventory".

Section WithLibrary.
Variable float_of_string : string -> option Q.
Variable fromisoformat : string -> option datetime.
Variable fromtimestamp : Q -> result datetime.
Variable isoformat : datetime -> string.
Variable hash : pyval -> Z.
Variable str_of : pyval -> string.

Definition _validate_inventory_message (data : dict) : result bool :=
  if negb (forallb (fun field => dict_in field data) required_fields)
  then Ok false
  else if negb (existsb (eq_str (dict_get "action" data)) valid_actions)
  then Ok false
  else
    match float_of float_of_string (dict_get "quantity" data) with
    | Ok quantity =>
        if Detector.Qltb quantity 0
           && existsb (eq_str (dict_get "action" data)) ["stock_in"]
        then Ok false
        else Ok true
    | Raise ValueError | Raise TypeError => Ok false
    | Raise e => Raise e
    end.

(** [_handle_anomaly]: the alert is built from [anomaly_result.get] calls
    and then sent to the alerts topic. *)
Definition _handle_anomaly (data : dict)
    (anomaly_result : Detector.AnomalyResult) (c : InventoryConsumer)
  : result unit * InventoryConsumer :=
  match
    bind (anomaly_result_get anomaly_result "anomaly_type") (fun a_type =>
    bind (anomaly_result_get anomaly_result "confidence") (fun conf =>
    bind (anomaly_result_get anomaly_result "details") (fun details =>
    bind (anomaly_result_get anomaly_result "severity") (fun sev =>
    Ok [("type", PStr "inventory_anomaly");
        ("item_id", dict_get "item_id" data);
        ("anomaly_type", a_type);
        ("confidence", conf);
        ("details", details);
        ("timestamp", dict_get "timestamp" data);
        ("severity", sev)]))))
  with
  | Ok alert_data =>
      (Ok tt,
       mkInventoryConsumer (enricher c) (anomaly_detector c)
         (produced c ++
          [(ALERTS, PStr ("anomaly_" +:+ str_of (dict_get "item_id" data)),
            alert_data)]))
  | Raise e => (Raise e, c)
  end.

(** [process_message]: every exception is caught and gives [None].  [now0]
    and [now1] are the clock readings the processor takes. *)
Definition process_message (now0 now1 : datetime) (message : ConsumerRecord)
    (c : InventoryConsumer) : option dict * InventoryConsumer :=
  match value message with
  | PDict data =>
      let metadata := get_message_metadata message in
      match _validate_inventory_message data with
      | Raise _ | Ok false => (None, c)
      | Ok true =>
          match Processor.process float_of_string fromisoformat fromtimestamp
                  isoformat now0 now1 data metadata with
          | Raise _ => (None, c)
          | Ok processed_data =>
              match Enricher.enrich hash str_of processed_data (enricher c)
              with
              | (Raise _, e1) =>
                  (None,
                   mkInventoryConsumer e1 (anomaly_detector c) (produced c))
              | (Ok enriched_data, e1) =>
                  let c1 :=
                    mkInventoryConsumer e1 (anomaly_detector c)
                      (produced c) in
                  match Detector.detect float_of_string hash enriched_data
                          (anomaly_detector c1) with
                  | (Raise _, d1) =>
                      (None, mkInventoryConsumer e1 d1 (produced c))
                  | (Ok anomaly_result, d1) =>
                      let c2 := mkInventoryConsumer e1 d1 (produced c) in
                      match anomaly_result_get anomaly_result "is_anomaly"
                      with
                      | Raise _ => (None, c2)
                      | Ok flag =>
                          if truthy flag then
                            match _handle_anomaly enriched_data
                                    anomaly_result c2 with
                            | (Ok _, c3) => (Some enriched_data, c3)
                            | (Raise _, c3) => (None, c3)
                            end
                          else (Some enriched_data, c2)
                      end
                  end
              end
          end
      end
  | _ => (None, c)
  end.

(** [process_message] as [_process_batch] calls it; [clock] gives the two
    clock readings taken while a message is processed. *)
Definition process_message_clocked
    (clock : ConsumerRecord -> datetime * datetime)
    (message : ConsumerRecord) (c : InventoryConsumer)
  : result (option dict) * InventoryConsumer :=
  let r := process_message (fst (clock message)) (snd (clock message))
             message c in
  (Ok (fst r), snd r).
End WithLibrary.

(** [BaseAnomalyDetector.batch_detect]: the first [detect] that raises
    ends the loop. *)
Fixpoint batch_detect (float_of_string : string -> option Q)
    (hash : pyval -> Z) (data_batch : list dict) (st : Detector.Detector)
  : result (list Detector.AnomalyResult) * Detector.Detector :=
  match data_batch with
  | [] => (Ok [], st)
  | data :: data_batch' =>
      match Detector.detect float_of_string hash data st with
      | (Ok r, st1) =>
          match batch_detect float_of_string hash data_batch' st1 with
          | (Ok results, st2) => (Ok (r :: results), st2)
          | (Raise e, st2) => (Raise e, st2)
          end
      | (Raise e, st1) => (Raise e, st1)
      end
  end.

(** [InventoryConsumer.process_batch]. *)
Definition process_batch (float_of_string : string -> option Q)
    (hash : pyval -> Z) (messages : list dict) (c : InventoryConsumer)
  : result unit * InventoryConsumer :=
  match messages with
  | [] => (Ok tt, c)
  | _ =>
      let sent :=
        map (fun message =>
               (PROCESSED_INVENTORY, dict_get "item_id" message, message))
          messages in
      match batch_detect float_of_string hash messages
              (anomaly_detector c) with
      | (Ok _, d1) =>
          (Ok tt, mkInventoryConsumer (enricher c) d1 (produced c ++ sent))
      | (Raise e, d1) =>
          (Raise e,
           mkInventoryConsumer (enricher c) d1 (produced c ++ sent))
      end
  end.

(** [BaseConsumer._process_batch] over the two abstract methods: an
    exception of [process_message] is logged and the loop goes on. *)
Section ProcessBatch.
Context {S : Type}.
Variable process_message : ConsumerRecord -> S -> result (option dict) * S.
Variable process_batch : list dict -> S -> result unit * S.

Fixpoint collect_processed (batch : list ConsumerRecord) (st : S)
    (processed_messages : list dict) : list dict * S :=
  match batch with
  | [] => (processed_messages, st)
  | message :: batch' =>
      match process_message message st with
      | (Ok (Some d), st1) =>
          if truthy (PDict d)
          then collect_processed batch' st1 (processed_messages ++ [d])
          else collect_processed batch' st1 processed_messages
      | (_, st1) => collect_processed batch' st1 processed_messages
      end
  end.

Definition _process_batch (batch : list ConsumerRecord) (st : S)
  : result unit * S :=
  match collect_processed batch st [] with
  | ([], st1) => (Ok tt, st1)
  | (processed_messages, st1) => process_batch processed_messages st1
  end.
End ProcessBatch.

(** A stock-in message as it comes from the bus. *)
Definition sample_message : ConsumerRecord :=
  mkConsumerRecord "warehouse.inventory" 0 42 1710151200000 PNone
    (PDict [("item_id", PStr "I1"); ("action", PStr "stock_in");
            ("quantity", PInt 50); ("unit_price", PFloat 2);
            ("timestamp", PStr "2024-03-11T10:00:00Z")]).

Definition new_consumer : InventoryConsumer :=
  mkInventoryConsumer Enricher.new_enricher Detector.new_detector [].

Definition sample_message_data : dict :=
  [("item_id", PStr "I1"); ("action", PStr "stock_in");
   ("quantity", PInt 50); ("unit_price", PFloat 2);
   ("timestamp", PStr "2024-03-11T10:00:00Z")].

Definition sample_processed : dict :=
  Eval vm_compute in
    match Processor.sample_process sample_message_data
            (get_message_metadata sample_message) with
    | Ok out => out
    | Raise _ => []
    end.

Definition sample_enriched : dict :=
  Eval vm_compute in
    match Enricher.enrich Enricher.sample_hash Enricher.sample_str_of
            sample_processed Enricher.new_enricher with
    | (Ok out, _) => out
    | (Raise _, _) => []
    end.

Definition sample_enricher_after : Enricher.InventoryEnricher :=
  Eval vm_compute in
    snd (Enricher.enrich Enricher.sample_hash Enricher.sample_str_of
           sample_processed Enricher.new_enricher).

End Consumer.

(** ** The fields [InventoryProcessor.process] writes *)

Module ProcessorFields.

(** The keys [process] assigns; every other key of the copy is the
    input's. *)
Definition derived_keys : list string :=
  ["processing"; "normalized_action"; "quantity_abs"; "quantity_direction";
   "quantity_normalized"; "timestamp_parsed"; "business_context";
   "total_value"].

Definition is_derived_key (k : string) : bool :=
  existsb (String.eqb k) derived_keys.

End ProcessorFields.

(** ** BaseAggregator and InventoryAggregator
       (aggregators/base_aggregator.py, aggregators/inventory_aggregator.py) *)

Module Aggregator.
Import Py.

(** One minute as a [timedelta], in microseconds. *)
Definition minute : Z := 60 * 1000000.

(** [_initialize_windows]: the [time_windows] dictionary in insertion
    order. *)
Definition _initialize_windows : list (string * Window.TimeWindow dict) :=
  [("1min", Window.new_window (1 * minute));
   ("5min", Window.new_window (5 * minute));
   ("15min", Window.new_window (15 * minute));
   ("1hour", Window.new_window (60 * minute))].

(** [TimeWindow.get_data]. *)
Definition get_data (w : Window.TimeWindow dict) : list dict :=
  map snd (Window.data w).

Fixpoint lookup_window (window_name : string)
    (time_windows : list (string * Window.TimeWindow dict))
  : option (Window.TimeWindow dict) :=
  match time_windows with
  | [] => None
  | (n, w) :: rest =>
      if String.eqb window_name n then Some w
      else lookup_window window_name rest
  end.

Definition get_windowed_data
    (time_windows : list (string * Window.TimeWindow dict))
    (window_name : string) : list dict :=
  match lookup_window window_name time_windows with
  | Some w => get_data w
  | None => []
  end.

(** The loop of [process_data] that adds the event to every window;
    [timestamp] is the instant of the event's [timestamp_parsed]. *)
Definition add_to_windows (timestamp : Z) (data : dict)
    (time_windows : list (string * Window.TimeWindow dict))
  : list (string * Window.TimeWindow dict) :=
  map (fun nw => (fst nw, Window.add timestamp data (snd nw))) time_windows.

(** The windows after a sequence of events, oldest call first. *)
Definition windows_after (events : list (Z * dict))
  : list (string * Window.TimeWindow dict) :=
  foldl (fun tw e => add_to_windows (fst e) (snd e) tw)
    _initialize_windows events.

(** The four windows keep their names and sizes, and each is a suffix of
    the next longer one. *)
Definition windows_nested
    (tw : list (string * Window.TimeWindow dict)) : Prop :=
  exists d1 d2 d3 d4,
    tw = [("1min", Window.mkTimeWindow (1 * minute) d1);
          ("5min", Window.mkTimeWindow (5 * minute) d2);
          ("15min", Window.mkTimeWindow (15 * minute) d3);
          ("1hour", Window.mkTimeWindow (60 * minute) d4)] /\
    d1 `suffix_of` d2 /\ d2 `suffix_of` d3 /\ d3 `suffix_of` d4.

(** [running_metrics]; a [defaultdict(int)] is an association list in
    insertion order, its keys compared as dictionary keys are. *)
Record RunningMetrics := mkRunningMetrics {
  total_transactions : Z;
  total_volume : Q;
  total_value : Q;
  item_counts : list (pyval * Z);
  location_counts : list (pyval * Z);
  action_counts : list (pyval * Z);
  supplier_counts : list (pyval * Z)
}.

Definition new_running_metrics : RunningMetrics :=
  mkRunningMetrics 0 0 0 [] [] [] [].

(** [counts[k] += 1] on a [defaultdict(int)]. *)
Fixpoint incr (k : pyval) (counts : list (pyval * Z)) : list (pyval * Z) :=
  match counts with
  | [] => [(k, 1)]
  | (k', n) :: rest =>
      if key_eqb k' k then (k', n + 1) :: rest else (k', n) :: incr k rest
  end.

(** [if k: counts[k] += 1]: an unhashable key raises. *)
Definition count_if_truthy (k : pyval) (counts : list (pyval * Z))
  : result (list (pyval * Z)) :=
  if truthy k then
    if hashable k then Ok (incr k counts) else Raise TypeError
  else Ok counts.

(** [_update_running_metrics]: the metrics are updated in place, so an
    exception leaves the updates made before it. *)
Definition _update_running_metrics (data : dict) (m : RunningMetrics)
  : result unit * RunningMetrics :=
  let m1 := mkRunningMetrics (total_transactions m + 1) (total_volume m)
              (total_value m) (item_counts m) (location_counts m)
              (action_counts m) (supplier_counts m) in
  match num_of (dict_get_default "quantity_abs" (PInt 0) data) with
  | None => (Raise TypeError, m1)
  | Some quantity =>
  let m2 := mkRunningMetrics (total_transactions m1)
              (total_volume m1 + quantity) (total_value m1) (item_counts m1)
              (location_counts m1) (action_counts m1) (supplier_counts m1) in
  let value := dict_get_default "total_value" (PInt 0) data in
  match (if truthy value then
           match num_of value with
           | Some v => Ok (total_value m2 + v)%Q
           | None => Raise TypeError
           end
         else Ok (total_value m2)) with
  | Raise e => (Raise e, m2)
  | Ok tv =>
  let m3 := mkRunningMetrics (total_transactions m2) (total_volume m2) tv
              (item_counts m2) (location_counts m2) (action_counts m2)
              (supplier_counts m2) in
  match count_if_truthy (dict_get "item_id" data) (item_counts m3) with
  | Raise e => (Raise e, m3)
  | Ok ic =>
  let m4 := mkRunningMetrics (total_transactions m3) (total_volume m3)
              (total_value m3) ic (location_counts m3) (action_counts m3)
              (supplier_counts m3) in
  match count_if_truthy (dict_get "location_id" data) (location_counts m4)
  with
  | Raise e => (Raise e, m4)
  | Ok lc =>
  let m5 := mkRunningMetrics (total_transactions m4) (total_volume m4)
              (total_value m4) (item_counts m4) lc (action_counts m4)
              (supplier_counts m4) in
  match count_if_truthy (dict_get "action" data) (action_counts m5) with
  | Raise e => (Raise e, m5)
  | Ok ac =>
  let m6 := mkRunningMetrics (total_transactions m5) (total_volume m5)
              (total_value m5) (item_counts m5) (location_counts m5) ac
              (supplier_counts m5) in
  match bind (attr_get (dict_get_default "item_details" (PDict []) data)
                "supplier")
          (fun supplier => count_if_truthy supplier (supplier_counts m6))
  with
  | Raise e => (Raise e, m6)
  | Ok sc =>
      (Ok tt,
       mkRunningMetrics (total_transactions m6) (total_volume m6)
         (total_value m6) (item_counts m6) (location_counts m6)
         (action_counts m6) sc)
  end end end end end end.

(** The metrics after [_update_running_metrics] was called on each event
    in turn, whether or not a call raised. *)
Definition metrics_after (events : list dict) : RunningMetrics :=
  foldl (fun m d => snd (_update_running_metrics d m))
    new_running_metrics events.

Definition total_count (counts : list (pyval * Z)) : Z :=
  foldr (fun kn acc => snd kn + acc) 0 counts.

(** Counts that grew by at most one and stayed positive. *)
Definition grew (c c' : list (pyval * Z)) : Prop :=
  total_count c' <= total_count c + 1 /\
  (Forall (fun kn => 1 <= snd kn) c -> Forall (fun kn => 1 <= snd kn) c').

(** What holds of the metrics after [n] calls. *)
Definition counted (n : Z) (m : RunningMetrics) : Prop :=
  total_transactions m = n /\
  Forall (fun c => total_count c <= n /\ Forall (fun kn => 1 <= snd kn) c)
    [item_counts m; location_counts m; action_counts m; supplier_counts m].

(** [_get_location_distribution] and [_get_action_distribution]: for each
    key its count and its percentage of all transactions. *)
Definition distribution (total : Z) (counts : list (pyval * Z))
  : list (pyval * (Z * Q)) :=
  if total =? 0 then []
  else map (fun kn =>
              (fst kn,
               (snd kn, (inject_Z (snd kn) / inject_Z total * 100)%Q)))
         counts.

Definition _get_location_distribution (m : RunningMetrics)
  : list (pyval * (Z * Q)) :=
  distribution (total_transactions m) (location_counts m).

Definition _get_action_distribution (m : RunningMetrics)
  : list (pyval * (Z * Q)) :=
  distribution (total_transactions m) (action_counts m).

(** [_calculate_overall_quality_score]. *)
Definition _calculate_overall_quality_score
    (missing_item missing_location invalid_qty anomalies total : Z) : Q :=
  if total =? 0 then 100%Q
  else
    let quality_score := 100%Q in
    let quality_score :=
      (quality_score
       - inject_Z missing_item / inject_Z total * 100 * (3 / 10))%Q in
    let quality_score :=
      (quality_score
       - inject_Z missing_location / inject_Z total * 100 * (2 / 10))%Q in
    let quality_score :=
      (quality_score
       - inject_Z invalid_qty / inject_Z total * 100 * (3 / 10))%Q in
    let quality_score :=
      (quality_score
       - inject_Z anomalies / inject_Z total * 100 * (2 / 10))%Q in
    Detector.Qmax_b quality_score 0.

(** [sum(1 for d in current_data if cond(d))]. *)
Definition count_if (cond : dict -> bool) (current_data : list dict) : Z :=
  Z.of_nat (length (filter cond current_data)).

(** [not isinstance(q, (int, float)) or d.get("quantity_abs", 0) <= 0]. *)
Definition invalid_quantity (d : dict) : bool :=
  match num_of (dict_get "quantity_abs" d) with
  | Some q => Qle_bool q 0
  | None => true
  end.

(** [_calculate_quality_metrics] on the data of the five-minute window. *)
Definition _calculate_quality_metrics (current_data : list dict) : dict :=
  match current_data with
  | [] => [("error", PStr "no_data")]
  | _ =>
      let total_transactions := Z.of_nat (length current_data) in
      let missing_item_id :=
        count_if (fun d => negb (truthy (dict_get "item_id" d)))
          current_data in
      let missing_location :=
        count_if (fun d => negb (truthy (dict_get "location_id" d)))
          current_data in
      let invalid_quantity := count_if invalid_quantity current_data in
      let anomaly_count :=
        count_if (fun d => truthy (dict_get_default "anomaly_detected"
                                     (PBool false) d)) current_data in
      let pct (n : Z) : Q :=
        (inject_Z n / inject_Z total_transactions * 100)%Q in
      [("data_completeness",
          PDict [("item_id_completeness",
                    PFloat (pct (total_transactions - missing_item_id)));
                 ("location_completeness",
                    PFloat (pct (total_transactions - missing_location)));
                 ("quantity_validity",
                    PFloat (pct (total_transactions - invalid_quantity)))]);
       ("anomaly_rate", PFloat (pct anomaly_count));
       ("overall_quality_score",
          PFloat (_calculate_overall_quality_score missing_item_id
                    missing_location invalid_quantity anomaly_count
                    total_transactions))]
  end.

(** Three events, the second of which has no usable quantity. *)
Definition sample_events : list dict :=
  [[("item_id", PStr "I1"); ("action", PStr "stock_in");
    ("quantity_abs", PFloat 5)];
   [("item_id", PStr "I2"); ("action", PStr "stock_out");
    ("quantity_abs", PNone)];
   [("item_id", PStr "I1"); ("action", PStr "stock_in");
    ("location_id", PStr "L1"); ("quantity_abs", PFloat 7)]].

End Aggregator.

(** ** What the anomaly detector can report *)

Module Findings.
Import Py Detector.

Definition anomaly_types : list string :=
  ["volume_anomaly"; "unusual_timing"; "frequency_anomaly";
   "negative_stock_risk"; "rapid_stock_depletion"; "unusual_location";
   "high_value_risk_combination"; "unusual_supplier_delivery_timing"].

Definition severities : list string := ["low"; "medium"; "high"].

(** A reported anomaly: flagged, of a known type and severity, with a
    confidence between 0.7 and 1. *)
Definition reported (a : AnomalyResult) : Prop :=
  is_anomaly a = true /\
  (7 / 10 <= confidence a <= 1)%Q /\
  In (anomaly_type a) anomaly_types /\
  In (severity a) severities.

(** The comprehension [recent_events] of [_detect_frequency_anomaly]. *)
Definition recent_events (st : Detector) (data : dict)
    (current_time : datetime) : result (list dict) :=
  filter_m (fun d =>
    if _matches_pattern d data && truthy (dict_get "timestamp_parsed" d)
    then within_last_hour (dict_get "timestamp_parsed" d) current_time
    else Ok false) (data_window st).

(** The detector when the thirteenth stock-out of the example arrives. *)
Definition detector_at_thirteenth : Detector :=
  Eval vm_compute in
    _add_to_window (depletion_event 12) detector_after_twelve.

Definition thirteenth_time : datetime :=
  mkDatetime 2024 3 11 10 0 12 0 (Some 0).

End Findings.

(** ** The fields [InventoryEnricher.enrich] writes *)

Module EnricherFields.
Import Py.

(** The keys [enrich] assigns. *)
Definition enriched_keys : list string :=
  ["item_details"; "location_details"; "classification"; "risk_assessment";
   "seasonal_context"].

Definition is_enriched_key (k : string) : bool :=
  existsb (String.eqb k) enriched_keys.

(** The factors [_assess_risk] can append, in its order, and what each
    adds to the score. *)
Definition all_risk_factors : list string :=
  ["high_value_item"; "bulk_transaction"; "after_hours"; "perishable_item"].

Definition risk_factors_of (high_value bulk after_hours perishable : bool)
  : list string :=
  (if high_value then ["high_value_item"] else []) ++
  (if bulk then ["bulk_transaction"] else []) ++
  (if after_hours then ["after_hours"] else []) ++
  (if perishable then ["perishable_item"] else []).

Definition factor_weight (f : string) : Z :=
  if String.eqb f "high_value_item" then 3
  else if String.eqb f "bulk_transaction" then 2
  else 1.

Definition total_weight (factors : list string) : Z :=
  foldr (fun f acc => factor_weight f + acc) 0 factors.

(** A delivery of a thousand units of item 1000, whose mock details are
    high-value, with no business context. *)
Definition bulk_night_event : dict :=
  [("item_id", PInt 1000); ("action", PStr "stock_in");
   ("quantity_abs", PFloat 1000)].

Definition bulk_night_enriched : dict :=
  Eval vm_compute in
    match Enricher.enrich Enricher.sample_hash Enricher.sample_str_of
            bulk_night_event Enricher.new_enricher with
    | (Ok out, _) => out
    | (Raise _, _) => []
    end.

Definition bulk_night_enricher_after : Enricher.InventoryEnricher :=
  Eval vm_compute in
    snd (Enricher.enrich Enricher.sample_hash Enricher.sample_str_of
           bulk_night_event Enricher.new_enricher).

Definition bulk_night_risk : dict :=
  Eval vm_compute in
    match dict_get "risk_assessment" bulk_night_enriched with
    | PDict ra => ra
    | _ => []
    end.

End EnricherFields.

(** ** Where the adapters put a record (storage/clickhouse_adapter.py,
       storage/elasticsearch_adapter.py) *)

Module Adapters.
Import Py Storage.

(** [ClickHouseAdapter._get_table_name]. *)
Definition _get_table_name (data : dict) : result string :=
  bind (lower_of (dict_get_default "event_type" (PStr "") data))
    (fun event_type =>
  if contains "alert" event_type || truthy (dict_get "severity" data) then
    Ok "alert_events"
  else
    bind (lower_of (dict_get_default "event_type" (PStr "") data))
      (fun event_type =>
    if contains "metric" event_type || truthy (dict_get "metric_name" data)
    then Ok "performance_metrics"
    else
      bind (lower_of (dict_get_default "data_type" (PStr "") data))
        (fun data_type =>
      if contains "aggregated" data_type then Ok "inventory_metrics"
      else Ok "raw_events"))).

(** The table the warehouse adapter uses for a record the manager has
    typed: alerts have their table, and a record whose event type mentions
    "metric" goes to the performance table whatever its type. *)
Definition table_for (data_type : string) (metric_event : bool) : string :=
  if String.eqb data_type "alerts" then "alert_events"
  else if metric_event then "performance_metrics"
  else if String.eqb data_type "aggregated" then "inventory_metrics"
  else "raw_events".

(** [ElasticsearchAdapter.index_patterns] and [_get_index_name]. *)
Definition index_patterns : list (string * string) :=
  [("logs", "warehouse-logs"); ("alerts", "warehouse-alerts");
   ("audit", "warehouse-audit")].

Definition index_pattern (k : string) : result string :=
  match lookup_assoc k index_patterns with
  | Some v => Ok v
  | None => Raise KeyError
  end.

Definition _get_index_name (data : dict) : result string :=
  bind (lower_of (dict_get_default "event_type" (PStr "") data))
    (fun event_type =>
  bind (lower_of (dict_get_default "level" (PStr "") data)) (fun level =>
  if String.eqb event_type "alert"
     || existsb (String.eqb level) ["error"; "critical"]
     || dict_in "alert" data
  then index_pattern "alerts"
  else if String.eqb event_type "audit" then index_pattern "audit"
  else
    bind (lower_of (dict_get_default "source" (PStr "") data)) (fun source =>
    if contains "audit" source then index_pattern "audit"
    else index_pattern "logs"))).

(** The alert the inventory consumer builds for an anomaly. *)
Definition sample_anomaly_alert : dict :=
  [("type", PStr "inventory_anomaly"); ("item_id", PStr "I1");
   ("anomaly_type", PStr "negative_stock_risk");
   ("confidence", PFloat (9 / 10)); ("details", PDict []);
   ("timestamp", PStr "2024-03-11T10:00:00Z");
   ("severity", PStr "high")].

End Adapters.

(** ** Runs of the alert manager and its statistics *)

Module AlertRuns.
Import Alerting.

(** A call of the manager's API with its arguments and, where the call
    reads the clock, the reading. *)
Inductive call :=
| CreateAlert (now : Z) (alert_id title description : string)
    (severity : AlertSeverity) (source : string)
    (metadata : option Py.dict)
| AcknowledgeAlert (now : Z) (alert_id user : string)
| ResolveAlert (now : Z) (alert_id : string).

Definition perform (c : call) (m : AlertManager) : AlertManager :=
  match c with
  | CreateAlert now alert_id title description severity source metadata =>
      snd (create_alert now alert_id title description severity source
             metadata m)
  | AcknowledgeAlert now alert_id user =>
      snd (acknowledge_alert now alert_id user m)
  | ResolveAlert now alert_id => snd (resolve_alert now alert_id m)
  end.

(** The manager after a sequence of calls, first call first. *)
Definition run (calls : list call) (m : AlertManager) : AlertManager :=
  foldl (fun m c => perform c m) m calls.

(** [severity.value]. *)
Definition severity_value (s : AlertSeverity) : string :=
  match s with
  | INFO => "info"
  | WARNING => "warning"
  | ERROR => "error"
  | CRITICAL => "critical"
  end.

(** [{severity.value: 0 for severity in AlertSeverity}] and
    [severity_counts[k] += 1] on a key of that dictionary. *)
Definition zero_counts : list (string * Z) :=
  map (fun s => (severity_value s, 0)) [INFO; WARNING; ERROR; CRITICAL].

Definition bump (k : string) (counts : list (string * Z))
  : list (string * Z) :=
  map (fun kn => if String.eqb k (fst kn) then (fst kn, snd kn + 1) else kn)
    counts.

(** The loop of [get_stats] over [active_alerts.values()]; the counts do
    not depend on the order of the values. *)
Definition severity_breakdown (m : AlertManager) : list (string * Z) :=
  foldr (fun kv counts => bump (severity_value (severity (snd kv))) counts)
    zero_counts (map_to_list (active_alerts m)).

(** [get_stats]; [alert_rules] is the manager's list of rules. *)
Definition get_stats (alert_rules : list Py.dict) (m : AlertManager)
  : Py.dict :=
  [("active_alerts", Py.PInt (Z.of_nat (size (active_alerts m))));
   ("severity_breakdown",
      Py.PDict (map (fun kn => (fst kn, Py.PInt (snd kn)))
                  (severity_breakdown m)));
   ("notification_channels",
      Py.PInt (Z.of_nat (length (notification_channels m))));
   ("alert_rules", Py.PInt (Z.of_nat (length alert_rules)))].

Definition sum_counts (counts : list (string * Z)) : Z :=
  foldr (fun kn acc => snd kn + acc) 0 counts.

(** What one call may add to the trace of sends: a creation adds nothing,
    or, when the severity is at or above the threshold, one send of the
    alert it has just made for each channel; acknowledging and resolving
    add nothing. *)
Definition call_sends (min_sev : AlertSeverity)
    (channels : list NotificationChannel) (c : call)
    (sends : list (nat * Alert)) : Prop :=
  match c with
  | CreateAlert now alert_id title description severity source metadata =>
      sends = [] \/
      (severity_levels min_sev <= severity_levels severity /\
       sends = dispatch channels
                 (new_alert now alert_id title description severity source
                    metadata))
  | AcknowledgeAlert _ _ _ | ResolveAlert _ _ => sends = []
  end.

(** A stored alert as the manager's own calls leave it. *)
Definition well_kept (alert_id : string) (a : Alert) : Prop :=
  Alerting.alert_id a = alert_id /\
  status a <> RESOLVED /\
  resolved_at a = None /\
  (status a = ACTIVE ->
   acknowledged_by a = None /\ acknowledged_at a = None) /\
  (status a = ACKNOWLEDGED ->
   acknowledged_by a <> None /\ acknowledged_at a <> None).

Definition all_well_kept (m : AlertManager) : Prop :=
  forall id a, active_alerts m !! id = Some a -> well_kept id a.

(** Two alerts are raised, one is acknowledged, the other resolved. *)
Definition sample_calls : list call :=
  [CreateAlert 10 "A1" "Stock low" "Stock below reorder point" WARNING
     "inventory" None;
   CreateAlert 11 "A2" "Negative stock" "Projected stock below zero"
     CRITICAL "inventory" None;
   AcknowledgeAlert 12 "A1" "ops";
   ResolveAlert 13 "A2"].

End AlertRuns.

(** ** Examples for the stock detectors *)

Module StockExamples.
Import Py Detector.

(** A stock-out of 200 units of item 1000, whose mock baseline stock is
    100, already recorded in the detector's window as [detect] does. *)
Definition large_stock_out : dict :=
  [("item_id", PInt 1000); ("action", PStr "stock_out");
   ("quantity_abs", PFloat 200); ("quantity_normalized", PFloat (-200))].

Definition detector_with_large_stock_out : Detector :=
  mkDetector 1000 [large_stock_out].

(** An after-hours stock-out of item 1000 that arrives when the window
    holds ten stock-outs of the same item made in business hours. *)
Definition night_event : dict :=
  [("item_id", PInt 1000); ("action", PStr "stock_out");
   ("quantity", PInt 5); ("quantity_abs", PFloat 5);
   ("quantity_normalized", PFloat (-5));
   ("timestamp_parsed",
      PDatetime (mkDatetime 2024 3 11 23 0 0 0 (Some 0)));
   ("business_context",
      PDict [("hour", PInt 23); ("day_of_week", PInt 0);
             ("is_business_hours", PBool false);
             ("is_weekend", PBool false); ("shift", PStr "night")])].

Definition detector_at_night : Detector :=
  mkDetector 1000 (take 10 depletion_events ++ [night_event]).

End StockExamples.

(** * Properties *)

(** ** Dictionaries *)

Section DictFacts.
Import Py.

Lemma dict_lookup_set (k k' : string) (v : pyval) (d : dict) :
  dict_lookup k (dict_set k' v d) =
  if String.eqb k k' then Some v else dict_lookup k d.
Proof.
  induction d as [|[k0 v0] d IH]; simpl.
  - reflexivity.
  - destruct (String.eqb k' k0) eqn:E'; simpl.
    + apply String.eqb_eq in E'. subst k0.
      destruct (String.eqb k k'); reflexivity.
    + rewrite IH.
      destruct (String.eqb k k') eqn:E; [|reflexivity].
      apply String.eqb_eq in E. subst k'. rewrite E'. reflexivity.
Qed.

Lemma dict_set_same (k : string) (v : pyval) (d : dict) :
  dict_lookup k d = Some v -> dict_set k v d = d.
Proof.
  induction d as [|[k0 v0] d IH]; simpl; [discriminate|].
  destruct (String.eqb k k0) eqn:E; intros H.
  - congruence.
  - rewrite IH; auto.
Qed.

Lemma dict_get_set (k k' : string) (v : pyval) (d : dict) :
  dict_get k (dict_set k' v d) =
  if String.eqb k k' then v else dict_get k d.
Proof.
  unfold dict_get. rewrite dict_lookup_set.
  destruct (String.eqb k k'); reflexivity.
Qed.

Lemma dict_get_default_set (k k' : string) (dflt v : pyval) (d : dict) :
  dict_get_default k dflt (dict_set k' v d) =
  if String.eqb k k' then v else dict_get_default k dflt d.
Proof.
  unfold dict_get_default. rewrite dict_lookup_set.
  destruct (String.eqb k k'); reflexivity.
Qed.
End DictFacts.

Ltac dict_simpl :=
  repeat first [ rewrite dict_lookup_set
               | rewrite dict_get_set
               | rewrite dict_get_default_set ];
  cbn [String.eqb Ascii.eqb Bool.eqb].

(** ** InventoryProcessor *)

Section ProcessorFacts.
Import Py Processor.

Variable float_of_string : string -> option Q.
Variable fromisoformat : string -> option datetime.
Variable fromtimestamp : Q -> result datetime.
Variable isoformat : datetime -> string.

Let process := process float_of_string fromisoformat fromtimestamp isoformat.

(** [float] is exact on integers of magnitude up to [2 ^ 53]. *)
Lemma float_of_int_exact (z : Z) :
  Z.abs z <= 2 ^ 53 -> float_of_int z = Ok (inject_Z z).
Proof.
  intros H. unfold float_of_int.
  destruct (Z.abs z <? 2 ^ 53) eqn:E; [reflexivity|].
  apply Z.ltb_ge in E.
  assert (Hz : z = 2 ^ 53 \/ z = - 2 ^ 53) by lia.
  destruct Hz as [-> | ->]; vm_compute; reflexivity.
Qed.


Lemma float_of_exact (v : pyval) :
  is_json_number v = true -> exact_as_double v = true ->
  float_of float_of_string v = Ok (number_value v).
Proof.
  destruct v; cbn [is_json_number exact_as_double float_of number_value];
    intros H He; try discriminate; [|reflexivity].
  apply float_of_int_exact, Z.leb_le, He.
Qed.


(** [normalize_action] leaves every key but [normalized_action] alone. *)
Lemma normalize_action_lookup (d d' : dict) (k : string) :
  normalize_action d = Ok d' ->
  String.eqb k "normalized_action" = false ->
  dict_lookup k d' = dict_lookup k d.
Proof.
  unfold normalize_action. intros H Hk.
  destruct (dict_lookup "action" d) as [a|].
  - destruct (action_mappings_get a) as [m|e]; simpl in H;
      [|discriminate].
    injection H as <-. rewrite dict_lookup_set, Hk. reflexivity.
  - injection H as <-. reflexivity.
Qed.

(** What [derive_fields] stores for a record that agrees with [data] on
    [quantity] and [action]; [f] is [float(quantity)]. *)
Lemma derive_fields_quantity (now1 : datetime) (d1 data : dict)
    (q : pyval) (out : dict) :
  dict_lookup "quantity" data = Some q ->
  dict_lookup "quantity" d1 = dict_lookup "quantity" data ->
  dict_lookup "action" d1 = dict_lookup "action" data ->
  bind (normalize_action d1)
    (derive_fields float_of_string fromisoformat fromtimestamp now1)
    = Ok out ->
  exists f,
    float_of float_of_string q = Ok f /\
    dict_lookup "quantity_abs" out = Some (PFloat (Qabs f)) /\
    dict_lookup "quantity_normalized" out =
      Some (PFloat (if eq_str (dict_get "action" data) "stock_out"
                    then - Qabs f else Qabs f)).
Proof.
  intros Hq Hq1 Ha1.
  destruct (normalize_action d1) as [d2|e] eqn:E2; cbn [bind];
    [|discriminate].
  assert (Hq2 : dict_get_default "quantity" (PInt 0) d2 = q).
  { unfold dict_get_default.
    rewrite (normalize_action_lookup d1 d2 "quantity" E2 eq_refl).
    now rewrite Hq1, Hq. }
  assert (Ha2 : dict_get "action" d2 = dict_get "action" data).
  { unfold dict_get.
    rewrite (normalize_action_lookup d1 d2 "action" E2 eq_refl).
    now rewrite Ha1. }
  unfold derive_fields. rewrite Hq2.
  destruct (float_of float_of_string q) as [f|e] eqn:Ef; cbn [bind];
    [|discriminate].
  dict_simpl. rewrite Hq2, Ef; cbn [bind].
  dict_simpl. rewrite Ha2.
  destruct (eq_str (dict_get "action" data) "stock_out");
    dict_simpl;
    destruct (_parse_timestamp _ _ _ _ _) as [ts|e]; cbn [bind];
    try discriminate; dict_simpl;
    (destruct (dict_lookup "unit_price" d2) as [up|];
     [destruct (float_of float_of_string up) as [price|e]; cbn [bind];
      try discriminate|]);
    intros [= <-]; exists f; dict_simpl; repeat split; reflexivity.
Qed.

(** C1, as the code has it.  For a numeric quantity [q], the processed
    event has [quantity_abs = |float(q)|], and [quantity_normalized] is
    [-|float(q)|] when the action is [stock_out] and [+|float(q)|] for every
    other action.  [float(q)] is [q] itself when [q] is a float or an
    integer of magnitude at most [2 ^ 53]; a larger integer is rounded to
    the nearest double. *)
Theorem process_quantity_sign (now0 now1 : datetime) (data : dict)
    (metadata q : pyval) (out : dict) :
  dict_lookup "quantity" data = Some q ->
  is_json_number q = true ->
  process now0 now1 data metadata = Ok out ->
  exists f,
    float_of float_of_string q = Ok f /\
    (exact_as_double q = true -> f = number_value q) /\
    dict_lookup "quantity_abs" out = Some (PFloat (Qabs f)) /\
    dict_lookup "quantity_normalized" out =
      Some (PFloat (if eq_str (dict_get "action" data) "stock_out"
                    then - Qabs f else Qabs f)).
Proof.
  intros Hq Hnum Hout.
  destruct (derive_fields_quantity now1
              (dict_set "processing"
                 (PDict [("processed_at", PStr (isoformat now0));
                         ("processor", PStr "inventory_processor");
                         ("kafka_metadata", metadata)]) data) data q out)
    as (f & Hf & Habs & Hnorm);
    auto; try (dict_simpl; reflexivity).
  exists f. split; [exact Hf|]. split; [|split; assumption].
  intros He. rewrite (float_of_exact q Hnum He) in Hf. congruence.
Qed.

Lemma parse_timestamp_returns (now1 : datetime) (ts : pyval) :
  timestamp_in_range float_of_string fromisoformat fromtimestamp ts = true
  -> exists t,
    _parse_timestamp float_of_string fromisoformat fromtimestamp now1 ts
      = Ok t.
Proof.
  destruct ts as [|b|z|q|s|l|d|t]; simpl; eauto.
  - destruct (fromtimestamp _); simpl; eauto; discriminate.
  - destruct (fromtimestamp _); simpl; eauto; discriminate.
  - destruct (fromtimestamp _); simpl; eauto; discriminate.
  - destruct (fromisoformat _); eauto.
    destruct (float_of_string s); eauto.
    destruct (fromtimestamp _) as [t|[]]; eauto; discriminate.
Qed.

End ProcessorFacts.

(** The sign-flip scenario: a stock-out of 10 units. *)
Lemma process_quantity_sign_stock_out :
  Py.dict_lookup "quantity" Processor.stock_out_event = Some (Py.PInt 10) /\
  Py.is_json_number (Py.PInt 10) = true /\
  Processor.sample_process Processor.stock_out_event Py.PNone
    = Py.Ok Processor.stock_out_processed /\
  exists f,
    Py.float_of Processor.sample_float_of_string (Py.PInt 10) = Py.Ok f /\
    (Py.exact_as_double (Py.PInt 10) = true ->
     f = Py.number_value (Py.PInt 10)) /\
    Py.dict_lookup "quantity_abs" Processor.stock_out_processed
      = Some (Py.PFloat (Qabs f)) /\
    Py.dict_lookup "quantity_normalized" Processor.stock_out_processed
      = Some (Py.PFloat (- Qabs f)).
Proof.
  split; [reflexivity|]. split; [reflexivity|]. split; [reflexivity|].
  exact (process_quantity_sign
           Processor.sample_float_of_string Processor.sample_fromisoformat
           Processor.sample_fromtimestamp Processor.sample_isoformat
           Processor.sample_now Processor.sample_now
           Processor.stock_out_event Py.PNone (Py.PInt 10)
           Processor.stock_out_processed eq_refl eq_refl eq_refl).
Defined.

(** A stock-out of [2 ^ 53 + 1] units: the quantity is a JSON number, and
    the processed event has [quantity_abs = 2 ^ 53], not [|q|]. *)
Lemma process_rounds_large_quantity :
  Py.dict_lookup "quantity" Processor.large_quantity_event
    = Some (Py.PInt 9007199254740993) /\
  Py.is_json_number (Py.PInt 9007199254740993) = true /\
  Processor.sample_process Processor.large_quantity_event Py.PNone
    = Py.Ok Processor.large_quantity_processed /\
  Py.dict_lookup "quantity_abs" Processor.large_quantity_processed
    = Some (Py.PFloat 9007199254740992) /\
  Py.dict_lookup "quantity_normalized" Processor.large_quantity_processed
    = Some (Py.PFloat (- 9007199254740992)) /\
  ~ (9007199254740992 == Qabs (Py.number_value (Py.PInt 9007199254740993)))%Q.
Proof.
  repeat (split; [reflexivity|]).
  unfold Qeq. cbn. lia.
Qed.

(** A quantity of [10 ^ 400] is a JSON number, and [process] raises
    [OverflowError] on it. *)
Lemma process_raises_on_huge_quantity :
  Py.is_json_number (Py.PInt (10 ^ 400)) = true /\
  Py.fits_double (Py.PInt (10 ^ 400)) = false /\
  Processor.sample_process Processor.huge_quantity_event Py.PNone
    = Py.Raise Py.OverflowError.
Proof. split; [reflexivity|]. split; vm_compute; reflexivity. Qed.



(** ** TimeWindow *)

Section WindowFacts.
Import Window.
Context {A : Type}.
Implicit Types (l : list (Z * A)) (w : TimeWindow A).

Lemma nondecreasing_app_last (ts : list Z) (t : Z) :
  nondecreasing ts -> Forall (fun t' => t' <= t) ts ->
  nondecreasing (ts ++ [t]).
Proof.
  induction ts as [|t0 ts IH]; simpl.
  - intros _ _. split; [constructor | exact I].
  - intros [Hhd Htl] Hle. inversion Hle as [|? ? Ht0 Hts]; subst.
    split; [|auto].
    apply Forall_app. split; [exact Hhd|]. constructor; [lia|constructor].
Qed.

(** On timestamps in order, eviction from the front leaves nothing below
    the cutoff, and what it leaves is still in order. *)
Lemma popleft_while_sorted (cutoff : Z) l :
  nondecreasing (map fst l) ->
  Forall (fun t' => cutoff <= t') (map fst (popleft_while cutoff l)) /\
  nondecreasing (map fst (popleft_while cutoff l)).
Proof.
  induction l as [|[t0 x0] l IH]; simpl.
  - intros _. split; [constructor | exact I].
  - intros [Hhd Htl]. destruct (t0 <? cutoff) eqn:E.
    + auto.
    + apply Z.ltb_ge in E. simpl. split; [|split; assumption].
      constructor; [exact E|].
      eapply Forall_impl; [exact Hhd|]. simpl. intros; lia.
Qed.

Lemma popleft_while_bounded (cutoff t : Z) l :
  Forall (fun t' => t' <= t) (map fst l) ->
  Forall (fun t' => t' <= t) (map fst (popleft_while cutoff l)).
Proof.
  induction l as [|[t0 x0] l IH]; simpl; [auto|].
  intros H. inversion H; subst. destruct (t0 <? cutoff); simpl; auto.
Qed.

(** C2, as the code has it.  When the window is in timestamp order and
    [t] is not earlier than any stored timestamp, then after [add t x] no
    entry is older than [t - window_size], the entries are still in
    timestamp order with the front entry the oldest, and [t] is again a
    bound for the next insertion. *)
Theorem add_in_order_evicts_old (w : TimeWindow A) (t : Z) (x : A) :
  nondecreasing (timestamps w) ->
  Forall (fun t' => t' <= t) (timestamps w) ->
  Forall (fun t' => t - window_size w <= t') (timestamps (add t x w)) /\
  nondecreasing (timestamps (add t x w)) /\
  (forall t0 rest, timestamps (add t x w) = t0 :: rest ->
                   Forall (fun t' => t0 <= t') rest) /\
  Forall (fun t' => t' <= t) (timestamps (add t x w)) /\
  window_size (add t x w) = window_size w.
Proof.
  intros Hs Hb. unfold timestamps, add, _cleanup_old_data in *. simpl.
  assert (Hs' : nondecreasing (map fst (data w ++ [(t, x)]))).
  { rewrite map_app. simpl. now apply nondecreasing_app_last. }
  assert (Hb' : Forall (fun t' => t' <= t) (map fst (data w ++ [(t, x)]))).
  { rewrite map_app. apply Forall_app. split; [exact Hb|].
    constructor; [simpl; lia | constructor]. }
  destruct (popleft_while_sorted (t - window_size w) _ Hs') as [H1 H2].
  split; [exact H1|]. split; [exact H2|]. split; [|split].
  - intros t0 rest E. rewrite E in H2. exact (proj1 H2).
  - now apply popleft_while_bounded.
  - reflexivity.
Qed.
End WindowFacts.

(** Three in-order insertions into a one-minute window. *)
Lemma add_in_order_evicts_old_example :
  let w := Window.add 30 "b" (Window.add 0 "a" (Window.new_window 60)) in
  Window.nondecreasing (Window.timestamps w) /\
  Forall (fun t' => t' <= 70) (Window.timestamps w) /\
  Window.timestamps (Window.add 70 "c" w) = [30; 70] /\
  Forall (fun t' => 70 - Window.window_size w <= t')
    (Window.timestamps (Window.add 70 "c" w)).
Proof.
  assert (Hs : Window.nondecreasing
                 (Window.timestamps
                    (Window.add 30 "b"
                       (Window.add 0 "a" (Window.new_window 60))))).
  { change (Window.nondecreasing [0; 30]). simpl.
    repeat (split || constructor); lia. }
  assert (Hb : Forall (fun t' => t' <= 70)
                 (Window.timestamps
                    (Window.add 30 "b"
                       (Window.add 0 "a" (Window.new_window 60))))).
  { change (Forall (fun t' => t' <= 70) [0; 30]).
    repeat constructor; lia. }
  split; [exact Hs|]. split; [exact Hb|]. split; [reflexivity|].
  exact (proj1 (add_in_order_evicts_old _ 70 "c" Hs Hb)).
Defined.

(** An insertion out of order: the entry stamped 0 stays behind the front
    entry stamped 100, and survives the insertion at 105 although it is older
    than 105 - 10. *)
Lemma add_out_of_order_keeps_old_entry :
  let w := Window.add 105 "c"
             (Window.add 0 "b" (Window.add 100 "a" (Window.new_window 10))) in
  Window.timestamps w = [100; 0; 105] /\
  ~ Forall (fun t' => 105 - Window.window_size w <= t') (Window.timestamps w).
Proof.
  simpl. split; [reflexivity|].
  intros H. inversion H as [|? ? _ H']; subst.
  inversion H' as [|? ? H0 _]; subst. simpl in H0. lia.
Qed.

(** ** AlertManager *)

Section AlertingFacts.
Import Alerting.

Lemma sent_since_app (m m' : AlertManager) (l : list (nat * Alert)) :
  sent m' = sent m ++ l -> sent_since m m' = l.
Proof. unfold sent_since. intros ->. apply drop_app_length. Qed.

Lemma sent_since_same (m m' : AlertManager) :
  sent m' = sent m -> sent_since m m' = [].
Proof. unfold sent_since. intros ->. apply drop_all. Qed.



Lemma send_notifications_alerts (a : Alert) (m : AlertManager) :
  active_alerts (snd (_send_notifications a m)) = active_alerts m /\
  notification_channels (snd (_send_notifications a m))
    = notification_channels m /\
  config_min_notification_severity (snd (_send_notifications a m))
    = config_min_notification_severity m.
Proof.
  unfold _send_notifications. destruct (min_severity m); simpl; auto.
  destruct (_ <? _); simpl; auto.
Qed.

(** What [create_alert] does when it does not return a stored alert. *)
Lemma create_alert_fresh (now : Z) (id t d : string) (s : AlertSeverity)
    (src : string) (md : option Py.dict) (m : AlertManager) :
  (forall a0, active_alerts m !! id = Some a0 -> status a0 <> ACTIVE) ->
  let fresh := new_alert now id t d s src md in
  let stored := with_alerts m (<[id := fresh]> (active_alerts m)) in
  snd (create_alert now id t d s src md m)
    = snd (_send_notifications fresh stored) /\
  (forall min_sev, min_severity m = Some min_sev ->
     fst (create_alert now id t d s src md m) = Py.Ok fresh).
Proof.
  intros Hna fresh stored. unfold create_alert.
  fold fresh. fold stored.
  assert (G : (let create :=
                 match _send_notifications fresh stored with
                 | (Py.Ok _, m2) => (Py.Ok fresh, m2)
                 | (Py.Raise e, m2) => (Py.Raise e, m2)
                 end in
               snd create = snd (_send_notifications fresh stored) /\
               forall min_sev, min_severity m = Some min_sev ->
                 fst create = Py.Ok fresh)).
  { simpl. split.
    - destruct (_send_notifications fresh stored) as [[u|e] m2];
        reflexivity.
    - intros min_sev Hm. unfold _send_notifications.
      replace (min_severity stored) with (min_severity m) by reflexivity.
      rewrite Hm. destruct (_ <? _); reflexivity. }
  destruct (active_alerts m !! id) as [a0|] eqn:E; [|exact G].
  specialize (Hna a0 eq_refl).
  destruct (status a0); [congruence | exact G | exact G].
Qed.

(** C5, as the code has it.  When no active alert has the id, two
    [create_alert] calls with it leave one active alert for the id, the
    second call returns the alert the first created and changes
    nothing, and the only sends are the first call's: one to every
    channel if the severity reaches the threshold, none otherwise. *)
Theorem create_alert_twice (m : AlertManager) (min_sev : AlertSeverity)
    (now1 now2 : Z) (id t1 d1 src1 t2 d2 src2 : string)
    (s1 s2 : AlertSeverity) (md1 md2 : option Py.dict) :
  min_severity m = Some min_sev ->
  (forall a0, active_alerts m !! id = Some a0 -> status a0 <> ACTIVE) ->
  let r1 := create_alert now1 id t1 d1 s1 src1 md1 m in
  let r2 := create_alert now2 id t2 d2 s2 src2 md2 (snd r1) in
  let a := new_alert now1 id t1 d1 s1 src1 md1 in
  fst r1 = Py.Ok a /\ fst r2 = Py.Ok a /\ snd r2 = snd r1 /\
  active_alerts (snd r2) !! id = Some a /\ status a = ACTIVE /\
  sent_since (snd r1) (snd r2) = [] /\
  sent_since m (snd r2) =
    if severity_levels s1 <? severity_levels min_sev then []
    else dispatch (notification_channels m) a.
Proof.
  intros Hmin Hna r1 r2 a.
  destruct (create_alert_fresh now1 id t1 d1 s1 src1 md1 m Hna)
    as [Hs Hf].
  specialize (Hf min_sev Hmin). fold a in Hs, Hf. fold r1 in Hs, Hf.
  set (stored := with_alerts m (<[id := a]> (active_alerts m))) in *.
  assert (Hl : active_alerts (snd r1) !! id = Some a).
  { rewrite Hs.
    rewrite (proj1 (send_notifications_alerts a stored)).
    subst stored. simpl. apply lookup_insert_eq. }
  assert (H2 : r2 = (Py.Ok a, snd r1)).
  { subst r2. unfold create_alert at 1. rewrite Hl. reflexivity. }
  split; [exact Hf|]. rewrite H2. simpl.
  split; [reflexivity|]. split; [reflexivity|]. split; [exact Hl|].
  split; [reflexivity|]. split; [now apply sent_since_same|].
  rewrite Hs. unfold _send_notifications.
  replace (min_severity stored) with (min_severity m) by reflexivity.
  rewrite Hmin. destruct (_ <? _); simpl.
  - now apply sent_since_same.
  - now apply sent_since_app.
Qed.

(** C10, as the code has it.  An acknowledged alert stays in the map, and
    [create_alert] with its id does not return it: a fresh active alert
    without acknowledgement fields replaces the entry and goes through
    [_send_notifications] again, which sends it to every channel when its
    severity reaches the threshold and to none below it; only an active
    stored alert short-circuits. *)
Theorem create_alert_after_acknowledge (m : AlertManager) (a0 : Alert)
    (now0 now : Z) (id user t d src : string) (s : AlertSeverity)
    (md : option Py.dict) :
  active_alerts m !! id = Some a0 ->
  let m1 := snd (acknowledge_alert now0 id user m) in
  let fresh := new_alert now id t d s src md in
  let r := create_alert now id t d s src md m1 in
  active_alerts m1 !! id = Some (acknowledge now0 user a0) /\
  status (acknowledge now0 user a0) = ACKNOWLEDGED /\
  fst r <> Py.Ok (acknowledge now0 user a0) /\
  active_alerts (snd r) = <[id := fresh]> (active_alerts m1) /\
  status fresh = ACTIVE /\
  acknowledged_by fresh = None /\ acknowledged_at fresh = None /\
  snd r = snd (_send_notifications fresh
                 (with_alerts m1 (<[id := fresh]> (active_alerts m1)))) /\
  (forall min_sev, min_severity m = Some min_sev ->
     fst r = Py.Ok fresh /\
     sent_since m1 (snd r) =
       if severity_levels s <? severity_levels min_sev then []
       else dispatch (notification_channels m) fresh).
Proof.
  intros Hin m1 fresh r.
  assert (Hm1 : m1 = with_alerts m (<[id := acknowledge now0 user a0]>
                                      (active_alerts m))).
  { subst m1. unfold acknowledge_alert. rewrite Hin. reflexivity. }
  assert (Hl : active_alerts m1 !! id = Some (acknowledge now0 user a0)).
  { rewrite Hm1. simpl. apply lookup_insert_eq. }
  assert (Hna : forall a1, active_alerts m1 !! id = Some a1 ->
                           status a1 <> ACTIVE).
  { intros a1. rewrite Hl. intros [= <-]. discriminate. }
  destruct (create_alert_fresh now id t d s src md m1 Hna) as [Hs Hf].
  fold fresh in Hs, Hf. fold r in Hs, Hf.
  set (stored := with_alerts m1 (<[id := fresh]> (active_alerts m1))) in *.
  assert (Hcfg : min_severity m1 = min_severity m)
    by (rewrite Hm1; reflexivity).
  split; [exact Hl|]. split; [reflexivity|]. split.
  { destruct (min_severity m) as [min_sev|] eqn:E.
    - rewrite (Hf min_sev) by congruence. intros H.
      apply (f_equal (fun x => match x with
                               | Py.Ok a1 => status a1
                               | Py.Raise _ => ACTIVE
                               end)) in H.
      discriminate H.
    - assert (Hr : fst r = Py.Raise Py.ValueError).
      { subst r. unfold create_alert. rewrite Hl. simpl.
        unfold _send_notifications.
        replace (min_severity (with_alerts m1 _)) with (min_severity m1)
          by reflexivity.
        rewrite Hcfg. reflexivity. }
      rewrite Hr. discriminate. }
  split.
  { rewrite Hs. apply (send_notifications_alerts fresh stored). }
  split; [reflexivity|]. split; [reflexivity|]. split; [reflexivity|].
  split; [exact Hs|].
  intros min_sev Hmin. split; [apply (Hf min_sev); congruence|].
  rewrite Hs. unfold _send_notifications.
  replace (min_severity stored) with (min_severity m1) by reflexivity.
  rewrite Hcfg, Hmin.
  replace (severity fresh) with s by reflexivity.
  destruct (severity_levels s <? severity_levels min_sev); simpl.
  - now apply sent_since_same.
  - apply sent_since_app. rewrite Hm1. reflexivity.
Qed.
End AlertingFacts.


(** The dedup scenario: a critical alert created twice. *)
Lemma create_alert_twice_critical :
  let r1 := Alerting.sample_create 0 Alerting.CRITICAL
              Alerting.sample_manager in
  let r2 := Alerting.sample_create 5 Alerting.CRITICAL (snd r1) in
  Alerting.min_severity Alerting.sample_manager = Some Alerting.WARNING /\
  (forall a0,
     Alerting.active_alerts Alerting.sample_manager !! "A1" = Some a0 ->
     Alerting.status a0 <> Alerting.ACTIVE) /\
  fst r2 = fst r1 /\
  length (Alerting.sent_since Alerting.sample_manager (snd r2)) = 1%nat.
Proof.
  intros r1 r2.
  assert (Hna : forall a0,
             Alerting.active_alerts Alerting.sample_manager !! "A1"
               = Some a0 ->
             Alerting.status a0 <> Alerting.ACTIVE).
  { intros a0 H. simpl in H. rewrite lookup_empty in H. discriminate. }
  split; [reflexivity|]. split; [exact Hna|].
  destruct (create_alert_twice Alerting.sample_manager Alerting.WARNING
              0 5 "A1" "Stock low" "Stock below reorder point" "inventory"
              "Stock low" "Stock below reorder point" "inventory"
              Alerting.CRITICAL Alerting.CRITICAL None None eq_refl Hna)
    as (H1 & H2 & _ & _ & _ & _ & H7).
  split.
  - unfold r2, r1, Alerting.sample_create. rewrite H1, H2. reflexivity.
  - unfold r2, r1, Alerting.sample_create. rewrite H7. reflexivity.
Defined.

(** An informational alert created twice on the sample manager: the alert
    is active, and its one channel has received nothing. *)
Lemma create_alert_twice_info_sends_nothing :
  let r1 := Alerting.sample_create 0 Alerting.INFO Alerting.sample_manager in
  let r2 := Alerting.sample_create 5 Alerting.INFO (snd r1) in
  length (Alerting.notification_channels Alerting.sample_manager) = 1%nat /\
  (exists a, fst r2 = Py.Ok a /\ Alerting.status a = Alerting.ACTIVE) /\
  Alerting.sent (snd r2) = [].
Proof.
  split; [reflexivity|]. split; [eexists; split; reflexivity|].
  reflexivity.
Qed.

(** An alert acknowledged by a user and then created again. *)
Lemma create_alert_after_acknowledge_example :
  let m := snd (Alerting.sample_create 0 Alerting.CRITICAL
                  Alerting.sample_manager) in
  let a0 := Alerting.new_alert 0 "A1" "Stock low"
              "Stock below reorder point" Alerting.CRITICAL "inventory"
              None in
  let m1 := snd (Alerting.acknowledge_alert 3 "A1" "operator" m) in
  Alerting.active_alerts m !! "A1" = Some a0 /\
  fst (Alerting.sample_create 5 Alerting.ERROR m1)
    = Py.Ok (Alerting.new_alert 5 "A1" "Stock low"
               "Stock below reorder point" Alerting.ERROR "inventory" None).
Proof.
  intros m a0 m1.
  assert (Hin : Alerting.active_alerts m !! "A1" = Some a0)
    by (vm_compute; reflexivity).
  split; [exact Hin|].
  destruct (create_alert_after_acknowledge m a0 3 5 "A1" "operator"
              "Stock low" "Stock below reorder point" "inventory"
              Alerting.ERROR None Hin)
    as (_ & _ & _ & _ & _ & _ & _ & _ & H).
  exact (proj1 (H Alerting.WARNING eq_refl)).
Defined.

(** The same alert acknowledged and then created again as informational:
    the fresh alert is stored, and the channel receives nothing more. *)
Lemma create_alert_after_acknowledge_info_sends_nothing :
  let m := snd (Alerting.sample_create 0 Alerting.CRITICAL
                  Alerting.sample_manager) in
  let m1 := snd (Alerting.acknowledge_alert 3 "A1" "operator" m) in
  let r := Alerting.sample_create 5 Alerting.INFO m1 in
  (exists a0, Alerting.active_alerts m1 !! "A1" = Some a0 /\
              Alerting.status a0 = Alerting.ACKNOWLEDGED) /\
  fst r = Py.Ok (Alerting.new_alert 5 "A1" "Stock low"
                   "Stock below reorder point" Alerting.INFO "inventory"
                   None) /\
  length (Alerting.notification_channels m1) = 1%nat /\
  Alerting.sent (snd r) = Alerting.sent m1.
Proof.
  split; [eexists; split; vm_compute; reflexivity|].
  split; [vm_compute; reflexivity|].
  split; reflexivity.
Qed.

(** ** StorageManager *)

Section StorageFacts.
Import Py Storage.

Variable m : StorageManager.
Variable data : dict.

Let record_unavailable (acc : gmap string bool) (adapter_name : string) :=
  if available m adapter_name then acc else <[adapter_name := false]> acc.

Let await_task (acc : gmap string bool) (adapter_name : string) :=
  match _store_to_adapter m adapter_name data with
  | Ok success => <[adapter_name := success]> acc
  | Raise _ => <[adapter_name := false]> acc
  end.

Lemma record_unavailable_lookup (l : list string) (acc : gmap string bool)
    (name : string) :
  foldl record_unavailable acc l !! name =
  if decide (name ∈ l /\ available m name = false) then Some false
  else acc !! name.
Proof.
  revert acc. induction l as [|n l IH]; intros acc; cbn [foldl].
  - rewrite decide_False; [reflexivity|].
    intros [H _]. now apply elem_of_nil in H.
  - rewrite IH. unfold record_unavailable.
    destruct (decide (name ∈ l /\ available m name = false)) as [[H1 H2]|N].
    + rewrite decide_True; [reflexivity|].
      split; [now apply elem_of_cons; right | exact H2].
    + destruct (decide (name = n)) as [->|Hne].
      * destruct (available m n) eqn:E.
        -- rewrite decide_False; [reflexivity|]. intros [_ ?]. congruence.
        -- rewrite lookup_insert_eq.
           rewrite decide_True; [reflexivity|].
           split; [apply elem_of_cons; now left | reflexivity].
      * assert (L : (if available m n then acc else <[n:=false]> acc)
                      !! name = acc !! name).
        { destruct (available m n); [reflexivity|].
          now apply lookup_insert_ne. }
        rewrite L. rewrite decide_False; [reflexivity|].
        intros [H1 H2]. apply elem_of_cons in H1 as [?|?]; [congruence|].
        apply N. now split.
Qed.

Lemma await_task_lookup (tasks : list string) (acc : gmap string bool)
    (name : string) :
  Forall (fun n => available m n = true) tasks ->
  foldl await_task acc tasks !! name =
  if decide (name ∈ tasks) then Some (adapter_outcome m name data)
  else acc !! name.
Proof.
  revert acc. induction tasks as [|n l IH]; intros acc Hav; cbn [foldl].
  - rewrite decide_False; [reflexivity|].
    intros H. now apply elem_of_nil in H.
  - inversion Hav as [|? ? Hn Hl]; subst. rewrite (IH _ Hl).
    assert (Hw : await_task acc n = <[n := adapter_outcome m n data]> acc).
    { unfold await_task, _store_to_adapter, adapter_outcome.
      unfold available in Hn.
      destruct (lookup_assoc n (adapters m)) as [a|]; [|discriminate].
      destruct (a data); reflexivity. }
    rewrite Hw.
    destruct (decide (name ∈ l)) as [H|N].
    + rewrite decide_True; [reflexivity|]. apply elem_of_cons; now right.
    + destruct (decide (name = n)) as [->|Hne].
      * rewrite lookup_insert_eq. rewrite decide_True; [reflexivity|].
        apply elem_of_cons; now left.
      * rewrite lookup_insert_ne by congruence.
        rewrite decide_False; [reflexivity|].
        intros H. apply elem_of_cons in H as [?|?]; [congruence|auto].
Qed.

(** The data type resolves when it is given, and when the three fields the
    inference lowers are strings or absent. *)
Lemma resolve_data_type_returns (data_type : option string) :
  (forall k v, In k ["event_type"; "data_type"; "source"] ->
               dict_lookup k data = Some v -> exists s, v = PStr s) ->
  exists t, resolve_data_type data data_type = Ok t.
Proof.
  intros Hstr.
  assert (L : forall k, In k ["event_type"; "data_type"; "source"] ->
              exists s, lower_of (dict_get_default k (PStr "") data) = Ok s).
  { intros k Hk. unfold dict_get_default.
    destruct (dict_lookup k data) as [v|] eqn:E; [|simpl; eauto].
    destruct (Hstr k v Hk E) as (s & ->). simpl. eauto. }
  assert (I : exists t, _infer_data_type data = Ok t).
  { unfold _infer_data_type.
    destruct (_ || _); [eauto|].
    destruct (L "event_type") as (s1 & ->); [simpl; auto|]. cbn [bind].
    destruct (_ || _); [eauto|].
    destruct (L "data_type") as (s2 & ->); [simpl; auto|]. cbn [bind].
    destruct (contains _ _); [eauto|].
    destruct (L "source") as (s3 & ->); [simpl; auto|]. cbn [bind].
    destruct (contains _ _); [eauto|]. destruct (_ || _); eauto. }
  unfold resolve_data_type. destruct data_type as [t|]; [|exact I].
  destruct (String.eqb t ""); [exact I|eauto].
Qed.

(** C7, as the code has it.  When the data type is given, or is not
    given and [_infer_data_type] returns one, [store_data] returns a map
    with one boolean for each target adapter of that type and nothing
    else; an adapter's entry is what that adapter alone did with the
    record ([False] when it failed, raised or is not configured), and no
    adapter makes the call raise.  For a record of type [alerts] under the
    default routing, with the search adapter succeeding and the warehouse
    adapter raising [WriteError], the map is
    [{elasticsearch: True, clickhouse: False}]. *)
Theorem store_data_partial_failure (data_type : option string)
    (resolved : string) :
  routed_as data data_type resolved ->
  exists results,
    store_data m data data_type = Ok results /\
    (forall name,
       results !! name =
       if decide (name ∈ _get_target_adapters m resolved)
       then Some (adapter_outcome m name data) else None) /\
    (forall es ch,
       resolved = "alerts" ->
       routing_rules m = default_routing_rules ->
       lookup_assoc "elasticsearch" (adapters m) = Some es ->
       lookup_assoc "clickhouse" (adapters m) = Some ch ->
       es data = Ok true -> ch data = Raise WriteError ->
       results = {[ "elasticsearch" := true; "clickhouse" := false ]}).
Proof.
  intros Hrouted.
  assert (Hres : resolve_data_type data data_type = Ok resolved).
  { unfold resolve_data_type.
    destruct Hrouted as [(t & -> & Ht & ->)|([-> | ->] & Hinf)].
    - destruct (String.eqb t "") eqn:E; [|reflexivity].
      apply String.eqb_eq in E. contradiction.
    - exact Hinf.
    - exact Hinf. }
  unfold store_data. rewrite Hres. cbn [bind].
  set (targets := _get_target_adapters m resolved).
  set (tasks := filter (fun n => available m n = true) targets).
  set (results := foldl await_task (foldl record_unavailable ∅ targets)
                    tasks).
  assert (Hlook : forall name,
             results !! name =
             if decide (name ∈ targets)
             then Some (adapter_outcome m name data) else None).
  { intros name. subst results.
    rewrite await_task_lookup.
    2:{ subst tasks. apply Forall_forall. intros n Hn.
        now apply list_elem_of_filter in Hn as [Hn _]. }
    rewrite record_unavailable_lookup, lookup_empty.
    destruct (decide (name ∈ tasks)) as [Ht|Nt].
    - subst tasks. apply list_elem_of_filter in Ht as [_ Ht].
      rewrite decide_True by exact Ht. reflexivity.
    - destruct (decide (name ∈ targets)) as [Hin|Nin].
      + assert (Hav : available m name = false).
        { destruct (available m name) eqn:E; [|reflexivity].
          exfalso. apply Nt. subst tasks.
          apply list_elem_of_filter. now split. }
        rewrite decide_True by now split.
        unfold adapter_outcome. unfold available in Hav.
        destruct (lookup_assoc name (adapters m)); [discriminate|].
        reflexivity.
      + rewrite decide_False; [reflexivity|]. intros [? _]. contradiction. }
  assert (Hstore :
    match targets with
    | [] => Ok ∅
    | _ => Ok results
    end = Ok results).
  { subst results tasks. destruct targets as [|n l]; reflexivity. }
  exists results. split; [exact Hstore|]. split; [exact Hlook|].
  intros es ch -> Hrules Hes Hch Hes_ok Hch_raise.
  apply map_eq. intros name. rewrite Hlook.
  subst targets. unfold _get_target_adapters. rewrite Hrules. simpl.
  destruct (decide (name = "elasticsearch")) as [->|Ne].
  - rewrite decide_True by (apply elem_of_cons; now left).
    unfold adapter_outcome. rewrite Hes, Hes_ok.
    now rewrite lookup_insert_eq.
  - rewrite lookup_insert_ne by congruence.
    destruct (decide (name = "clickhouse")) as [->|Nc].
    + rewrite decide_True
        by (apply elem_of_cons; right; apply elem_of_cons; now left).
      unfold adapter_outcome. rewrite Hch, Hch_raise.
      now rewrite lookup_singleton_eq.
    + rewrite lookup_singleton_ne by congruence.
      rewrite decide_False; [reflexivity|].
      intros H. apply elem_of_cons in H as [?|H]; [congruence|].
      apply elem_of_cons in H as [?|H]; [congruence|].
      now apply elem_of_nil in H.
Qed.
End StorageFacts.

Section RouterFacts.
Import Py Storage.

Lemma infer_data_type_content (d1 d2 : dict) :
  same_content d1 d2 -> _infer_data_type d1 = _infer_data_type d2.
Proof.
  intros H. unfold _infer_data_type, dict_in, dict_get, dict_get_default.
  now rewrite !H.
Qed.

(** C8. The adapters a record is routed to,
    [_get_target_adapters(_infer_data_type(record))], depend on the
    record's content alone: two managers with the default routing rules,
    whatever their adapters, and two records with the same keys and
    values, in whatever order, give the same list (or the same
    exception). *)
Theorem target_adapters_content_only (m1 m2 : StorageManager)
    (d1 d2 : dict) :
  routing_rules m1 = default_routing_rules ->
  routing_rules m2 = default_routing_rules ->
  same_content d1 d2 ->
  bind (_infer_data_type d1) (fun t => Ok (_get_target_adapters m1 t)) =
  bind (_infer_data_type d2) (fun t => Ok (_get_target_adapters m2 t)).
Proof.
  intros H1 H2 Hc. rewrite (infer_data_type_content d1 d2 Hc).
  destruct (_infer_data_type d2) as [t|e]; [|reflexivity]. simpl.
  unfold _get_target_adapters. now rewrite H1, H2.
Qed.
End RouterFacts.

(** The partial-failure scenario on a record whose type is inferred. *)
Lemma store_data_partial_failure_alert :
  Storage.routed_as Storage.sample_alert_record None "alerts" /\
  Storage.store_data Storage.sample_manager Storage.sample_alert_record None
    = Py.Ok {[ "elasticsearch" := true; "clickhouse" := false ]}.
Proof.
  assert (Hr : Storage.routed_as Storage.sample_alert_record None "alerts").
  { right. split; [left; reflexivity | reflexivity]. }
  split; [exact Hr|].
  destruct (store_data_partial_failure Storage.sample_manager
              Storage.sample_alert_record None "alerts" Hr)
    as (results & Hs & _ & Hp).
  rewrite Hs. f_equal.
  exact (Hp (fun _ => Py.Ok true) (fun _ => Py.Raise Py.WriteError)
            eq_refl eq_refl eq_refl eq_refl eq_refl eq_refl).
Defined.

(** A record whose [event_type] is [null] and no data type: the inference
    calls [lower] on [None], and [store_data] raises. *)
Lemma store_data_raises_on_null_event_type :
  Storage.store_data Storage.sample_manager Storage.null_event_type_record
    None = Py.Raise Py.AttributeError.
Proof. reflexivity. Qed.

(** The same alert with its keys in another order, in a manager with other
    adapters. *)
Lemma target_adapters_content_only_alert :
  Storage.routing_rules Storage.sample_manager
    = Storage.default_routing_rules /\
  Storage.routing_rules Storage.sample_manager_search_only
    = Storage.default_routing_rules /\
  Storage.same_content Storage.sample_alert_record
    Storage.sample_alert_record_reordered /\
  Py.bind (Storage._infer_data_type Storage.sample_alert_record)
    (fun t => Py.Ok (Storage._get_target_adapters Storage.sample_manager t))
  = Py.bind (Storage._infer_data_type Storage.sample_alert_record_reordered)
      (fun t => Py.Ok (Storage._get_target_adapters
                         Storage.sample_manager_search_only t)).
Proof.
  assert (Hc : Storage.same_content Storage.sample_alert_record
                 Storage.sample_alert_record_reordered).
  { intros k. unfold Storage.sample_alert_record,
      Storage.sample_alert_record_reordered. cbn [Py.dict_lookup].
    destruct (String.eqb k "type") eqn:E1;
      destruct (String.eqb k "item_id") eqn:E2;
      destruct (String.eqb k "severity") eqn:E3;
      try reflexivity;
      repeat match goal with
             | H : String.eqb _ _ = true |- _ =>
                 apply String.eqb_eq in H
             end; congruence. }
  split; [reflexivity|]. split; [reflexivity|]. split; [exact Hc|].
  exact (target_adapters_content_only Storage.sample_manager
           Storage.sample_manager_search_only _ _ eq_refl eq_refl Hc).
Defined.

(** ** InventoryEnricher *)

Section EnricherFacts.
Import Py Enricher.

Variable hash : pyval -> Z.
Variable str_of : pyval -> string.

Lemma key_eqb_refl (v : pyval) : hashable v = true -> key_eqb v v = true.
Proof.
  destruct v as [|b|z|q|s|l|d|t]; simpl; intros H; try discriminate;
    try reflexivity.
  - destruct b; reflexivity.
  - unfold key_eqb. simpl. apply Qeq_bool_iff. reflexivity.
  - unfold key_eqb. simpl. apply Qeq_bool_iff. reflexivity.
  - unfold key_eqb. simpl. apply String.eqb_refl.
  - unfold key_eqb, datetime_eqb. simpl.
    destruct (dt_utcoffset t); apply Z.eqb_refl.
Qed.

Lemma cache_lookup_set (k v : pyval) (c : cache) :
  key_eqb k k = true -> cache_lookup k (cache_set k v c) = Some v.
Proof.
  intros Hk. induction c as [|[k0 v0] c IH]; simpl.
  - now rewrite Hk.
  - destruct (key_eqb k k0) eqn:E; simpl; rewrite E; auto.
Qed.

(** A second lookup of the same item finds what the first returned and
    changes nothing, whatever the location cache has become. *)
Lemma get_item_details_again (item_id : pyval) (st st1 : InventoryEnricher)
    (r : option pyval) (lc : cache) :
  _get_item_details hash str_of item_id st = (Ok r, st1) ->
  _get_item_details hash str_of item_id
    (mkEnricher (redis_client st1) (item_cache st1) lc)
  = (Ok r, mkEnricher (redis_client st1) (item_cache st1) lc).
Proof.
  unfold _get_item_details.
  destruct (truthy item_id); simpl; [|intros [= <- <-]; reflexivity].
  destruct (match redis_client st with
            | Some c => redis_cached c (redis_key str_of item_id)
            | None => None
            end) as [cached|] eqn:Er.
  - intros [= <- <-]. rewrite Er. reflexivity.
  - destruct (hashable item_id) eqn:Eh; simpl; [|discriminate].
    destruct (cache_lookup item_id (item_cache st)) as [details|] eqn:Ec.
    + intros [= <- <-]. rewrite Er, Ec. reflexivity.
    + intros [= <- <-]. simpl.
      rewrite (cache_lookup_set _ _ _ (key_eqb_refl _ Eh)).
      destruct (redis_client st) as [c|]; [|reflexivity].
      unfold redis_setex, redis_cached in *.
      destruct (setex_raises c) eqn:Es.
      * rewrite Er. reflexivity.
      * simpl. destruct (get_raises c); [reflexivity|].
        rewrite lookup_insert_eq. reflexivity.
Qed.

Lemma get_location_details_again (location_id : pyval)
    (st st1 : InventoryEnricher) (r : option pyval) :
  _get_location_details hash location_id st = (Ok r, st1) ->
  redis_client st1 = redis_client st /\
  item_cache st1 = item_cache st /\
  _get_location_details hash location_id st1 = (Ok r, st1).
Proof.
  unfold _get_location_details.
  destruct (truthy location_id); simpl; [|intros [= <- <-]; auto].
  destruct (hashable location_id) eqn:Eh; simpl; [|discriminate].
  destruct (cache_lookup location_id (location_cache st)) as [details|]
    eqn:Ec.
  - intros [= <- <-]. rewrite Ec. auto.
  - intros [= <- <-]. simpl.
    rewrite (cache_lookup_set _ _ _ (key_eqb_refl _ Eh)). auto.
Qed.

Lemma get_item_details_caches (item_id : pyval)
    (st st1 : InventoryEnricher) (r : result (option pyval)) :
  _get_item_details hash str_of item_id st = (r, st1) ->
  location_cache st1 = location_cache st.
Proof.
  unfold _get_item_details.
  destruct (truthy item_id); simpl; [|intros [= <- <-]; auto].
  destruct (match redis_client st with
            | Some c => redis_cached c (redis_key str_of item_id)
            | None => None
            end); [intros [= <- <-]; auto|].
  destruct (hashable item_id); simpl; [|intros [= <- <-]; auto].
  destruct (cache_lookup item_id (item_cache st));
    intros [= <- <-]; auto.
Qed.

(** The computed fields read the record through a few keys only. *)
Lemma classify_ext (a b : dict) :
  agree_except ["classification"; "risk_assessment"; "seasonal_context"]
    a b ->
  _classify_inventory_event a = _classify_inventory_event b.
Proof.
  intros H.
  unfold _classify_inventory_event, _get_volume_category,
    _get_value_category, _get_urgency_level, dict_get, dict_get_default.
  rewrite (H "quantity_abs" eq_refl), (H "total_value" eq_refl),
    (H "item_details" eq_refl), (H "action" eq_refl),
    (H "normalized_action" eq_refl).
  reflexivity.
Qed.

Lemma assess_risk_ext (a b : dict) :
  agree_except ["risk_assessment"; "seasonal_context"] a b ->
  _assess_risk a = _assess_risk b.
Proof.
  intros H. unfold _assess_risk, dict_get, dict_get_default.
  rewrite (H "item_details" eq_refl), (H "classification" eq_refl),
    (H "business_context" eq_refl).
  reflexivity.
Qed.

Lemma seasonal_context_ext (a b : dict) :
  agree_except ["seasonal_context"] a b ->
  _get_seasonal_context a = _get_seasonal_context b.
Proof.
  intros H. unfold _get_seasonal_context, dict_get, dict_get_default.
  rewrite (H "timestamp_parsed" eq_refl), (H "item_details" eq_refl).
  reflexivity.
Qed.

Lemma set_if_truthy_lookup (key k : string) (r : option pyval) (d : dict) :
  dict_lookup k (set_if_truthy key r d) =
  match r with
  | Some v =>
      if truthy v && String.eqb k key then Some v else dict_lookup k d
  | None => dict_lookup k d
  end.
Proof.
  unfold set_if_truthy. destruct r as [v|]; [|reflexivity].
  destruct (truthy v); simpl; [|reflexivity].
  apply dict_lookup_set.
Qed.

Lemma set_if_truthy_same (key : string) (r : option pyval) (d d0 : dict) :
  dict_lookup key d = dict_lookup key (set_if_truthy key r d0) ->
  set_if_truthy key r d = d.
Proof.
  rewrite set_if_truthy_lookup. unfold set_if_truthy.
  destruct r as [v|]; [|reflexivity].
  destruct (truthy v); simpl; [|reflexivity].
  rewrite String.eqb_refl. apply dict_set_same.
Qed.

(** C9. Enriching an enriched event again, in the state the first call
    left, returns the same event and leaves the state as it is: no
    computed field changes. *)
Theorem enrich_idempotent (st st1 : InventoryEnricher) (e e1 : dict) :
  enrich hash str_of e st = (Ok e1, st1) ->
  enrich hash str_of e1 st1 = (Ok e1, st1).
Proof.
  unfold enrich at 1.
  destruct (_get_item_details hash str_of (dict_get "item_id" e) st)
    as [[r|x] sa] eqn:Ei; [|discriminate].
  destruct (_get_location_details hash (dict_get "location_id" e) sa)
    as [[r'|x] sb] eqn:El; [|discriminate].
  set (d1 := set_if_truthy "item_details" r e).
  set (d2 := set_if_truthy "location_details" r' d1).
  destruct (_classify_inventory_event d2) as [c|x] eqn:Ec; cbn [bind];
    [|discriminate].
  set (d3 := dict_set "classification" (PDict c) d2).
  destruct (_assess_risk d3) as [k|x] eqn:Ek; cbn [bind]; [|discriminate].
  set (d4 := dict_set "risk_assessment" (PDict k) d3).
  destruct (_get_seasonal_context d4) as [sc|x] eqn:Es; cbn [bind];
    [|discriminate].
  intros [= <- <-].
  set (e1 := dict_set "seasonal_context" (PDict sc) d4).
  (* how the keys of the result relate to the stages of the first run *)
  assert (L4 : agree_except ["seasonal_context"] d4 e1).
  { intros key Hk. subst e1. rewrite dict_lookup_set.
    simpl in Hk. destruct (String.eqb key "seasonal_context");
      [discriminate|reflexivity]. }
  assert (L3 : agree_except ["risk_assessment"; "seasonal_context"] d3 e1).
  { intros key Hk. rewrite <- L4.
    - subst d4. rewrite dict_lookup_set. simpl in Hk.
      destruct (String.eqb key "risk_assessment");
        [discriminate|reflexivity].
    - simpl in *. destruct (String.eqb key "risk_assessment");
        [discriminate|exact Hk]. }
  assert (L2 : agree_except
                 ["classification"; "risk_assessment"; "seasonal_context"]
                 d2 e1).
  { intros key Hk. rewrite <- L3.
    - subst d3. rewrite dict_lookup_set. simpl in Hk.
      destruct (String.eqb key "classification");
        [discriminate|reflexivity].
    - simpl in *. destruct (String.eqb key "classification");
        [discriminate|exact Hk]. }
  assert (Hid : dict_get "item_id" e1 = dict_get "item_id" e).
  { unfold dict_get. rewrite <- (L2 "item_id" eq_refl). subst d2 d1.
    rewrite !set_if_truthy_lookup. cbn [String.eqb Ascii.eqb Bool.eqb].
    destruct r' as [v'|], r as [v|]; rewrite ?andb_false_r; reflexivity. }
  assert (Hloc : dict_get "location_id" e1 = dict_get "location_id" e).
  { unfold dict_get. rewrite <- (L2 "location_id" eq_refl). subst d2 d1.
    rewrite !set_if_truthy_lookup. cbn [String.eqb Ascii.eqb Bool.eqb].
    destruct r' as [v'|], r as [v|]; rewrite ?andb_false_r; reflexivity. }
  (* the lookups of the second run *)
  destruct (get_location_details_again _ _ _ _ El) as (Hr & Hc & El').
  assert (Ei' : _get_item_details hash str_of (dict_get "item_id" e) sb
                = (Ok r, sb)).
  { pose proof (get_item_details_again _ _ _ _ (location_cache sb) Ei)
      as H.
    rewrite <- Hr, <- Hc in H. destruct sb; exact H. }
  unfold enrich. rewrite Hid, Ei', Hloc, El'.
  (* every assignment of the second run stores what is already there *)
  assert (S1 : set_if_truthy "item_details" r e1 = e1).
  { apply (set_if_truthy_same _ _ _ e).
    rewrite <- (L2 "item_details" eq_refl). subst d2.
    rewrite set_if_truthy_lookup. cbn [String.eqb Ascii.eqb Bool.eqb].
    destruct r' as [v'|]; rewrite ?andb_false_r; reflexivity. }
  rewrite S1.
  assert (S2 : set_if_truthy "location_details" r' e1 = e1).
  { apply (set_if_truthy_same _ _ _ d1).
    rewrite <- (L2 "location_details" eq_refl). reflexivity. }
  rewrite S2.
  rewrite <- (classify_ext d2 e1 L2), Ec. cbn [bind].
  assert (S3 : dict_set "classification" (PDict c) e1 = e1).
  { apply dict_set_same. rewrite <- (L3 "classification" eq_refl).
    subst d3. rewrite dict_lookup_set. reflexivity. }
  rewrite S3, <- (assess_risk_ext d3 e1 L3), Ek. cbn [bind].
  assert (S4 : dict_set "risk_assessment" (PDict k) e1 = e1).
  { apply dict_set_same. rewrite <- (L4 "risk_assessment" eq_refl).
    subst d4. rewrite dict_lookup_set. reflexivity. }
  rewrite S4, <- (seasonal_context_ext d4 e1 L4), Es. cbn [bind].
  assert (S5 : dict_set "seasonal_context" (PDict sc) e1 = e1).
  { apply dict_set_same. subst e1. rewrite dict_lookup_set. reflexivity. }
  rewrite S5. reflexivity.
Qed.
End EnricherFacts.

(** An enriched stock-out event, enriched once more. *)
Lemma enrich_idempotent_stock_out :
  Enricher.enrich Enricher.sample_hash Enricher.sample_str_of
    Processor.stock_out_processed Enricher.new_enricher
  = (Py.Ok Enricher.sample_enriched, Enricher.sample_enricher_after) /\
  Enricher.enrich Enricher.sample_hash Enricher.sample_str_of
    Enricher.sample_enriched Enricher.sample_enricher_after
  = (Py.Ok Enricher.sample_enriched, Enricher.sample_enricher_after).
Proof.
  assert (H : Enricher.enrich Enricher.sample_hash Enricher.sample_str_of
                Processor.stock_out_processed Enricher.new_enricher
              = (Py.Ok Enricher.sample_enriched,
                 Enricher.sample_enricher_after))
    by (vm_compute; reflexivity).
  split; [exact H|].
  exact (enrich_idempotent Enricher.sample_hash Enricher.sample_str_of
           _ _ _ _ H).
Defined.

(** ** InventoryAnomalyDetector *)

Section DetectorFacts.
Import Py Detector.

Lemma Qltb_lt (x y : Q) : Qltb x y = true <-> (x < y)%Q.
Proof.
  unfold Qltb. rewrite negb_true_iff. split.
  - intros H. apply Qnot_le_lt. intros Hle.
    apply Qle_bool_iff in Hle. congruence.
  - intros H. destruct (Qle_bool y x) eqn:E; [|reflexivity].
    apply Qle_bool_iff in E. exfalso. exact (Qlt_not_le _ _ H E).
Qed.

Lemma Qltb_ge (x y : Q) : Qltb x y = false <-> (y <= x)%Q.
Proof.
  unfold Qltb. rewrite negb_false_iff. apply Qle_bool_iff.
Qed.

(** [max_by_confidence] returns the first element of greatest
    confidence: [pre0] and [mid] are the elements already passed, before
    and after the running best. *)
Lemma max_by_confidence_first (l : list AnomalyResult) :
  forall (best : AnomalyResult) (pre0 mid : list AnomalyResult),
    Forall (fun h => (confidence h < confidence best)%Q) pre0 ->
    Forall (fun h => (confidence h <= confidence best)%Q) mid ->
    exists pre post,
      pre0 ++ best :: mid ++ l = pre ++ max_by_confidence best l :: post /\
      Forall (fun h => (confidence h
                        < confidence (max_by_confidence best l))%Q) pre /\
      Forall (fun h => (confidence h
                        <= confidence (max_by_confidence best l))%Q) post.
Proof.
  induction l as [|x l IH]; intros best pre0 mid Hpre Hmid; simpl.
  - exists pre0, mid. rewrite app_nil_r. auto.
  - destruct (Qltb (confidence best) (confidence x)) eqn:E.
    + apply Qltb_lt in E.
      destruct (IH x (pre0 ++ best :: mid) []) as (pre & post & H1 & H2).
      * apply Forall_app. split.
        -- eapply Forall_impl; [exact Hpre|]. simpl. intros h Hh.
           eapply Qlt_trans; eauto.
        -- constructor; [exact E|].
           eapply Forall_impl; [exact Hmid|]. simpl. intros h Hh.
           eapply Qle_lt_trans; eauto.
      * constructor.
      * exists pre, post. split; [|exact H2].
        rewrite <- H1. simpl. rewrite <- app_assoc. reflexivity.
    + apply Qltb_ge in E.
      destruct (IH best pre0 (mid ++ [x])) as (pre & post & H1 & H2).
      * exact Hpre.
      * apply Forall_app. split; [exact Hmid|]. constructor; [exact E|].
        constructor.
      * exists pre, post. split; [|exact H2].
        rewrite <- H1. rewrite <- app_assoc. reflexivity.
Qed.

(** C4, as the code has it.  [detect] returns the hit of greatest
    confidence and, among hits of that confidence, the one the detectors
    produced first, whatever the severities; without a hit it returns the
    no-anomaly result. *)
Theorem detect_returns_first_maximum
    (float_of_string : string -> option Q) (hash : pyval -> Z)
    (data : dict) (st : Detector) (hits : list AnomalyResult) :
  anomalies float_of_string hash (_add_to_window data st) data = Ok hits ->
  exists r,
    fst (detect float_of_string hash data st) = Ok r /\
    (hits = [] -> r = no_anomaly) /\
    (hits <> [] ->
     exists pre post,
       hits = pre ++ r :: post /\
       Forall (fun h => (confidence h < confidence r)%Q) pre /\
       Forall (fun h => (confidence h <= confidence r)%Q) post).
Proof.
  intros H. unfold detect. simpl. rewrite H. simpl.
  exists (select hits). split; [reflexivity|].
  destruct hits as [|a l]; simpl.
  - split; [reflexivity|]. intros N. contradiction.
  - split; [discriminate|]. intros _.
    destruct (max_by_confidence_first l a [] []) as (pre & post & H1 & H2);
      [constructor | constructor |].
    exists pre, post. split; [exact H1 | exact H2].
Qed.
End DetectorFacts.

(** The thirteenth stock-out raises two hits of confidence 1; [detect]
    returns the frequency anomaly. *)
Lemma detect_returns_first_maximum_depletion :
  Detector.anomalies Detector.sample_float_of_string Detector.sample_hash
    (Detector._add_to_window (Detector.depletion_event 12)
       Detector.detector_after_twelve)
    (Detector.depletion_event 12)
  = Py.Ok [Detector.frequency_hit; Detector.depletion_hit] /\
  fst (Detector.detect Detector.sample_float_of_string Detector.sample_hash
         (Detector.depletion_event 12) Detector.detector_after_twelve)
  = Py.Ok Detector.frequency_hit.
Proof.
  assert (H : Detector.anomalies Detector.sample_float_of_string
                Detector.sample_hash
                (Detector._add_to_window (Detector.depletion_event 12)
                   Detector.detector_after_twelve)
                (Detector.depletion_event 12)
              = Py.Ok [Detector.frequency_hit; Detector.depletion_hit])
    by (vm_compute; reflexivity).
  split; [exact H|].
  destruct (detect_returns_first_maximum _ _ _ _ _ H)
    as (r & Hr & _ & Hfirst).
  rewrite Hr. f_equal.
  destruct (Hfirst ltac:(discriminate)) as (pre & post & Hl & Hpre & _).
  destruct pre as [|h pre].
  - now injection Hl as <- _.
  - injection Hl as <- Hl. exfalso.
    destruct pre as [|h' pre].
    + injection Hl as <- _. inversion Hpre as [|? ? Hlt _]; subst.
      now apply Qlt_irrefl in Hlt.
    + injection Hl as _ Hl. now destruct pre.
Defined.

(** The same event against the tie-break by severity: the hit returned has
    severity medium although a hit of the same confidence has severity
    high. *)
Lemma detect_tie_ignores_severity :
  fst (Detector.detect Detector.sample_float_of_string
         Detector.sample_hash (Detector.depletion_event 12)
         Detector.detector_after_twelve)
  = Py.Ok Detector.frequency_hit /\
  Detector.anomalies Detector.sample_float_of_string Detector.sample_hash
    (Detector._add_to_window (Detector.depletion_event 12)
       Detector.detector_after_twelve)
    (Detector.depletion_event 12)
  = Py.Ok [Detector.frequency_hit; Detector.depletion_hit] /\
  (Detector.confidence Detector.depletion_hit
   == Detector.confidence Detector.frequency_hit)%Q /\
  Detector.severity_rank (Detector.severity Detector.frequency_hit)
  < Detector.severity_rank (Detector.severity Detector.depletion_hit).
Proof.
  split; [vm_compute; reflexivity|].
  split; [vm_compute; reflexivity|].
  split; reflexivity.
Qed.

(** ** InventoryProcessor: the derived fields *)

Section ProcessorFieldFacts.
Import Py Processor ProcessorFields.

Variable float_of_string : string -> option Q.
Variable fromisoformat : string -> option datetime.
Variable fromtimestamp : Q -> result datetime.
Variable isoformat : datetime -> string.

Let process := process float_of_string fromisoformat fromtimestamp isoformat.
Let derive_fields :=
  derive_fields float_of_string fromisoformat fromtimestamp.
Let _parse_timestamp :=
  _parse_timestamp float_of_string fromisoformat fromtimestamp.

(** The record [derive_fields] returns, written out. *)
Lemma derive_fields_shape (now1 : datetime) (d2 out : dict) :
  derive_fields now1 d2 = Ok out ->
  exists q ts,
    float_of float_of_string (dict_get_default "quantity" (PInt 0) d2)
      = Ok q /\
    _parse_timestamp now1 (dict_get "timestamp" d2) = Ok ts /\
    let so := eq_str (dict_get "action" d2) "stock_out" in
    let d6 :=
      dict_set "business_context" (PDict (_get_business_context ts))
        (dict_set "timestamp_parsed" (PDatetime ts)
           (dict_set "quantity_normalized"
              (PFloat (if so then - Qabs q else Qabs q))
              (dict_set "quantity_direction"
                 (PStr (if so then "negative" else "positive"))
                 (dict_set "quantity_abs" (PFloat (Qabs q)) d2)))) in
    match dict_lookup "unit_price" d2 with
    | Some up =>
        exists price,
          float_of float_of_string up = Ok price /\
          out = dict_set "total_value" (PFloat (Qabs q * price)) d6
    | None => out = d6
    end.
Proof.
  unfold derive_fields, _parse_timestamp, Processor.derive_fields.
  destruct (float_of float_of_string
              (dict_get_default "quantity" (PInt 0) d2)) as [q|e] eqn:Eq;
    cbn [bind]; [|discriminate].
  dict_simpl. rewrite Eq. cbn [bind]. dict_simpl.
  destruct (eq_str (dict_get "action" d2) "stock_out"); dict_simpl;
    (destruct (Processor._parse_timestamp _ _ _ now1 (dict_get "timestamp" d2))
       as [ts|e] eqn:Ets; cbn [bind]; [|discriminate]);
    dict_simpl; intros H; exists q, ts;
    (split; [reflexivity|]); (split; [reflexivity|]); cbn zeta;
    (destruct (dict_lookup "unit_price" d2) as [up|];
     [ destruct (float_of float_of_string up) as [price|e] eqn:Ep;
       cbn [bind] in H; [|discriminate];
       exists price; split; [reflexivity|]; congruence
     | congruence ]).
Qed.

Lemma is_derived_key_false (k : string) :
  is_derived_key k = false ->
  String.eqb k "processing" = false /\
  String.eqb k "normalized_action" = false /\
  String.eqb k "quantity_abs" = false /\
  String.eqb k "quantity_direction" = false /\
  String.eqb k "quantity_normalized" = false /\
  String.eqb k "timestamp_parsed" = false /\
  String.eqb k "business_context" = false /\
  String.eqb k "total_value" = false.
Proof.
  unfold is_derived_key, derived_keys. cbn [existsb].
  intros H. repeat (apply orb_false_elim in H as [? H]).
  repeat split; assumption.
Qed.

(** X1. A successful [process] only adds or overwrites the eight keys it
    derives: every other key of the input is in the output with the
    input's value, and a key absent from the input stays absent. *)
Theorem process_keeps_other_keys (now0 now1 : datetime) (data : dict)
    (metadata : pyval) (out : dict) (k : string) :
  process now0 now1 data metadata = Ok out ->
  is_derived_key k = false ->
  dict_lookup k out = dict_lookup k data.
Proof.
  intros Hout Hk.
  apply is_derived_key_false in Hk
    as (K1 & K2 & K3 & K4 & K5 & K6 & K7 & K8).
  unfold process, Processor.process in Hout.
  destruct (normalize_action _) as [d2|e] eqn:E2; cbn [bind] in Hout;
    [|discriminate].
  assert (L : dict_lookup k d2 = dict_lookup k data).
  { rewrite (normalize_action_lookup _ _ k E2 K2).
    rewrite dict_lookup_set, K1. reflexivity. }
  apply derive_fields_shape in Hout as (q & ts & _ & _ & Hout).
  cbn zeta in Hout.
  destruct (dict_lookup "unit_price" d2) as [up|].
  - destruct Hout as (price & _ & ->).
    rewrite !dict_lookup_set, K3, K4, K5, K6, K7, K8. exact L.
  - subst out. rewrite !dict_lookup_set, K3, K4, K5, K6, K7. exact L.
Qed.

(** X2. The derived fields of a processed event agree with each other:
    [quantity_abs] is not negative, [quantity_normalized] is
    [-quantity_abs] with direction "negative" for a stock-out and
    [+quantity_abs] with direction "positive" otherwise, the business
    context is the one of [timestamp_parsed], and with a [unit_price] in
    the input [total_value] is [quantity_abs * float(unit_price)]. *)
Theorem process_fields_consistent (now0 now1 : datetime) (data : dict)
    (metadata : pyval) (out : dict) :
  process now0 now1 data metadata = Ok out ->
  exists a ts,
    (0 <= a)%Q /\
    dict_lookup "quantity_abs" out = Some (PFloat a) /\
    dict_lookup "quantity_normalized" out =
      Some (PFloat (if eq_str (dict_get "action" data) "stock_out"
                    then - a else a)) /\
    dict_lookup "quantity_direction" out =
      Some (PStr (if eq_str (dict_get "action" data) "stock_out"
                  then "negative" else "positive")) /\
    dict_lookup "timestamp_parsed" out = Some (PDatetime ts) /\
    dict_lookup "business_context" out =
      Some (PDict (_get_business_context ts)) /\
    (forall up, dict_lookup "unit_price" data = Some up ->
       exists price,
         float_of float_of_string up = Ok price /\
         dict_lookup "total_value" out = Some (PFloat (a * price))).
Proof.
  intros Hout. unfold process, Processor.process in Hout.
  destruct (normalize_action _) as [d2|e] eqn:E2; cbn [bind] in Hout;
    [|discriminate].
  assert (L : forall k, String.eqb k "processing" = false ->
              String.eqb k "normalized_action" = false ->
              dict_lookup k d2 = dict_lookup k data).
  { intros k K1 K2. rewrite (normalize_action_lookup _ _ k E2 K2).
    rewrite dict_lookup_set, K1. reflexivity. }
  apply derive_fields_shape in Hout as (q & ts & _ & _ & Hout).
  cbn zeta in Hout.
  assert (Ha : dict_get "action" d2 = dict_get "action" data).
  { unfold dict_get. rewrite (L "action" eq_refl eq_refl). reflexivity. }
  rewrite Ha in Hout. rewrite (L "unit_price" eq_refl eq_refl) in Hout.
  exists (Qabs q), ts. split; [apply Qabs_nonneg|].
  destruct (dict_lookup "unit_price" data) as [up|].
  - destruct Hout as (price & Hp & ->). dict_simpl.
    repeat (split; [reflexivity|]).
    intros up' [= <-]. exists price. split; [exact Hp | reflexivity].
  - subst out. dict_simpl. repeat (split; [reflexivity|]).
    intros up' [=].
Qed.

(** X3. The business context of a time of day: business hours are never
    on a weekend and never in the night shift, the day of the week is
    between 0 and 6, and the weekend is exactly days 5 and 6. *)
Theorem business_context_coherent (t : datetime) :
  exists hour dow (bh we : bool) (shift : string),
    _get_business_context t =
      [("hour", PInt hour); ("day_of_week", PInt dow);
       ("is_business_hours", PBool bh); ("is_weekend", PBool we);
       ("shift", PStr shift)] /\
    hour = dt_hour t /\
    0 <= dow <= 6 /\
    (we = true <-> 5 <= dow) /\
    (bh = true -> we = false /\ shift <> "night" /\ 8 <= hour <= 18) /\
    (shift = "night" <-> hour < 6 \/ 22 <= hour).
Proof.
  unfold _get_business_context, _get_shift.
  do 5 eexists. split; [reflexivity|].
  split; [reflexivity|].
  assert (Hd : 0 <= weekday t <= 6).
  { unfold weekday. pose proof (Z.mod_pos_bound (toordinal t + 6) 7). lia. }
  split; [exact Hd|].
  split; [rewrite Z.leb_le; reflexivity|].
  split.
  - intros H. apply andb_prop in H as [H H3]. apply andb_prop in H as [H1 H2].
    apply Z.leb_le in H1, H2. apply Z.ltb_lt in H3.
    split; [apply Z.leb_gt; lia|].
    split; [|lia].
    destruct (6 <=? dt_hour t) eqn:E1; [|apply Z.leb_gt in E1; lia].
    destruct (dt_hour t <? 14) eqn:E2; cbn [andb]; [discriminate|].
    destruct (14 <=? dt_hour t) eqn:E3; [|apply Z.leb_gt in E3;
                                          apply Z.ltb_ge in E2; lia].
    destruct (dt_hour t <? 22) eqn:E4; cbn [andb]; [discriminate|].
    apply Z.ltb_ge in E4. lia.
  - destruct (6 <=? dt_hour t) eqn:E1;
    destruct (dt_hour t <? 14) eqn:E2;
    destruct (14 <=? dt_hour t) eqn:E3;
    destruct (dt_hour t <? 22) eqn:E4; cbn [andb];
    try apply Z.leb_le in E1; try apply Z.leb_gt in E1;
    try apply Z.ltb_lt in E2; try apply Z.ltb_ge in E2;
    try apply Z.leb_le in E3; try apply Z.leb_gt in E3;
    try apply Z.ltb_lt in E4; try apply Z.ltb_ge in E4;
    split; intros H; try discriminate; try lia; try reflexivity.
Qed.
End ProcessorFieldFacts.

(** The stock-out of 10 units keeps its [item_id]. *)
Lemma process_keeps_other_keys_stock_out :
  Processor.sample_process Processor.stock_out_event Py.PNone
    = Py.Ok Processor.stock_out_processed /\
  ProcessorFields.is_derived_key "item_id" = false /\
  Py.dict_lookup "item_id" Processor.stock_out_processed
    = Some (Py.PStr "I1").
Proof.
  split; [reflexivity|]. split; [reflexivity|].
  exact (process_keeps_other_keys
           Processor.sample_float_of_string Processor.sample_fromisoformat
           Processor.sample_fromtimestamp Processor.sample_isoformat
           Processor.sample_now Processor.sample_now
           Processor.stock_out_event Py.PNone
           Processor.stock_out_processed "item_id" eq_refl eq_refl).
Defined.

(** The derived fields of the stock-out of 10 units. *)
Lemma process_fields_consistent_stock_out :
  Processor.sample_process Processor.stock_out_event Py.PNone
    = Py.Ok Processor.stock_out_processed /\
  exists a ts,
    (0 <= a)%Q /\
    Py.dict_lookup "quantity_abs" Processor.stock_out_processed
      = Some (Py.PFloat a) /\
    Py.dict_lookup "quantity_normalized" Processor.stock_out_processed
      = Some (Py.PFloat (- a)) /\
    Py.dict_lookup "timestamp_parsed" Processor.stock_out_processed
      = Some (Py.PDatetime ts) /\
    Py.dict_lookup "business_context" Processor.stock_out_processed
      = Some (Py.PDict (Processor._get_business_context ts)).
Proof.
  split; [reflexivity|].
  destruct (process_fields_consistent
              Processor.sample_float_of_string Processor.sample_fromisoformat
              Processor.sample_fromtimestamp Processor.sample_isoformat
              Processor.sample_now Processor.sample_now
              Processor.stock_out_event Py.PNone
              Processor.stock_out_processed eq_refl)
    as (a & ts & H0 & H1 & H2 & _ & H4 & H5 & _).
  exists a, ts. repeat split; assumption.
Defined.

(** ** InventoryConsumer *)

Section ConsumerFacts.
Import Py Consumer.

Variable float_of_string : string -> option Q.
Variable fromisoformat : string -> option datetime.
Variable fromtimestamp : Q -> result datetime.
Variable isoformat : datetime -> string.
Variable hash : pyval -> Z.
Variable str_of : pyval -> string.

Let _validate_inventory_message := _validate_inventory_message float_of_string.
Let process :=
  Processor.process float_of_string fromisoformat fromtimestamp isoformat.
Let process_message :=
  process_message float_of_string fromisoformat fromtimestamp isoformat
    hash str_of.

(** What a message that passes the validation looks like. *)
Lemma validate_true (data : dict) :
  _validate_inventory_message data = Ok true ->
  exists s q quantity,
    dict_lookup "action" data = Some (PStr s) /\
    In s valid_actions /\
    dict_lookup "quantity" data = Some q /\
    float_of float_of_string q = Ok quantity /\
    (s = "stock_in" -> (0 <= quantity)%Q).
Proof.
  unfold _validate_inventory_message, Consumer._validate_inventory_message.
  destruct (forallb _ required_fields) eqn:Ereq; cbn [negb]; [|discriminate].
  unfold required_fields in Ereq. cbn [forallb] in Ereq.
  apply andb_prop in Ereq as [_ Ereq].
  apply andb_prop in Ereq as [Ea Ereq].
  apply andb_prop in Ereq as [Eq _].
  unfold dict_in in Ea, Eq. unfold dict_get.
  destruct (dict_lookup "action" data) as [a|]; [|discriminate].
  destruct (dict_lookup "quantity" data) as [q|]; [|discriminate].
  destruct (existsb (eq_str a) valid_actions) eqn:Eval; cbn [negb];
    [|discriminate].
  apply existsb_exists in Eval as (s & Hs & Es).
  destruct a as [| | | |s'| | |]; try discriminate Es.
  apply String.eqb_eq in Es. subst s'.
  destruct (float_of float_of_string q) as [quantity|[]] eqn:Ef;
    try discriminate.
  destruct (Detector.Qltb quantity 0 && _) eqn:Eneg; [discriminate|].
  intros _. exists s, q, quantity. repeat (split; [first [reflexivity | assumption]|]).
  intros ->. cbn in Eneg. rewrite andb_true_r in Eneg.
  unfold Detector.Qltb in Eneg. apply negb_false_iff in Eneg.
  apply Qle_bool_iff in Eneg. exact Eneg.
Qed.

Lemma Qabs_nonneg_eq (q : Q) : (0 <= q)%Q -> Qabs q = q.
Proof.
  destruct q as [n d]. unfold Qle. simpl. intros H.
  unfold Qabs. f_equal. apply Z.abs_eq. lia.
Qed.

Lemma valid_action_mapped (s : string) :
  In s valid_actions ->
  exists m, Processor.assoc s Processor.action_mappings = Some m /\
            In m normalized_actions.
Proof.
  unfold valid_actions, normalized_actions.
  intros [<-|[<-|[<-|[<-|[]]]]]; eexists; (split; [reflexivity|]);
    cbn; auto.
Qed.

(** X4. A message that passes [_validate_inventory_message] is processed
    without an exception as soon as its timestamp is in the range of
    [datetime.fromtimestamp] and its [unit_price], if any, converts to a
    float: the action is normalized to one of the four mapped names, and
    for a validated stock-in [quantity_normalized] is the quantity itself,
    which is not negative. *)
Theorem validated_message_is_processed (now0 now1 : datetime) (data : dict)
    (metadata : pyval) :
  _validate_inventory_message data = Ok true ->
  Processor.timestamp_in_range float_of_string fromisoformat fromtimestamp
    (dict_get "timestamp" data) = true ->
  (forall up, dict_lookup "unit_price" data = Some up ->
              returns (float_of float_of_string up) = true) ->
  exists out m,
    process now0 now1 data metadata = Ok out /\
    dict_lookup "normalized_action" out = Some (PStr m) /\
    In m normalized_actions /\
    (eq_str (dict_get "action" data) "stock_in" = true ->
     exists a, float_of float_of_string (dict_get "quantity" data) = Ok a /\
               (0 <= a)%Q /\
               dict_lookup "quantity_normalized" out = Some (PFloat a)).
Proof.
  intros Hv Ht Hup.
  apply validate_true in Hv as (s & q & quantity & Ea & Hs & Eq & Ef & Hin).
  destruct (valid_action_mapped s Hs) as (m & Em & Hm).
  unfold process, Processor.process.
  set (d1 := dict_set "processing" _ data).
  assert (E1 : forall k, String.eqb k "processing" = false ->
               dict_lookup k d1 = dict_lookup k data).
  { intros k Hk. subst d1. rewrite dict_lookup_set, Hk. reflexivity. }
  assert (E2 : Processor.normalize_action d1
               = Ok (dict_set "normalized_action" (PStr m) d1)).
  { unfold Processor.normalize_action.
    rewrite (E1 "action" eq_refl), Ea. cbn [bind].
    unfold Processor.action_mappings_get. cbn [hashable].
    rewrite Em. reflexivity. }
  rewrite E2. cbn [bind].
  set (d2 := dict_set "normalized_action" (PStr m) d1).
  assert (L : forall k, String.eqb k "processing" = false ->
              String.eqb k "normalized_action" = false ->
              dict_lookup k d2 = dict_lookup k data).
  { intros k K1 K2. subst d2. rewrite dict_lookup_set, K2. apply E1, K1. }
  assert (Q2 : dict_get_default "quantity" (PInt 0) d2 = q).
  { unfold dict_get_default. rewrite (L "quantity" eq_refl eq_refl), Eq.
    reflexivity. }
  assert (A2 : dict_get "action" d2 = PStr s).
  { unfold dict_get. rewrite (L "action" eq_refl eq_refl), Ea. reflexivity. }
  assert (T2 : dict_get "timestamp" d2 = dict_get "timestamp" data).
  { unfold dict_get. rewrite (L "timestamp" eq_refl eq_refl). reflexivity. }
  destruct (parse_timestamp_returns float_of_string fromisoformat
              fromtimestamp now1 (dict_get "timestamp" data) Ht)
    as (ts & Ets).
  assert (R : exists out,
             Processor.derive_fields float_of_string fromisoformat
               fromtimestamp now1 d2 = Ok out).
  { unfold Processor.derive_fields. rewrite Q2, Ef. cbn [bind].
    dict_simpl. rewrite Q2, Ef. cbn [bind]. dict_simpl. rewrite A2.
    destruct (eq_str (PStr s) "stock_out"); dict_simpl;
      rewrite T2, Ets; cbn [bind]; dict_simpl;
      rewrite (L "unit_price" eq_refl eq_refl);
      (destruct (dict_lookup "unit_price" data) as [up|] eqn:Eu;
       [ specialize (Hup up eq_refl);
         destruct (float_of float_of_string up); [|discriminate];
         cbn [bind]; eauto
       | eauto ]). }
  destruct R as (out & R). exists out, m. split; [exact R|].
  apply derive_fields_shape in R as (q' & ts' & Eq' & _ & Hout).
  rewrite Q2, Ef in Eq'. injection Eq' as <-.
  cbn zeta in Hout. rewrite A2 in Hout.
  assert (N : dict_lookup "normalized_action" d2 = Some (PStr m)).
  { subst d2. rewrite dict_lookup_set. reflexivity. }
  assert (Hlook : dict_lookup "normalized_action" out = Some (PStr m) /\
            dict_lookup "quantity_normalized" out =
              Some (PFloat (if eq_str (PStr s) "stock_out"
                            then - Qabs quantity else Qabs quantity))).
  { destruct (dict_lookup "unit_price" d2) as [up|].
    - destruct Hout as (price & _ & ->). dict_simpl. now rewrite N.
    - subst out. dict_simpl. now rewrite N. }
  destruct Hlook as (Hn & Hqn).
  split; [exact Hn|]. split; [exact Hm|].
  unfold dict_get. rewrite Ea, Eq. intros Hin'.
  cbn [eq_str] in Hin'. apply String.eqb_eq in Hin'.
  specialize (Hin Hin'). exists quantity.
  split; [exact Ef|]. split; [exact Hin|].
  rewrite Hqn. subst s. cbn. rewrite (Qabs_nonneg_eq quantity Hin).
  reflexivity.
Qed.

(** Every path through [process_message] ends in [return None], and none
    reaches [send_message]. *)
Lemma process_message_drops (now0 now1 : datetime)
    (message : ConsumerRecord) (c : InventoryConsumer) :
  fst (process_message now0 now1 message c) = None /\
  produced (snd (process_message now0 now1 message c)) = produced c.
Proof.
  unfold process_message, Consumer.process_message.
  destruct (value message); try (split; reflexivity).
  destruct (Consumer._validate_inventory_message _ _) as [[|]|];
    try (split; reflexivity).
  destruct (Processor.process _ _ _ _ _ _ _ _); try (split; reflexivity).
  destruct (Enricher.enrich _ _ _ _) as [[enriched|e] e1];
    try (split; reflexivity).
  cbn [anomaly_detector].
  destruct (Detector.detect _ _ _ _) as [[r|e] d1]; split; reflexivity.
Qed.

(** X5. [process_message] returns [None] for every message and hands
    nothing to the producer: the detector's result is an [AnomalyResult],
    which has no [get], so a message that gets as far as the anomaly check
    ends in the [except] branch. *)
Theorem process_message_returns_none (now0 now1 : datetime)
    (message : ConsumerRecord) (c : InventoryConsumer) :
  fst (process_message now0 now1 message c) = None /\
  produced (snd (process_message now0 now1 message c)) = produced c.
Proof. apply process_message_drops. Qed.

(** X6. A message that passes the validation, the processor and the
    enricher still changes the consumer: the enricher's caches are the
    ones after [enrich], and the enriched event is appended to the
    detector's window, although the message itself is dropped. *)
Theorem process_message_records_event (now0 now1 : datetime)
    (message : ConsumerRecord) (c : InventoryConsumer)
    (data processed enriched : dict) (e1 : Enricher.InventoryEnricher) :
  value message = PDict data ->
  _validate_inventory_message data = Ok true ->
  process now0 now1 data (get_message_metadata message) = Ok processed ->
  Enricher.enrich hash str_of processed (enricher c) = (Ok enriched, e1) ->
  process_message now0 now1 message c =
    (None,
     mkInventoryConsumer e1
       (Detector._add_to_window enriched (anomaly_detector c))
       (produced c)).
Proof.
  intros Hv Hval Hp He.
  unfold process_message, Consumer.process_message.
  rewrite Hv. fold _validate_inventory_message. rewrite Hval.
  fold process. rewrite Hp, He. cbn [anomaly_detector].
  unfold Detector.detect.
  destruct (bind _ _); reflexivity.
Qed.

(** No message is collected for [process_batch]. *)
Lemma collect_processed_none
    (clock : ConsumerRecord -> datetime * datetime)
    (batch : list ConsumerRecord) (c : InventoryConsumer) (acc : list dict) :
  fst (collect_processed
         (process_message_clocked float_of_string fromisoformat
            fromtimestamp isoformat hash str_of clock) batch c acc) = acc /\
  produced
    (snd (collect_processed
            (process_message_clocked float_of_string fromisoformat
               fromtimestamp isoformat hash str_of clock) batch c acc))
    = produced c.
Proof.
  revert c. induction batch as [|message batch IH]; intros c.
  - split; reflexivity.
  - destruct (process_message_drops (fst (clock message))
                (snd (clock message)) message c) as (Hn & Hp).
    unfold process_message in Hn, Hp.
    assert (E : process_message_clocked float_of_string fromisoformat
                  fromtimestamp isoformat hash str_of clock message c =
                (Ok None,
                 snd (Consumer.process_message float_of_string
                        fromisoformat fromtimestamp isoformat hash str_of
                        (fst (clock message)) (snd (clock message))
                        message c))).
    { unfold process_message_clocked. cbn zeta. rewrite Hn. reflexivity. }
    cbn [collect_processed]. rewrite E.
    destruct (IH (snd (Consumer.process_message float_of_string
      fromisoformat fromtimestamp isoformat hash str_of
      (fst (clock message)) (snd (clock message)) message c))) as (I1 & I2).
    split; [exact I1 | exact (eq_trans I2 Hp)].
Qed.

(** X7. [_process_batch] of the inventory consumer never reaches
    [process_batch]: whatever the batch, it returns normally and nothing
    is sent to the processed-inventory topic or the alerts topic. *)
Theorem process_batch_never_called
    (clock : ConsumerRecord -> datetime * datetime)
    (batch : list ConsumerRecord) (c : InventoryConsumer) :
  let r := _process_batch
             (process_message_clocked float_of_string fromisoformat
                fromtimestamp isoformat hash str_of clock)
             (Consumer.process_batch float_of_string hash) batch c in
  fst r = Ok tt /\ produced (snd r) = produced c.
Proof.
  cbn zeta. unfold _process_batch.
  destruct (collect_processed_none clock batch c []) as (H1 & H2).
  destruct (collect_processed _ batch c []) as [msgs c1].
  cbn [fst snd] in H1, H2. subst msgs. split; [reflexivity | exact H2].
Qed.
End ConsumerFacts.

(** The sample stock-in of 50 units is validated and processed. *)
Lemma validated_message_is_processed_stock_in :
  Consumer._validate_inventory_message Processor.sample_float_of_string
    Consumer.sample_message_data = Py.Ok true /\
  exists out m,
    Processor.sample_process Consumer.sample_message_data Py.PNone
      = Py.Ok out /\
    Py.dict_lookup "normalized_action" out = Some (Py.PStr m) /\
    In m Consumer.normalized_actions.
Proof.
  split; [reflexivity|].
  assert (Hup : forall up,
             Py.dict_lookup "unit_price" Consumer.sample_message_data
               = Some up ->
             Py.returns (Py.float_of Processor.sample_float_of_string up)
               = true).
  { intros up [= <-]. reflexivity. }
  destruct (validated_message_is_processed
              Processor.sample_float_of_string Processor.sample_fromisoformat
              Processor.sample_fromtimestamp Processor.sample_isoformat
              Processor.sample_now Processor.sample_now
              Consumer.sample_message_data Py.PNone eq_refl eq_refl Hup)
    as (out & m & H1 & H2 & H3 & _).
  exists out, m. repeat split; assumption.
Defined.

(** The sample stock-in is dropped after it has reached the detector. *)
Lemma process_message_records_event_stock_in :
  Consumer.process_message Processor.sample_float_of_string
    Processor.sample_fromisoformat Processor.sample_fromtimestamp
    Processor.sample_isoformat Enricher.sample_hash Enricher.sample_str_of
    Processor.sample_now Processor.sample_now Consumer.sample_message
    Consumer.new_consumer =
  (None,
   Consumer.mkInventoryConsumer Consumer.sample_enricher_after
     (Detector._add_to_window Consumer.sample_enriched
        Detector.new_detector) []).
Proof.
  exact (process_message_records_event
           Processor.sample_float_of_string Processor.sample_fromisoformat
           Processor.sample_fromtimestamp Processor.sample_isoformat
           Enricher.sample_hash Enricher.sample_str_of
           Processor.sample_now Processor.sample_now
           Consumer.sample_message Consumer.new_consumer
           Consumer.sample_message_data Consumer.sample_processed
           Consumer.sample_enriched Consumer.sample_enricher_after
           eq_refl eq_refl eq_refl eq_refl).
Defined.

(** ** TimeWindow and the aggregator's windows *)

Section WindowPrefixFacts.
Import Window.
Context {A : Type}.

(** An entry not older than the cutoff stops the loop of
    [_cleanup_old_data]. *)
Lemma popleft_while_app_recent (c t : Z) (x : A) (l : list (Z * A)) :
  c <= t ->
  popleft_while c (l ++ [(t, x)]) = popleft_while c l ++ [(t, x)].
Proof.
  intros Hc. induction l as [|e l IH]; cbn [app popleft_while].
  - cbn [fst]. destruct (t <? c) eqn:E; [apply Z.ltb_lt in E; lia|].
    reflexivity.
  - destruct (fst e <? c); [exact IH | reflexivity].
Qed.

Lemma popleft_while_split (c : Z) (l : list (Z * A)) :
  exists dropped,
    l = dropped ++ popleft_while c l /\
    Forall (fun e => fst e < c) dropped /\
    match popleft_while c l with
    | e :: _ => c <= fst e
    | [] => True
    end.
Proof.
  induction l as [|e l (dropped & E & Hd & Hk)]; cbn [popleft_while].
  - exists []. repeat split. constructor.
  - destruct (fst e <? c) eqn:Ee.
    + exists (e :: dropped). split; [cbn; congruence|].
      split; [|exact Hk]. constructor; [apply Z.ltb_lt, Ee | exact Hd].
    + exists []. split; [reflexivity|]. split; [constructor|].
      apply Z.ltb_ge, Ee.
Qed.

(** X8. [add] on a window whose size is not negative appends the new
    entry and removes a prefix of the old ones: exactly the leading
    entries older than the cutoff go, the first entry that is kept is not
    older than the cutoff, and the new entry is the last one. *)
Theorem add_drops_old_prefix (t : Z) (x : A) (w : TimeWindow A) :
  0 <= window_size w ->
  exists dropped kept,
    data w = dropped ++ kept /\
    data (add t x w) = kept ++ [(t, x)] /\
    Forall (fun e => fst e < t - window_size w) dropped /\
    match kept with
    | e :: _ => t - window_size w <= fst e
    | [] => True
    end.
Proof.
  intros Hs. unfold add, _cleanup_old_data. cbn [data window_size].
  rewrite popleft_while_app_recent by lia.
  destruct (popleft_while_split (t - window_size w) (data w))
    as (dropped & E & Hd & Hk).
  exists dropped, (popleft_while (t - window_size w) (data w)).
  repeat split; assumption.
Qed.

Lemma popleft_while_suffix (c : Z) (l : list (Z * A)) :
  popleft_while c l `suffix_of` l.
Proof.
  destruct (popleft_while_split c l) as (dropped & E & _).
  exists dropped. exact E.
Qed.

Lemma popleft_while_mono (c1 c2 : Z) (l : list (Z * A)) :
  c2 <= c1 -> popleft_while c1 l `suffix_of` popleft_while c2 l.
Proof.
  intros Hc. induction l as [|e l IH]; cbn [popleft_while].
  - reflexivity.
  - destruct (fst e <? c2) eqn:E2.
    + apply Z.ltb_lt in E2.
      destruct (fst e <? c1) eqn:E1; [exact IH|].
      apply Z.ltb_ge in E1. lia.
    + apply (popleft_while_suffix c1 (e :: l)).
Qed.

Lemma popleft_while_suffix_mono (c1 c2 : Z) (s l : list (Z * A)) :
  c2 <= c1 -> s `suffix_of` l ->
  popleft_while c1 s `suffix_of` popleft_while c2 l.
Proof.
  intros Hc [k ->]. induction k as [|e k IH]; cbn [app popleft_while].
  - apply popleft_while_mono, Hc.
  - destruct (fst e <? c2); [exact IH|].
    etransitivity; [apply popleft_while_suffix|].
    exists (e :: k). reflexivity.
Qed.

(** The same entry added to a shorter and to a longer window keeps the
    shorter one a suffix of the longer one. *)
Lemma add_suffix (t : Z) (x : A) (w1 w2 : TimeWindow A) :
  window_size w1 <= window_size w2 ->
  data w1 `suffix_of` data w2 ->
  data (add t x w1) `suffix_of` data (add t x w2).
Proof.
  intros Hs Hd. unfold add, _cleanup_old_data. cbn [data window_size].
  apply popleft_while_suffix_mono; [lia|].
  destruct Hd as [k ->]. exists k. rewrite app_assoc. reflexivity.
Qed.
End WindowPrefixFacts.

(** A one-minute window that holds two entries, one of them too old. *)
Lemma add_drops_old_prefix_example :
  0 <= 60 /\
  exists dropped kept,
    [(0, "a"); (50, "b")] = dropped ++ kept /\
    Window.data (Window.add 100 "c"
                   (Window.mkTimeWindow 60 [(0, "a"); (50, "b")]))
      = kept ++ [(100, "c")] /\
    Forall (fun e => fst e < 100 - 60) dropped /\
    match kept with
    | e :: _ => 100 - 60 <= fst e
    | [] => True
    end.
Proof.
  split; [lia|].
  apply (add_drops_old_prefix 100 "c"
           (Window.mkTimeWindow 60 [(0, "a"); (50, "b")])).
  simpl. lia.
Defined.

Section AggregatorWindowFacts.
Import Py Window Aggregator.

Lemma windows_nested_step (t : Z) (data : dict)
    (tw : list (string * TimeWindow dict)) :
  windows_nested tw -> windows_nested (add_to_windows t data tw).
Proof.
  intros (d1 & d2 & d3 & d4 & -> & H12 & H23 & H34).
  unfold add_to_windows. cbn [map fst snd].
  do 4 eexists. split; [reflexivity|].
  pose proof (add_suffix t data (mkTimeWindow (1 * minute) d1)
                (mkTimeWindow (5 * minute) d2)) as S12.
  pose proof (add_suffix t data (mkTimeWindow (5 * minute) d2)
                (mkTimeWindow (15 * minute) d3)) as S23.
  pose proof (add_suffix t data (mkTimeWindow (15 * minute) d3)
                (mkTimeWindow (60 * minute) d4)) as S34.
  cbn [Window.data window_size] in S12, S23, S34.
  unfold minute in *.
  split; [apply S12; [lia | exact H12]|].
  split; [apply S23; [lia | exact H23] | apply S34; [lia | exact H34]].
Qed.

Lemma windows_nested_foldl (events : list (Z * dict))
    (tw : list (string * TimeWindow dict)) :
  windows_nested tw ->
  windows_nested
    (foldl (fun tw e => add_to_windows (fst e) (snd e) tw) tw events).
Proof.
  revert tw. induction events as [|e events IH]; intros tw H; cbn [foldl].
  - exact H.
  - apply IH, windows_nested_step, H.
Qed.

Lemma get_data_suffix (w1 w2 : TimeWindow dict) :
  Window.data w1 `suffix_of` Window.data w2 ->
  get_data w1 `suffix_of` get_data w2.
Proof.
  intros [k E]. exists (map snd k). unfold get_data.
  rewrite E, map_app. reflexivity.
Qed.

(** X9. After any sequence of events has been added to the aggregator's
    four windows, in whatever order their timestamps come, the events of
    each window are the most recent ones of the next longer window:
    the one-minute data is a suffix of the five-minute data, that of the
    fifteen-minute data, and that of the one-hour data. *)
Theorem shorter_window_is_suffix (events : list (Z * dict)) :
  get_windowed_data (windows_after events) "1min"
    `suffix_of` get_windowed_data (windows_after events) "5min" /\
  get_windowed_data (windows_after events) "5min"
    `suffix_of` get_windowed_data (windows_after events) "15min" /\
  get_windowed_data (windows_after events) "15min"
    `suffix_of` get_windowed_data (windows_after events) "1hour".
Proof.
  assert (H : windows_nested (windows_after events)).
  { apply windows_nested_foldl. unfold _initialize_windows, new_window.
    exists [], [], [], []. repeat split; reflexivity. }
  destruct H as (d1 & d2 & d3 & d4 & -> & H12 & H23 & H34).
  unfold get_windowed_data. cbn [lookup_window String.eqb Ascii.eqb Bool.eqb].
  repeat split; apply get_data_suffix; assumption.
Qed.
End AggregatorWindowFacts.

(** ** InventoryAggregator: running metrics and quality score *)

Section AggregatorMetricFacts.
Import Py Aggregator.

Lemma total_count_incr (k : pyval) (counts : list (pyval * Z)) :
  total_count (incr k counts) = total_count counts + 1.
Proof.
  unfold total_count.
  induction counts as [|[k' n] counts IH]; cbn [incr foldr snd].
  - lia.
  - destruct (key_eqb k' k); cbn [foldr snd]; lia.
Qed.

Lemma incr_positive (k : pyval) (counts : list (pyval * Z)) :
  Forall (fun kn => 1 <= snd kn) counts ->
  Forall (fun kn => 1 <= snd kn) (incr k counts).
Proof.
  induction 1 as [|[k' n] counts Hn H IH]; cbn [incr].
  - constructor; [cbn [snd]; lia | constructor].
  - cbn [snd] in Hn.
    destruct (key_eqb k' k); constructor; cbn [snd]; auto; lia.
Qed.

Lemma grew_refl (c : list (pyval * Z)) : grew c c.
Proof. split; [lia | auto]. Qed.

Lemma count_if_truthy_grew (k : pyval) (c c' : list (pyval * Z)) :
  count_if_truthy k c = Ok c' -> grew c c'.
Proof.
  unfold count_if_truthy.
  destruct (truthy k); [destruct (hashable k); [|discriminate]|];
    intros [= <-].
  - split; [rewrite total_count_incr; lia | apply incr_positive].
  - apply grew_refl.
Qed.

Lemma update_running_metrics_step (data : dict) (m : RunningMetrics) :
  let m' := snd (_update_running_metrics data m) in
  total_transactions m' = total_transactions m + 1 /\
  grew (item_counts m) (item_counts m') /\
  grew (location_counts m) (location_counts m') /\
  grew (action_counts m) (action_counts m') /\
  grew (supplier_counts m) (supplier_counts m').
Proof.
  cbn zeta. unfold _update_running_metrics.
  destruct (num_of (dict_get_default "quantity_abs" (PInt 0) data));
    cbn [snd total_transactions item_counts location_counts action_counts
         supplier_counts total_value total_volume];
    [|repeat split; (lia || auto)].
  match goal with
  | |- context [match ?x with Ok _ => _ | Raise _ => _ end] =>
      destruct x as [tv|e]
  end;
    cbn [snd total_transactions item_counts location_counts action_counts
         supplier_counts total_value total_volume];
    [|repeat split; (lia || auto)].
  destruct (count_if_truthy (dict_get "item_id" data) (item_counts m))
    as [ic|e] eqn:Ei;
    cbn [snd total_transactions item_counts location_counts action_counts
         supplier_counts total_value total_volume];
    [apply count_if_truthy_grew in Ei|repeat split; (lia || auto)].
  destruct (count_if_truthy (dict_get "location_id" data)
              (location_counts m)) as [lc|e] eqn:El;
    cbn [snd total_transactions item_counts location_counts action_counts
         supplier_counts total_value total_volume];
    [apply count_if_truthy_grew in El
    |split; [lia|]; split; [exact Ei|]; repeat split; (lia || auto)].
  destruct (count_if_truthy (dict_get "action" data) (action_counts m))
    as [ac|e] eqn:Ea;
    cbn [snd total_transactions item_counts location_counts action_counts
         supplier_counts total_value total_volume];
    [apply count_if_truthy_grew in Ea
    |split; [lia|]; split; [exact Ei|]; split; [exact El|];
     repeat split; (lia || auto)].
  destruct (bind _ _) as [sc|e] eqn:Es;
    cbn [snd total_transactions item_counts location_counts action_counts
         supplier_counts total_value total_volume].
  - split; [lia|]. split; [exact Ei|]. split; [exact El|].
    split; [exact Ea|].
    destruct (attr_get _ "supplier") as [supplier|e]; cbn [bind] in Es;
      [|discriminate].
    apply count_if_truthy_grew in Es. exact Es.
  - split; [lia|]. split; [exact Ei|]. split; [exact El|].
    split; [exact Ea|]. apply grew_refl.
Qed.

Lemma counted_step (n : Z) (data : dict) (m : RunningMetrics) :
  counted n m -> counted (n + 1) (snd (_update_running_metrics data m)).
Proof.
  intros (Ht & Hc).
  destruct (update_running_metrics_step data m)
    as (Ht' & (I1 & I2) & (L1 & L2) & (A1 & A2) & (S1 & S2)).
  inversion Hc as [|? ? (Hi1 & Hi2) Hc1]; subst.
  inversion Hc1 as [|? ? (Hl1 & Hl2) Hc2]; subst.
  inversion Hc2 as [|? ? (Ha1 & Ha2) Hc3]; subst.
  inversion Hc3 as [|? ? (Hs1 & Hs2) _]; subst.
  split; [lia|].
  repeat constructor; auto; lia.
Qed.

Lemma counted_foldl (events : list dict) (n : Z) (m : RunningMetrics) :
  counted n m ->
  counted (n + Z.of_nat (length events))
    (foldl (fun m d => snd (_update_running_metrics d m)) m events).
Proof.
  revert n m. induction events as [|d events IH]; intros n m H;
    cbn [foldl length].
  - replace (n + Z.of_nat 0) with n by lia. exact H.
  - replace (n + Z.of_nat (S (length events)))
      with (n + 1 + Z.of_nat (length events)) by lia.
    apply IH, counted_step, H.
Qed.

Lemma count_le_total (c : list (pyval * Z)) (k : pyval) (n : Z) :
  Forall (fun kn => 1 <= snd kn) c -> In (k, n) c ->
  1 <= n <= total_count c.
Proof.
  unfold total_count.
  induction 1 as [|[k' n'] c Hn H IH]; cbn [In foldr snd]; [tauto|].
  cbn [snd] in Hn.
  assert (0 <= foldr (fun kn acc => snd kn + acc) 0 c).
  { clear IH. induction H as [|[? ?] ? ? ? IH']; cbn [foldr snd] in *; lia. }
  intros [[= -> ->]|Hin]; [lia|]. specialize (IH Hin). lia.
Qed.

Lemma percentage_bounds (n total : Z) :
  1 <= n <= total ->
  (0 < inject_Z n / inject_Z total * 100 <= 100)%Q.
Proof.
  intros H.
  assert (Hn : (0 < inject_Z n)%Q) by (change (inject_Z 0 < inject_Z n)%Q; rewrite <- Zlt_Qlt; lia).
  assert (Ht : (0 < inject_Z total)%Q) by (change (inject_Z 0 < inject_Z total)%Q; rewrite <- Zlt_Qlt; lia).
  assert (Hle : (inject_Z n <= inject_Z total)%Q)
    by (rewrite <- Zle_Qle; lia).
  assert (Hd : (0 < inject_Z n / inject_Z total <= 1)%Q).
  { split.
    - apply Qlt_shift_div_l; [exact Ht|]. rewrite Qmult_0_l. exact Hn.
    - apply Qle_shift_div_r; [exact Ht|]. rewrite Qmult_1_l. exact Hle. }
  destruct Hd as (Hd1 & Hd2).
  set (x := (inject_Z n / inject_Z total)%Q) in *.
  split.
  - apply (Qmult_lt_0_compat x 100); [exact Hd1 | reflexivity].
  - change (x * 100 <= 1 * 100)%Q.
    apply Qmult_le_compat_r; [exact Hd2 | discriminate].
Qed.

(** X10. After [_update_running_metrics] has been called on any sequence
    of events, whether or not some calls raised, [total_transactions] is
    the number of calls, the item, location, action and supplier counts
    each add up to at most that number, and every entry of the action and
    location distributions has a count of at least one and a percentage
    above 0 and at most 100. *)
Theorem running_counts_bounded (events : list dict) :
  total_transactions (metrics_after events) = Z.of_nat (length events) /\
  total_count (item_counts (metrics_after events))
    <= total_transactions (metrics_after events) /\
  total_count (location_counts (metrics_after events))
    <= total_transactions (metrics_after events) /\
  total_count (action_counts (metrics_after events))
    <= total_transactions (metrics_after events) /\
  total_count (supplier_counts (metrics_after events))
    <= total_transactions (metrics_after events) /\
  (forall k n p,
     In (k, (n, p)) (_get_action_distribution (metrics_after events)) \/
     In (k, (n, p)) (_get_location_distribution (metrics_after events)) ->
     1 <= n /\ (0 < p <= 100)%Q).
Proof.
  assert (H : counted (Z.of_nat (length events)) (metrics_after events)).
  { apply (counted_foldl events 0 new_running_metrics).
    split; [reflexivity|]. repeat constructor; cbn; lia. }
  destruct H as (Ht & Hc).
  inversion Hc as [|? ? (Hi1 & Hi2) Hc1]; subst.
  inversion Hc1 as [|? ? (Hl1 & Hl2) Hc2]; subst.
  inversion Hc2 as [|? ? (Ha1 & Ha2) Hc3]; subst.
  inversion Hc3 as [|? ? (Hs1 & Hs2) _]; subst.
  rewrite Ht. split; [reflexivity|]. repeat (split; [assumption|]).
  assert (D : forall c k n p,
            total_count c <= Z.of_nat (length events) ->
            Forall (fun kn => 1 <= snd kn) c ->
            In (k, (n, p)) (distribution (Z.of_nat (length events)) c) ->
            1 <= n /\ (0 < p <= 100)%Q).
  { intros c k n p Hc' Hp. unfold distribution.
    destruct (Z.of_nat (length events) =? 0); [intros []|].
    rewrite in_map_iff. intros ([k' n'] & [= <- <- <-] & Hin).
    cbn [fst snd]. pose proof (count_le_total c k' n' Hp Hin).
    split; [lia|]. apply percentage_bounds. lia. }
  intros k n p [Hin|Hin];
    unfold _get_action_distribution, _get_location_distribution in Hin;
    rewrite Ht in Hin.
  - exact (D _ k n p Ha1 Ha2 Hin).
  - exact (D _ k n p Hl1 Hl2 Hin).
Qed.
End AggregatorMetricFacts.

Section AggregatorQualityFacts.
Import Py Aggregator.

Lemma count_if_bounds (cond : dict -> bool) (l : list dict) :
  0 <= count_if cond l <= Z.of_nat (length l).
Proof.
  unfold count_if. pose proof (length_filter cond l). lia.
Qed.

Lemma ratio_bounds (n total : Z) :
  0 <= n <= total -> 0 < total ->
  (0 <= inject_Z n / inject_Z total <= 1)%Q.
Proof.
  intros H Ht.
  assert (Hn : (0 <= inject_Z n)%Q)
    by (change (inject_Z 0 <= inject_Z n)%Q; rewrite <- Zle_Qle; lia).
  assert (HT : (0 < inject_Z total)%Q)
    by (change (inject_Z 0 < inject_Z total)%Q; rewrite <- Zlt_Qlt; lia).
  assert (Hle : (inject_Z n <= inject_Z total)%Q)
    by (rewrite <- Zle_Qle; lia).
  split.
  - apply Qle_shift_div_l; [exact HT|]. rewrite Qmult_0_l. exact Hn.
  - apply Qle_shift_div_r; [exact HT|]. rewrite Qmult_1_l. exact Hle.
Qed.

Lemma complement_percentage (n total : Z) :
  0 < total ->
  (inject_Z (total - n) / inject_Z total * 100
   == (1 - inject_Z n / inject_Z total) * 100)%Q.
Proof.
  intros Ht.
  assert (HT : ~ (inject_Z total == 0)%Q).
  { intros E. change (inject_Z total == inject_Z 0)%Q in E.
    apply (proj1 (inject_Z_injective total 0)) in E. lia. }
  unfold Z.sub. rewrite inject_Z_plus, inject_Z_opp. field. exact HT.
Qed.

Lemma Qmax_b_nonneg (q : Q) : (0 <= q)%Q -> (Detector.Qmax_b q 0 == q)%Q.
Proof.
  intros H. unfold Detector.Qmax_b.
  destruct (Qle_bool q 0) eqn:E; [|reflexivity].
  apply Qle_bool_iff in E. apply Qle_antisym; assumption.
Qed.

(** X11. On a non-empty five-minute window, the overall quality score of
    [_calculate_quality_metrics] is the weighted mean, with weights 0.3,
    0.2, 0.3 and 0.2, of the three completeness percentages and of the
    share of events without an anomaly; all five figures lie between 0 and
    100, so the final [max(quality_score, 0.0)] never changes the score. *)
Theorem quality_score_is_weighted_mean (current_data : list dict) :
  current_data <> [] ->
  exists ic lc qv ar s,
    _calculate_quality_metrics current_data =
      [("data_completeness",
          PDict [("item_id_completeness", PFloat ic);
                 ("location_completeness", PFloat lc);
                 ("quantity_validity", PFloat qv)]);
       ("anomaly_rate", PFloat ar);
       ("overall_quality_score", PFloat s)] /\
    (s == 3 / 10 * ic + 2 / 10 * lc + 3 / 10 * qv + 2 / 10 * (100 - ar))%Q /\
    (0 <= ic <= 100)%Q /\ (0 <= lc <= 100)%Q /\ (0 <= qv <= 100)%Q /\
    (0 <= ar <= 100)%Q /\ (0 <= s <= 100)%Q.
Proof.
  intros Hne. destruct current_data as [|d0 rest]; [congruence|].
  unfold _calculate_quality_metrics.
  set (data := d0 :: rest).
  set (total := Z.of_nat (length data)).
  assert (Ht : 0 < total) by (subst total data; cbn [length]; lia).
  set (a := count_if (fun d => negb (truthy (dict_get "item_id" d))) data).
  set (b := count_if (fun d => negb (truthy (dict_get "location_id" d)))
              data).
  set (c := count_if invalid_quantity data).
  set (e := count_if (fun d => truthy (dict_get_default "anomaly_detected"
                                         (PBool false) d)) data).
  assert (Ha : 0 <= a <= total) by apply count_if_bounds.
  assert (Hb : 0 <= b <= total) by apply count_if_bounds.
  assert (Hc : 0 <= c <= total) by apply count_if_bounds.
  assert (He : 0 <= e <= total) by apply count_if_bounds.
  do 5 eexists. split; [reflexivity|].
  pose proof (ratio_bounds a total Ha Ht) as Ra.
  pose proof (ratio_bounds b total Hb Ht) as Rb.
  pose proof (ratio_bounds c total Hc Ht) as Rc.
  pose proof (ratio_bounds e total He Ht) as Re.
  rewrite !complement_percentage by exact Ht.
  unfold _calculate_overall_quality_score.
  destruct (total =? 0) eqn:E0; [apply Z.eqb_eq in E0; lia|].
  cbn zeta.
  set (xa := (inject_Z a / inject_Z total)%Q) in *.
  set (xb := (inject_Z b / inject_Z total)%Q) in *.
  set (xc := (inject_Z c / inject_Z total)%Q) in *.
  set (xe := (inject_Z e / inject_Z total)%Q) in *.
  clearbody xa xb xc xe.
  change (3 / 10)%Q with (3 # 10)%Q. change (2 / 10)%Q with (2 # 10)%Q.
  assert (Hs : (0 <= 100 - xa * 100 * (3 # 10) - xb * 100 * (2 # 10)
                    - xc * 100 * (3 # 10) - xe * 100 * (2 # 10))%Q) by lra.
  rewrite (Qmax_b_nonneg _ Hs).
  repeat split; lra.
Qed.
End AggregatorQualityFacts.

(** The quality metrics of a window of three events. *)
Lemma quality_score_is_weighted_mean_sample :
  Aggregator.sample_events <> [] /\
  exists ic lc qv ar s,
    Aggregator._calculate_quality_metrics Aggregator.sample_events =
      [("data_completeness",
          Py.PDict [("item_id_completeness", Py.PFloat ic);
                    ("location_completeness", Py.PFloat lc);
                    ("quantity_validity", Py.PFloat qv)]);
       ("anomaly_rate", Py.PFloat ar);
       ("overall_quality_score", Py.PFloat s)] /\
    (0 <= s <= 100)%Q.
Proof.
  assert (Hne : Aggregator.sample_events <> []) by discriminate.
  split; [exact Hne|].
  destruct (quality_score_is_weighted_mean Aggregator.sample_events Hne)
    as (ic & lc & qv & ar & s & E & _ & _ & _ & _ & _ & Hs).
  exists ic, lc, qv, ar, s. split; assumption.
Defined.

(** ** The detector's window and what [detect] reports *)

Section DetectorWindowFacts.
Import Py Detector.

Lemma add_to_window_last (n : nat) (seen : list dict) (x : dict) :
  let w := drop (length seen - n) seen in
  drop (length (w ++ [x]) - n) (w ++ [x])
  = drop (length (seen ++ [x]) - n) (seen ++ [x]).
Proof.
  cbn zeta. rewrite !length_app, length_drop. cbn [length].
  destruct (le_lt_dec (length seen) n) as [Hle|Hlt].
  - replace (length seen - n)%nat with 0%nat by lia. cbn [drop].
    rewrite Nat.sub_0_r. reflexivity.
  - destruct n as [|n].
    + rewrite !Nat.sub_0_r, drop_all. cbn [app length].
      rewrite (drop_ge (seen ++ [x]))
        by (rewrite length_app; cbn [length]; lia).
      replace (length seen - length seen + 1)%nat with 1%nat by lia.
      reflexivity.
    + replace (length seen - (length seen - S n) + 1 - S n)%nat
        with 1%nat by lia.
      replace (length seen + 1 - S n)%nat
        with (S (length seen - S n)) by lia.
      rewrite (drop_app_le seen) by lia.
      rewrite (drop_app_le (drop _ seen)) by (rewrite length_drop; lia).
      rewrite drop_drop. f_equal. f_equal. lia.
Qed.

Lemma detect_all_window (float_of_string : string -> option Q)
    (hash : pyval -> Z) (events seen : list dict) (st : Detector)
    (last : result AnomalyResult) :
  data_window st = drop (length seen - window_size st) seen ->
  let st' := snd (detect_all float_of_string hash events st last) in
  window_size st' = window_size st /\
  data_window st'
  = drop (length (seen ++ events) - window_size st) (seen ++ events).
Proof.
  revert seen st last.
  induction events as [|e events IH]; intros seen st last Hw; cbn zeta.
  - cbn [detect_all snd]. rewrite app_nil_r. split; [reflexivity|exact Hw].
  - cbn [detect_all]. unfold detect.
    specialize (IH (seen ++ [e]) (_add_to_window e st)
                  (bind (anomalies float_of_string hash
                           (_add_to_window e st) e)
                     (fun l => Ok (select l)))).
    cbn zeta in IH. cbn [_add_to_window window_size data_window] in IH.
    unfold _add_to_window at 1 in IH.
    cbn [window_size data_window] in IH.
    rewrite <- app_assoc in IH. cbn [app] in IH.
    apply IH. rewrite Hw. apply add_to_window_last.
Qed.

(** X12. The detector's window is a bounded queue of everything [detect]
    was called with: after any sequence of calls on a fresh detector,
    whether or not a detection raised, it holds exactly the last
    [window_size] events, oldest first. *)
Theorem window_holds_last_events (float_of_string : string -> option Q)
    (hash : pyval -> Z) (events : list dict) (n : nat)
    (last : result AnomalyResult) :
  data_window
    (snd (detect_all float_of_string hash events (mkDetector n []) last))
  = drop (length events - n) events /\
  (length
     (data_window
        (snd (detect_all float_of_string hash events (mkDetector n [])
                last))) <= n)%nat.
Proof.
  destruct (detect_all_window float_of_string hash events []
              (mkDetector n []) last) as (_ & H).
  { reflexivity. }
  cbn [window_size app] in H. rewrite H. split; [reflexivity|].
  rewrite length_drop. lia.
Qed.
End DetectorWindowFacts.

Section DetectorRangeFacts.
Import Py Detector Findings.

Variable float_of_string : string -> option Q.
Variable hash : pyval -> Z.

(** Splits the [bind]s, [match]es and conditionals of a detector whose
    result is known. *)
Ltac detector_cases H :=
  repeat
    match type of H with
    | bind ?x _ = _ =>
        let E := fresh "E" in
        destruct x eqn:E; cbn [bind] in H; [|discriminate H]
    | (if ?b then _ else _) = _ =>
        let E := fresh "E" in destruct b eqn:E
    | match ?x with _ => _ end = _ =>
        let E := fresh "E" in destruct x eqn:E
    end;
  try discriminate H.

Ltac reported_literal :=
  split; [reflexivity|];
  split; [split; cbn [confidence]; unfold Qle; cbn; lia|];
  split; cbn; tauto.

Lemma volume_reported (st : Detector) (data : dict) (a : AnomalyResult) :
  _detect_volume_anomaly float_of_string st data = Ok (Some a) ->
  reported a.
Proof.
  unfold _detect_volume_anomaly. intros H. detector_cases H.
  injection H as <-.
  split; [reflexivity|].
  split; [split; cbn [confidence]; unfold Qle; cbn; lia|].
  split; [cbn; tauto|].
  cbn [severity]. destruct (z_exceeds _ 5); cbn; tauto.
Qed.

Lemma time_based_reported (st : Detector) (data : dict)
    (a : AnomalyResult) :
  _detect_time_based_anomaly st data = Ok (Some a) -> reported a.
Proof.
  unfold _detect_time_based_anomaly. intros H. detector_cases H.
  injection H as <-. reported_literal.
Qed.

Lemma frequency_reported (st : Detector) (data : dict)
    (a : AnomalyResult) :
  _detect_frequency_anomaly st data = Ok (Some a) -> reported a.
Proof.
  unfold _detect_frequency_anomaly. intros H. detector_cases H.
  injection H as <-. reported_literal.
Qed.

Lemma negative_stock_reported (st : Detector) (data : dict)
    (a : AnomalyResult) :
  _detect_negative_stock hash st data = Ok (Some a) -> reported a.
Proof.
  unfold _detect_negative_stock. intros H. detector_cases H.
  injection H as <-. reported_literal.
Qed.

Lemma rapid_depletion_reported (st : Detector) (data : dict)
    (a : AnomalyResult) :
  _detect_rapid_depletion hash st data = Ok (Some a) -> reported a.
Proof.
  unfold _detect_rapid_depletion. intros H. detector_cases H.
  injection H as <-.
  match goal with
  | E : Qltb rapid_depletion_threshold ?r = true |- _ =>
      apply Qltb_lt in E; unfold rapid_depletion_threshold in E;
      set (rate := r) in *; clearbody rate
  end.
  split; [reflexivity|]. split; [|split; cbn; tauto].
  cbn [confidence]. unfold Qmin_b.
  destruct (Qle_bool rate 1) eqn:Er1.
  - apply Qle_bool_iff in Er1. split; [|exact Er1].
    apply Qlt_le_weak. eapply Qle_lt_trans; [|eassumption].
    unfold Qle; cbn; lia.
  - split; unfold Qle; cbn; lia.
Qed.

Lemma Qlen_nonneg {A} (l : list A) : (0 <= Qlen l)%Q.
Proof.
  unfold Qlen. change (inject_Z 0 <= inject_Z (Z.of_nat (length l)))%Q.
  rewrite <- Zle_Qle. lia.
Qed.

Lemma unusual_location_reported (st : Detector) (data : dict)
    (a : AnomalyResult) :
  _detect_unusual_location_activity st data = Ok (Some a) -> reported a.
Proof.
  unfold _detect_unusual_location_activity. cbn zeta. intros H.
  detector_cases H. injection H as <-.
  match goal with
  | E : Qltb (Qlen ?f / Qlen ?h) _ = true,
    E5 : (length ?h <? 5)%nat = false |- _ =>
      apply Qltb_lt in E; unfold unusual_location_threshold in E;
      apply Nat.ltb_ge in E5;
      pose proof (Qlen_nonneg f) as Hf;
      assert (Hh : (0 < Qlen h)%Q)
        by (unfold Qlen;
            change (inject_Z 0 < inject_Z (Z.of_nat (length h)))%Q;
            rewrite <- Zlt_Qlt; lia);
      assert (H0 : (0 <= Qlen f / Qlen h)%Q)
        by (apply Qle_shift_div_l; [exact Hh|];
            rewrite Qmult_0_l; exact Hf);
      set (freq := (Qlen f / Qlen h)%Q) in *; clearbody freq
  end.
  split; [reflexivity|]. split; [|split; cbn; tauto].
  cbn [confidence].
  change (95 / 100)%Q with (95 # 100)%Q in *.
  change (7 / 10)%Q with (7 # 10)%Q.
  split; lra.
Qed.

Lemma high_value_reported (data : dict) (a : AnomalyResult) :
  _detect_high_value_anomalies data = Ok (Some a) -> reported a.
Proof.
  unfold _detect_high_value_anomalies. intros H. detector_cases H.
  injection H as <-. reported_literal.
Qed.

Lemma supplier_reported (st : Detector) (data : dict) (a : AnomalyResult) :
  _detect_supplier_anomalies st data = Ok (Some a) -> reported a.
Proof.
  unfold _detect_supplier_anomalies. intros H. detector_cases H.
  injection H as <-. reported_literal.
Qed.

Lemma append_some_reported (r : option AnomalyResult) :
  (forall a, r = Some a -> reported a) ->
  Forall reported (append_some r).
Proof.
  destruct r as [a|]; intros H; cbn [append_some]; [|constructor].
  constructor; [apply H; reflexivity | constructor].
Qed.

Lemma append_hit_reported (r : option AnomalyResult) :
  (forall a, r = Some a -> reported a) ->
  Forall reported (append_hit r).
Proof.
  destruct r as [a|]; intros H; cbn [append_hit]; [|constructor].
  destruct (is_anomaly a); [|constructor].
  constructor; [apply H; reflexivity | constructor].
Qed.

Lemma anomalies_reported (st : Detector) (data : dict)
    (hits : list AnomalyResult) :
  anomalies float_of_string hash st data = Ok hits ->
  Forall reported hits.
Proof.
  unfold anomalies, _detect_inventory_specific_anomalies. intros H.
  destruct (_detect_volume_anomaly float_of_string st data)
    as [v|] eqn:Ev; cbn [bind] in H; [|discriminate].
  destruct (_detect_time_based_anomaly st data)
    as [t|] eqn:Et; cbn [bind] in H; [|discriminate].
  destruct (_detect_frequency_anomaly st data)
    as [f|] eqn:Ef; cbn [bind] in H; [|discriminate].
  destruct (_detect_negative_stock hash st data)
    as [n|] eqn:En; cbn [bind] in H; [|discriminate].
  destruct (_detect_rapid_depletion hash st data)
    as [r|] eqn:Er; cbn [bind] in H; [|discriminate].
  destruct (_detect_unusual_location_activity st data)
    as [l|] eqn:El; cbn [bind] in H; [|discriminate].
  destruct (_detect_high_value_anomalies data)
    as [h|] eqn:Eh; cbn [bind] in H; [|discriminate].
  destruct (_detect_supplier_anomalies st data)
    as [s|] eqn:Es; cbn [bind] in H; [|discriminate].
  injection H as <-.
  repeat (apply Forall_app; split).
  - apply append_hit_reported. intros a ->. eapply volume_reported, Ev.
  - apply append_hit_reported. intros a ->.
    eapply time_based_reported, Et.
  - apply append_hit_reported. intros a ->.
    eapply frequency_reported, Ef.
  - apply append_some_reported. intros a ->.
    eapply negative_stock_reported, En.
  - apply append_some_reported. intros a ->.
    eapply rapid_depletion_reported, Er.
  - apply append_some_reported. intros a ->.
    eapply unusual_location_reported, El.
  - apply append_some_reported. intros a ->.
    eapply high_value_reported, Eh.
  - apply append_some_reported. intros a ->.
    eapply supplier_reported, Es.
Qed.

Lemma max_by_confidence_in (l : list AnomalyResult) (best : AnomalyResult) :
  In (max_by_confidence best l) (best :: l).
Proof.
  revert best. induction l as [|x l IH]; intros best;
    cbn [max_by_confidence].
  - left. reflexivity.
  - destruct (Qltb (confidence best) (confidence x)).
    + right. apply IH.
    + destruct (IH best) as [<-|Hin]; [left; reflexivity|].
      right. right. exact Hin.
Qed.

(** X13. Whatever [detect] returns is either the no-anomaly result or a
    flagged anomaly of one of the eight types, with severity low, medium
    or high and a confidence between 0.7 and 1: no detector reports below
    0.7, and none above 1. *)
Theorem detect_result_range (data : dict) (st : Detector)
    (r : AnomalyResult) :
  fst (detect float_of_string hash data st) = Ok r ->
  r = no_anomaly \/ reported r.
Proof.
  unfold detect. cbn [fst]. intros H.
  destruct (anomalies float_of_string hash (_add_to_window data st) data)
    as [hits|] eqn:Eh; cbn [bind] in H; [|discriminate].
  injection H as <-.
  apply anomalies_reported in Eh.
  destruct hits as [|a l]; cbn [select]; [left; reflexivity|right].
  rewrite Forall_forall in Eh. apply Eh.
  apply list_elem_of_In, max_by_confidence_in.
Qed.
End DetectorRangeFacts.

(** The thirteenth stock-out within the minute is reported. *)
Lemma detect_result_range_depletion :
  fst (Detector.detect Detector.sample_float_of_string Detector.sample_hash
         (Detector.depletion_event 12) Detector.detector_after_twelve)
    = Py.Ok Detector.frequency_hit /\
  (Detector.frequency_hit = Detector.no_anomaly \/
   Findings.reported Detector.frequency_hit).
Proof.
  split; [vm_compute; reflexivity|].
  apply (detect_result_range Detector.sample_float_of_string
           Detector.sample_hash (Detector.depletion_event 12)
           Detector.detector_after_twelve).
  vm_compute. reflexivity.
Defined.

Section FrequencyFacts.
Import Py Detector Findings.

(** With the fixed hourly history (mean 5.7, variance 4.41) the z-score
    of a count exceeds 3 exactly from thirteen on. *)
Lemma frequency_z_score (n : nat) :
  z_exceeds (z_score_sq (inject_Z (Z.of_nat n)) _get_historical_frequencies)
    z_score_threshold = (13 <=? n)%nat.
Proof.
  unfold z_score_sq.
  change (length _get_historical_frequencies <? 3)%nat with false.
  cbn iota.
  replace (Qeq_bool (variance _get_historical_frequencies) 0) with false
    by (vm_compute; reflexivity).
  cbn zeta.
  replace (mean _get_historical_frequencies) with (57 # 10)%Q
    by (vm_compute; reflexivity).
  assert (Hv : (variance _get_historical_frequencies == 441 # 100)%Q)
    by (vm_compute; reflexivity).
  unfold z_exceeds, z_score_threshold.
  apply eq_iff_eq_true. rewrite Qltb_lt, Nat.leb_le, Hv.
  set (k := Z.of_nat n). assert (Hk : 0 <= k) by lia.
  assert (Hn : (13 <= n)%nat <-> 13 <= k) by lia. rewrite Hn.
  clearbody k. clear Hn Hv n.
  unfold Qlt, Qdiv, Qmult, Qminus, Qplus, Qopp, Qinv, inject_Z.
  cbn [Qnum Qden]. cbn.
  split; intros H; nia.
Qed.

(** X14. For an event with a parsed timestamp, the frequency detector
    reports an anomaly exactly when the window holds at least thirteen
    events of the same action and item from the last hour; with twelve or
    fewer it reports nothing.  The comparison is against the fixed hourly
    counts of [_get_historical_frequencies], for which a count of twelve
    has a z-score of exactly 3, the threshold it has to exceed. *)
Theorem frequency_anomaly_from_thirteen (st : Detector) (data : dict)
    (current_time : datetime) (recent : list dict) :
  dict_get "timestamp_parsed" data = PDatetime current_time ->
  recent_events st data current_time = Ok recent ->
  _detect_frequency_anomaly st data =
    Ok (if (13 <=? length recent)%nat
        then Some (mkAnomalyResult true 1 "frequency_anomaly" "medium")
        else None).
Proof.
  intros Ht Hr. unfold _detect_frequency_anomaly. rewrite Ht.
  cbn [truthy negb as_datetime bind].
  unfold recent_events in Hr. rewrite Hr. cbn [bind].
  change (length _get_historical_frequencies <? 5)%nat with false.
  cbn iota. cbn zeta. unfold Qlen. rewrite frequency_z_score.
  destruct (13 <=? length recent)%nat; reflexivity.
Qed.
End FrequencyFacts.

(** The thirteenth stock-out of the example within the hour. *)
Lemma frequency_anomaly_from_thirteen_depletion :
  Detector._detect_frequency_anomaly Findings.detector_at_thirteenth
    (Detector.depletion_event 12)
  = Py.Ok (Some Detector.frequency_hit).
Proof.
  apply (frequency_anomaly_from_thirteen Findings.detector_at_thirteenth
           (Detector.depletion_event 12) Findings.thirteenth_time
           (Detector.data_window Findings.detector_at_thirteenth)).
  - reflexivity.
  - vm_compute. reflexivity.
Defined.

(** ** InventoryEnricher: risk assessment and the enriched record *)

Section EnricherFieldFacts.
Import Py Enricher EnricherFields.

Variable hash : pyval -> Z.
Variable str_of : pyval -> string.

(** The record [_assess_risk] returns, by the four tests it makes. *)
Lemma assess_risk_shape (d ra : dict) :
  _assess_risk d = Ok ra ->
  exists high_value volume_category is_business_hours perishable,
    attr_get (dict_get_default "item_details" (PDict []) d) "high_value"
      = Ok high_value /\
    attr_get (dict_get_default "classification" (PDict []) d)
      "volume_category" = Ok volume_category /\
    attr_get (dict_get_default "business_context" (PDict []) d)
      "is_business_hours" = Ok is_business_hours /\
    attr_get (dict_get_default "item_details" (PDict []) d) "perishable"
      = Ok perishable /\
    let factors :=
      risk_factors_of (truthy high_value) (eq_str volume_category "bulk")
        (negb (truthy is_business_hours)) (truthy perishable) in
    ra = [("score", PInt (total_weight factors));
          ("level",
             PStr (if 5 <=? total_weight factors then "high"
                   else if 3 <=? total_weight factors then "medium"
                   else "low"));
          ("factors", PList (map PStr factors))].
Proof.
  unfold _assess_risk. intros H.
  destruct (attr_get (dict_get_default "item_details" (PDict []) d)
              "high_value") as [hv|] eqn:E1; cbn [bind] in H;
    [|discriminate H].
  destruct (truthy hv) eqn:T1; cbn iota in H.
  all: destruct (attr_get (dict_get_default "classification" (PDict []) d)
                   "volume_category") as [vc|] eqn:E2; cbn [bind] in H;
         [|discriminate H].
  all: destruct (eq_str vc "bulk") eqn:T2; cbn iota in H.
  all: destruct (attr_get (dict_get_default "business_context" (PDict []) d)
                   "is_business_hours") as [bh|] eqn:E3; cbn [bind] in H;
         [|discriminate H].
  all: destruct (truthy bh) eqn:T3; cbn [negb] in H; cbn iota in H.
  all: destruct (attr_get (dict_get_default "item_details" (PDict []) d)
                   "perishable") as [p|] eqn:E4; cbn [bind] in H;
         [|discriminate H].
  all: destruct (truthy p) eqn:T4; cbn iota in H.
  all: exists hv, vc, bh, p; repeat (split; [reflexivity|]); cbn zeta.
  all: rewrite T1, T2, T3, T4; injection H as <-; reflexivity.
Qed.

Lemma risk_factors_of_facts (b1 b2 b3 b4 : bool) :
  let factors := risk_factors_of b1 b2 b3 b4 in
  0 <= total_weight factors <= 7 /\
  NoDup factors /\
  (forall f, In f factors -> In f all_risk_factors) /\
  (5 <= total_weight factors -> In "high_value_item" factors).
Proof.
  destruct b1, b2, b3, b4;
    unfold total_weight, risk_factors_of, factor_weight, all_risk_factors;
    simpl;
    (split; [lia|]);
    (split;
     [repeat (constructor;
              [rewrite ?elem_of_cons, ?elem_of_nil; intuition discriminate|]);
      constructor|]);
    (split; [tauto|]); intros; (tauto || lia).
Qed.

(** X15. A risk assessment has a score between 0 and 7 that is the sum
    of the weights of its factors (3 for a high-value item, 2 for a bulk
    transaction, 1 for after-hours activity and for a perishable item),
    no factor twice, and the level that goes with the score; the level is
    "high" only for a high-value item. *)
Theorem assess_risk_score_and_level (d ra : dict) :
  _assess_risk d = Ok ra ->
  exists score level factors,
    ra = [("score", PInt score); ("level", PStr level);
          ("factors", PList (map PStr factors))] /\
    score = total_weight factors /\
    0 <= score <= 7 /\
    NoDup factors /\
    (forall f, In f factors -> In f all_risk_factors) /\
    level = (if 5 <=? score then "high"
             else if 3 <=? score then "medium" else "low") /\
    (level = "high" -> In "high_value_item" factors).
Proof.
  intros H.
  apply assess_risk_shape in H
    as (hv & vc & bh & p & _ & _ & _ & _ & ->).
  destruct (risk_factors_of_facts (truthy hv) (eq_str vc "bulk")
              (negb (truthy bh)) (truthy p)) as (Hs & Hn & Hf & Hh).
  cbn zeta in *. do 3 eexists. split; [reflexivity|].
  repeat (split; [first [reflexivity | assumption]|]).
  intros Hl. apply Hh.
  destruct (5 <=? total_weight _) eqn:E5; [apply Z.leb_le, E5|].
  destruct (3 <=? total_weight _); discriminate.
Qed.

(** The record [enrich] returns, written out. *)
Lemma enrich_shape (data out : dict) (st st' : InventoryEnricher) :
  enrich hash str_of data st = (Ok out, st') ->
  exists item loc cl ra sc,
    let d2 :=
      set_if_truthy "location_details" loc
        (set_if_truthy "item_details" item data) in
    let d3 := dict_set "classification" (PDict cl) d2 in
    let d4 := dict_set "risk_assessment" (PDict ra) d3 in
    _classify_inventory_event d2 = Ok cl /\
    _assess_risk d3 = Ok ra /\
    _get_seasonal_context d4 = Ok sc /\
    out = dict_set "seasonal_context" (PDict sc) d4.
Proof.
  unfold enrich.
  destruct (_get_item_details hash str_of (dict_get "item_id" data) st)
    as [[item|] st1]; [|discriminate].
  destruct (_get_location_details hash (dict_get "location_id" data) st1)
    as [[loc|] st2]; [|discriminate].
  intros [= H <-]. exists item, loc.
  destruct (_classify_inventory_event _) as [cl|]; cbn [bind] in H;
    [|discriminate].
  destruct (_assess_risk _) as [ra|] eqn:Er; cbn [bind] in H;
    [|discriminate].
  destruct (_get_seasonal_context _) as [sc|] eqn:Es; cbn [bind] in H;
    [|discriminate].
  exists cl, ra, sc. cbn zeta. injection H as <-.
  repeat split; assumption.
Qed.

Lemma is_enriched_key_false (k : string) :
  is_enriched_key k = false ->
  String.eqb k "item_details" = false /\
  String.eqb k "location_details" = false /\
  String.eqb k "classification" = false /\
  String.eqb k "risk_assessment" = false /\
  String.eqb k "seasonal_context" = false.
Proof.
  unfold is_enriched_key, enriched_keys. cbn [existsb].
  intros H. repeat (apply orb_false_elim in H as [? H]).
  repeat split; assumption.
Qed.

(** X16. A successful [enrich] returns the input with the classification,
    the risk assessment and the seasonal context added as dictionaries;
    apart from these and the item and location details, every key keeps
    the value it had in the input. *)
Theorem enrich_keeps_other_keys (data out : dict)
    (st st' : InventoryEnricher) :
  enrich hash str_of data st = (Ok out, st') ->
  (forall k, is_enriched_key k = false ->
             dict_lookup k out = dict_lookup k data) /\
  (exists cl ra sc,
     dict_lookup "classification" out = Some (PDict cl) /\
     dict_lookup "risk_assessment" out = Some (PDict ra) /\
     dict_lookup "seasonal_context" out = Some (PDict sc)).
Proof.
  intros H.
  apply enrich_shape in H as (item & loc & cl & ra & sc & _ & _ & _ & ->).
  split.
  - intros k Hk.
    apply is_enriched_key_false in Hk as (K1 & K2 & K3 & K4 & K5).
    rewrite !dict_lookup_set, K3, K4, K5.
    rewrite !set_if_truthy_lookup, K1, K2.
    destruct loc as [v|]; [rewrite andb_false_r|];
      (destruct item as [w|]; [rewrite andb_false_r|]); reflexivity.
  - exists cl, ra, sc. dict_simpl. repeat split; reflexivity.
Qed.

(** X17. On an enriched event the high-value detector can only fire for
    an after-hours bulk transaction of a high-value item: the risk
    assessment then lists all three factors, its level is "high" and its
    score is 6 or 7.  The enricher never lists "unusual_location", the
    third factor the detector looks for. *)
Theorem high_value_alert_on_enriched (data out : dict)
    (st st' : InventoryEnricher) (a : Detector.AnomalyResult) :
  enrich hash str_of data st = (Ok out, st') ->
  Detector._detect_high_value_anomalies out = Ok (Some a) ->
  exists score factors,
    dict_lookup "risk_assessment" out =
      Some (PDict [("score", PInt score); ("level", PStr "high");
                   ("factors", PList (map PStr factors))]) /\
    6 <= score <= 7 /\
    In "high_value_item" factors /\
    In "bulk_transaction" factors /\
    In "after_hours" factors /\
    ~ In "unusual_location" factors.
Proof.
  intros H Hd.
  apply enrich_shape in H as (item & loc & cl & ra & sc & _ & Hr & _ & ->).
  cbn zeta in Hr.
  apply assess_risk_shape in Hr
    as (hv & vc & bh & p & Ehv & _ & _ & _ & ->).
  cbn zeta in *.
  rewrite dict_get_default_set in Ehv. cbn [String.eqb Ascii.eqb Bool.eqb] in Ehv.
  unfold Detector._detect_high_value_anomalies in Hd.
  revert Hd. dict_simpl. rewrite Ehv. cbn [bind].
  destruct (truthy hv); cbn [negb]; [|discriminate].
  cbn [attr_get_default dict_get_default dict_lookup String.eqb Ascii.eqb
       Bool.eqb bind Detector.iterate].
  intros Hd.
  destruct (eq_str vc "bulk"), (truthy bh), (truthy p);
    cbn in Hd; try discriminate Hd;
    do 2 eexists; (split; [reflexivity|]);
    unfold total_weight, risk_factors_of, factor_weight; simpl;
    (split; [lia|]); intuition congruence.
Qed.

Lemma cache_set_miss (k v : pyval) (c : cache) :
  cache_lookup k c = None -> cache_set k v c = c ++ [(k, v)].
Proof.
  induction c as [|[k' v'] c IH]; cbn [cache_lookup cache_set app];
    [reflexivity|].
  destruct (key_eqb k k'); [discriminate|].
  intros H. rewrite (IH H). reflexivity.
Qed.

(** X18. [enrich] never replaces or removes an entry of the in-memory
    caches: whatever it returns, each cache afterwards is the cache before
    followed by at most one new entry. *)
Theorem enrich_caches_grow (data : dict) (st : InventoryEnricher) :
  (exists added,
     item_cache (snd (enrich hash str_of data st))
       = item_cache st ++ added /\ (length added <= 1)%nat) /\
  (exists added,
     location_cache (snd (enrich hash str_of data st))
       = location_cache st ++ added /\ (length added <= 1)%nat).
Proof.
  assert (HI : forall item_id s,
            (exists added,
               item_cache (snd (_get_item_details hash str_of item_id s))
                 = item_cache s ++ added /\ (length added <= 1)%nat) /\
            location_cache (snd (_get_item_details hash str_of item_id s))
              = location_cache s).
  { intros item_id s. unfold _get_item_details.
    destruct (truthy item_id); cbn [negb];
      [|split; [exists []; rewrite app_nil_r; cbn; auto|reflexivity]].
    destruct (match redis_client s with
              | Some c => redis_cached c (redis_key str_of item_id)
              | None => None
              end);
      [split; [exists []; rewrite app_nil_r; cbn; auto|reflexivity]|].
    destruct (hashable item_id); cbn [negb];
      [|split; [exists []; rewrite app_nil_r; cbn; auto|reflexivity]].
    destruct (cache_lookup item_id (item_cache s)) eqn:Ec;
      [split; [exists []; rewrite app_nil_r; cbn; auto|reflexivity]|].
    cbn [snd item_cache location_cache]. split; [|reflexivity].
    eexists. split; [apply cache_set_miss, Ec|cbn; lia]. }
  assert (HL : forall location_id s,
            (exists added,
               location_cache (snd (_get_location_details hash location_id s))
                 = location_cache s ++ added /\ (length added <= 1)%nat) /\
            item_cache (snd (_get_location_details hash location_id s))
              = item_cache s).
  { intros location_id s. unfold _get_location_details.
    destruct (truthy location_id); cbn [negb];
      [|split; [exists []; rewrite app_nil_r; cbn; auto|reflexivity]].
    destruct (hashable location_id); cbn [negb];
      [|split; [exists []; rewrite app_nil_r; cbn; auto|reflexivity]].
    destruct (cache_lookup location_id (location_cache s)) eqn:Ec;
      [split; [exists []; rewrite app_nil_r; cbn; auto|reflexivity]|].
    cbn [snd item_cache location_cache]. split; [|reflexivity].
    eexists. split; [apply cache_set_miss, Ec|cbn; lia]. }
  unfold enrich.
  destruct (HI (dict_get "item_id" data) st) as (I1 & I2).
  destruct (_get_item_details hash str_of (dict_get "item_id" data) st)
    as [[item|] st1]; cbn [snd] in *; [|split; [exact I1|]].
  2:{ exists []. rewrite app_nil_r. split; [exact I2 | cbn; lia]. }
  destruct (HL (dict_get "location_id" data) st1) as (L1 & L2).
  destruct (_get_location_details hash (dict_get "location_id" data) st1)
    as [[loc|] st2]; cbn [snd] in *; rewrite L2, <- I2; split; assumption.
Qed.
End EnricherFieldFacts.

(** The risk assessment of the after-hours bulk delivery. *)
Lemma assess_risk_score_and_level_bulk_night :
  exists score level factors,
    EnricherFields.bulk_night_risk =
      [("score", Py.PInt score); ("level", Py.PStr level);
       ("factors", Py.PList (map Py.PStr factors))] /\
    score = EnricherFields.total_weight factors /\
    0 <= score <= 7.
Proof.
  destruct (assess_risk_score_and_level EnricherFields.bulk_night_enriched
              EnricherFields.bulk_night_risk)
    as (score & level & factors & H1 & H2 & H3 & _).
  { vm_compute. reflexivity. }
  exists score, level, factors. repeat split; assumption || apply H3.
Defined.

(** The enriched after-hours bulk delivery keeps its quantity. *)
Lemma enrich_keeps_other_keys_bulk_night :
  Py.dict_lookup "quantity_abs" EnricherFields.bulk_night_enriched
    = Some (Py.PFloat 1000).
Proof.
  destruct (enrich_keeps_other_keys Enricher.sample_hash
              Enricher.sample_str_of EnricherFields.bulk_night_event
              EnricherFields.bulk_night_enriched Enricher.new_enricher
              EnricherFields.bulk_night_enricher_after) as (H & _).
  { vm_compute. reflexivity. }
  exact (H "quantity_abs" eq_refl).
Defined.

(** The after-hours bulk delivery of a high-value item raises the
    high-value alert. *)
Lemma high_value_alert_on_enriched_bulk_night :
  exists score factors,
    Py.dict_lookup "risk_assessment" EnricherFields.bulk_night_enriched =
      Some (Py.PDict [("score", Py.PInt score); ("level", Py.PStr "high");
                      ("factors", Py.PList (map Py.PStr factors))]) /\
    6 <= score <= 7.
Proof.
  destruct (high_value_alert_on_enriched Enricher.sample_hash
              Enricher.sample_str_of EnricherFields.bulk_night_event
              EnricherFields.bulk_night_enriched Enricher.new_enricher
              EnricherFields.bulk_night_enricher_after
              (Detector.mkAnomalyResult true (8 / 10)
                 "high_value_risk_combination" "high"))
    as (score & factors & H1 & H2 & _).
  { vm_compute. reflexivity. }
  { vm_compute. reflexivity. }
  exists score, factors. split; assumption.
Defined.

(** ** Routing by the manager and by the adapters *)

Section AdapterFacts.
Import Py Storage Adapters.

(** X19. The manager's inferred type and the warehouse adapter's table
    agree on alerts: a record inferred as [alerts] goes to [alert_events].
    A record inferred as aggregated, performance, logs or events goes to
    [performance_metrics] when its event type mentions "metric"; otherwise
    aggregated records go to [inventory_metrics] and the others, also
    those inferred as performance data, to [raw_events]. *)
Theorem inferred_type_table (data : dict) (t : string) :
  _infer_data_type data = Ok t ->
  t <> "metrics" ->
  exists event_type,
    lower_of (dict_get_default "event_type" (PStr "") data) = Ok event_type /\
    _get_table_name data = Ok (table_for t (contains "metric" event_type)).
Proof.
  unfold _infer_data_type, _get_table_name. intros H Hm.
  destruct (dict_in "metric_name" data || dict_in "measurement" data)
    eqn:Em; [injection H as <-; congruence|].
  apply orb_false_elim in Em as [Emn _].
  assert (Hmn : truthy (dict_get "metric_name" data) = false).
  { unfold dict_in in Emn. unfold dict_get.
    destruct (dict_lookup "metric_name" data); [discriminate|reflexivity]. }
  destruct (lower_of (dict_get_default "event_type" (PStr "") data))
    as [event_type|] eqn:Ee; cbn [bind] in H |- *; [|discriminate].
  exists event_type. split; [reflexivity|].
  destruct (contains "alert" event_type || truthy (dict_get "severity" data)).
  { injection H as <-. reflexivity. }
  rewrite Hmn, orb_false_r.
  destruct (lower_of (dict_get_default "data_type" (PStr "") data))
    as [data_type|] eqn:Ed; cbn [bind] in H |- *; [|discriminate].
  destruct (contains "aggregated" data_type).
  { injection H as <-. unfold table_for. cbn.
    destruct (contains "metric" event_type); reflexivity. }
  destruct (lower_of (dict_get_default "source" (PStr "") data))
    as [source|] eqn:Es; cbn [bind] in H; [|discriminate].
  destruct (contains "performance" source).
  { injection H as <-. unfold table_for. cbn.
    destruct (contains "metric" event_type); reflexivity. }
  destruct (truthy (dict_get "level" data) || truthy (dict_get "message" data));
    injection H as <-; unfold table_for; cbn;
    destruct (contains "metric" event_type); reflexivity.
Qed.

(** X20. A record with a truthy [severity] and none of the keys
    [metric_name], [measurement], [event_type], [level] and [alert], such
    as the alert the inventory consumer builds for an anomaly, is an alert
    for the manager and for the warehouse adapter, which puts it in
    [alert_events], but not for the search adapter, which indexes it in
    [warehouse-logs] or, when its source mentions "audit", in
    [warehouse-audit], never in [warehouse-alerts]. *)
Theorem severity_only_alert_routing (data : dict) :
  truthy (dict_get "severity" data) = true ->
  (forall k, In k ["metric_name"; "measurement"; "event_type"; "level";
                   "alert"] -> dict_in k data = false) ->
  _infer_data_type data = Ok "alerts" /\
  _get_table_name data = Ok "alert_events" /\
  (forall source,
     lower_of (dict_get_default "source" (PStr "") data) = Ok source ->
     _get_index_name data =
       Ok (if contains "audit" source then "warehouse-audit"
           else "warehouse-logs")).
Proof.
  intros Hs Hk.
  assert (L : forall k, In k ["metric_name"; "measurement"; "event_type";
                              "level"; "alert"] ->
              dict_lookup k data = None).
  { intros k Hin. specialize (Hk k Hin). unfold dict_in in Hk.
    destruct (dict_lookup k data); [discriminate|reflexivity]. }
  assert (Ee : dict_get_default "event_type" (PStr "") data = PStr "").
  { unfold dict_get_default. rewrite (L "event_type") by (cbn; tauto).
    reflexivity. }
  assert (El : dict_get_default "level" (PStr "") data = PStr "").
  { unfold dict_get_default. rewrite (L "level") by (cbn; tauto).
    reflexivity. }
  unfold _infer_data_type, _get_table_name, _get_index_name.
  rewrite (Hk "metric_name"), (Hk "measurement"), (Hk "alert")
    by (cbn; tauto).
  rewrite Ee, El. cbn [lower_of lower bind orb]. rewrite Hs.
  replace (contains "alert" "") with false by reflexivity.
  cbn [orb]. repeat split.
  intros source Hsrc.
  cbn [String.eqb existsb orb]. rewrite Hsrc.
  cbn [bind]. destruct (contains "audit" source); reflexivity.
Qed.
End AdapterFacts.

(** The alert record of the storage example is inferred as an alert and
    goes to [alert_events]. *)
Lemma inferred_type_table_alert :
  Storage._infer_data_type Storage.sample_alert_record = Py.Ok "alerts" /\
  exists event_type,
    Storage.lower_of
      (Py.dict_get_default "event_type" (Py.PStr "")
         Storage.sample_alert_record) = Py.Ok event_type /\
    Adapters._get_table_name Storage.sample_alert_record
      = Py.Ok "alert_events".
Proof.
  split; [reflexivity|].
  destruct (inferred_type_table Storage.sample_alert_record "alerts")
    as (event_type & H1 & H2); [reflexivity | discriminate |].
  exists event_type. split; [exact H1 | exact H2].
Defined.

(** The consumer's anomaly alert is indexed with the logs. *)
Lemma severity_only_alert_routing_anomaly :
  Storage._infer_data_type Adapters.sample_anomaly_alert = Py.Ok "alerts" /\
  Adapters._get_table_name Adapters.sample_anomaly_alert
    = Py.Ok "alert_events" /\
  Adapters._get_index_name Adapters.sample_anomaly_alert
    = Py.Ok "warehouse-logs".
Proof.
  assert (Hk : forall k,
             In k ["metric_name"; "measurement"; "event_type"; "level";
                   "alert"] ->
             Py.dict_in k Adapters.sample_anomaly_alert = false).
  { intros k [<-|[<-|[<-|[<-|[<-|[]]]]]]; reflexivity. }
  destruct (severity_only_alert_routing Adapters.sample_anomaly_alert
              eq_refl Hk) as (H1 & H2 & H3).
  split; [exact H1|]. split; [exact H2|].
  exact (H3 "" eq_refl).
Defined.

(** ** AlertManager: runs and statistics *)

Section AlertRunFacts.
Import Alerting AlertRuns.

Lemma well_kept_new (now : Z) (id t d : string) (s : AlertSeverity)
    (src : string) (md : option Py.dict) :
  well_kept id (new_alert now id t d s src md).
Proof.
  unfold well_kept, new_alert. cbn.
  repeat split; try reflexivity; discriminate.
Qed.

Lemma well_kept_acknowledge (now : Z) (user id : string) (a : Alert) :
  well_kept id a -> well_kept id (acknowledge now user a).
Proof.
  intros (H1 & H2 & H3 & _). unfold well_kept, acknowledge. cbn.
  repeat split; try assumption; discriminate.
Qed.

Lemma perform_well_kept (c : call) (m : AlertManager) :
  all_well_kept m -> all_well_kept (perform c m).
Proof.
  intros Hm. destruct c as [now id t d s src md|now id user|now id];
    cbn [perform].
  - assert (Hcreate : all_well_kept
              (snd (_send_notifications (new_alert now id t d s src md)
                      (with_alerts m
                         (<[id := new_alert now id t d s src md]>
                            (active_alerts m)))))).
    { intros id' a.
      destruct (send_notifications_alerts (new_alert now id t d s src md)
                  (with_alerts m (<[id := new_alert now id t d s src md]>
                                    (active_alerts m)))) as (-> & _).
      cbn [with_alerts active_alerts].
      destruct (decide (id' = id)) as [->|Hne].
      - rewrite lookup_insert_eq. intros [= <-]. apply well_kept_new.
      - rewrite lookup_insert_ne by congruence. apply Hm. }
    unfold create_alert.
    destruct (_send_notifications _ _) as [[u|e] m2]; cbn [snd] in *;
      (destruct (active_alerts m !! id) as [a0|];
       [destruct (status a0)|]; cbn [snd]; assumption).
  - unfold acknowledge_alert.
    destruct (active_alerts m !! id) as [a0|] eqn:E; cbn [snd];
      [|exact Hm].
    intros id' a. cbn [with_alerts active_alerts].
    destruct (decide (id' = id)) as [->|Hne].
    + rewrite lookup_insert_eq. intros [= <-].
      apply well_kept_acknowledge, Hm, E.
    + rewrite lookup_insert_ne by congruence. apply Hm.
  - unfold resolve_alert.
    destruct (active_alerts m !! id) as [a0|] eqn:E; cbn [snd];
      [|exact Hm].
    intros id' a. cbn [with_alerts active_alerts].
    destruct (decide (id' = id)) as [->|Hne].
    + rewrite lookup_delete_eq. discriminate.
    + rewrite lookup_delete_ne by congruence. apply Hm.
Qed.

(** X21. Whatever sequence of [create_alert], [acknowledge_alert] and
    [resolve_alert] calls a manager without alerts goes through, every
    alert in [active_alerts] is stored under its own id, is active or
    acknowledged and never resolved, has no resolution time, and carries
    an acknowledging user and time exactly when it is acknowledged. *)
Theorem active_alerts_well_kept (calls : list call) (m0 : AlertManager)
    (id : string) (a : Alert) :
  active_alerts m0 = ∅ ->
  active_alerts (run calls m0) !! id = Some a ->
  well_kept id a.
Proof.
  intros H0.
  assert (H : all_well_kept m0).
  { intros id' a'. rewrite H0, lookup_empty. discriminate. }
  clear H0. revert m0 H. unfold run.
  induction calls as [|c calls IH]; intros m0 H; cbn [foldl].
  - apply H.
  - apply IH, perform_well_kept, H.
Qed.

Lemma dispatch_sends (channels : list NotificationChannel) (a : Alert)
    (min_sev : AlertSeverity) :
  severity_levels min_sev <= severity_levels (severity a) ->
  status a = ACTIVE ->
  Forall (fun ia =>
            severity_levels min_sev <= severity_levels (severity (snd ia))
            /\ status (snd ia) = ACTIVE
            /\ (fst ia < length channels)%nat) (dispatch channels a).
Proof.
  intros Hs Ha. apply Forall_forall. intros [i a'] Hin.
  unfold dispatch in Hin.
  apply elem_of_lookup_imap_1 in Hin as (j & c & [= -> ->] & Hj).
  cbn [fst snd]. split; [exact Hs|]. split; [exact Ha|].
  apply lookup_lt_Some in Hj. exact Hj.
Qed.

Lemma perform_sent (c : call) (m : AlertManager) (min_sev : AlertSeverity) :
  min_severity m = Some min_sev ->
  min_severity (perform c m) = Some min_sev /\
  notification_channels (perform c m) = notification_channels m /\
  exists added,
    call_sends min_sev (notification_channels m) c added /\
    sent (perform c m) = sent m ++ added.
Proof.
  intros Hmin.
  destruct c as [now id t d s src md|now id user|now id]; cbn [perform].
  - unfold create_alert.
    set (fresh := new_alert now id t d s src md).
    set (m1 := with_alerts m (<[id := fresh]> (active_alerts m))).
    assert (Hsend :
      min_severity (snd (_send_notifications fresh m1)) = Some min_sev /\
      notification_channels (snd (_send_notifications fresh m1))
        = notification_channels m /\
      exists added,
        call_sends min_sev (notification_channels m)
          (CreateAlert now id t d s src md) added /\
        sent (snd (_send_notifications fresh m1)) = sent m ++ added).
    { unfold _send_notifications.
      assert (Hmin1 : min_severity m1 = Some min_sev) by exact Hmin.
      rewrite Hmin1.
      destruct (severity_levels (severity fresh) <? severity_levels min_sev)
        eqn:El; cbn [snd].
      - split; [exact Hmin|]. split; [reflexivity|]. exists [].
        split; [left; reflexivity|]. rewrite app_nil_r. reflexivity.
      - split; [exact Hmin|]. split; [reflexivity|].
        exists (dispatch (notification_channels m) fresh).
        apply Z.ltb_ge in El. split; [|reflexivity].
        right. split; [exact El | reflexivity]. }
    assert (Hnone :
      min_severity m = Some min_sev /\
      notification_channels m = notification_channels m /\
      exists added,
        call_sends min_sev (notification_channels m)
          (CreateAlert now id t d s src md) added /\
        sent m = sent m ++ added).
    { split; [exact Hmin|]. split; [reflexivity|]. exists [].
      split; [left; reflexivity|]. rewrite app_nil_r. reflexivity. }
    destruct (_send_notifications fresh m1) as [[u|e] m2]; cbn [snd] in *;
      (destruct (active_alerts m !! id) as [a0|];
       [destruct (status a0)|]; cbn [snd]; assumption).
  - unfold acknowledge_alert.
    destruct (active_alerts m !! id); cbn [snd];
      (split; [exact Hmin|]; split; [reflexivity|]; exists [];
       split; [reflexivity|]; rewrite app_nil_r; reflexivity).
  - unfold resolve_alert.
    destruct (active_alerts m !! id); cbn [snd];
      (split; [exact Hmin|]; split; [reflexivity|]; exists [];
       split; [reflexivity|]; rewrite app_nil_r; reflexivity).
Qed.

Lemma call_sends_above (min_sev : AlertSeverity)
    (channels : list NotificationChannel) (c : call)
    (sends : list (nat * Alert)) :
  call_sends min_sev channels c sends ->
  Forall (fun ia =>
            severity_levels min_sev <= severity_levels (severity (snd ia))
            /\ status (snd ia) = ACTIVE
            /\ (fst ia < length channels)%nat) sends.
Proof.
  destruct c as [now id t d s src md|now id user|now id]; cbn [call_sends].
  - intros [-> | (Hs & ->)]; [constructor|].
    apply dispatch_sends; [exact Hs | reflexivity].
  - intros ->. constructor.
  - intros ->. constructor.
Qed.

(** X22. Over any sequence of API calls on a manager with a valid
    threshold, the sends made are those of the calls in turn:
    acknowledging and resolving send nothing, and a creation sends
    nothing or, with a severity at or above the threshold, the alert it
    has just made to every configured channel.  So every notification is
    for a newly created, active alert at or above the threshold on one of
    the configured channels, and the threshold and the channels stay as
    they were. *)
Theorem run_notifies_above_threshold (calls : list call)
    (m0 : AlertManager) (min_sev : AlertSeverity) :
  min_severity m0 = Some min_sev ->
  min_severity (run calls m0) = Some min_sev /\
  notification_channels (run calls m0) = notification_channels m0 /\
  exists per_call,
    Forall2 (call_sends min_sev (notification_channels m0)) calls per_call /\
    sent (run calls m0) = sent m0 ++ concat per_call /\
    Forall (fun ia =>
              severity_levels min_sev <= severity_levels (severity (snd ia))
              /\ status (snd ia) = ACTIVE
              /\ (fst ia < length (notification_channels m0))%nat)
      (concat per_call).
Proof.
  revert m0. unfold run.
  induction calls as [|c calls IH]; intros m0 Hmin; cbn [foldl].
  - split; [exact Hmin|]. split; [reflexivity|]. exists [].
    split; [constructor|]. cbn [concat]. rewrite app_nil_r.
    split; [reflexivity | constructor].
  - destruct (perform_sent c m0 min_sev Hmin)
      as (Hmin1 & Hch1 & added1 & Hc1 & Hs1).
    destruct (IH (perform c m0) Hmin1)
      as (Hmin2 & Hch2 & per_call & Hf2 & Hs2 & Ha2).
    rewrite Hch1 in Hf2, Ha2.
    split; [exact Hmin2|]. split; [congruence|].
    exists (added1 :: per_call). split; [constructor; assumption|].
    cbn [concat]. split.
    + rewrite Hs2, Hs1, app_assoc. reflexivity.
    + apply Forall_app. split; [|exact Ha2].
      eapply call_sends_above, Hc1.
Qed.

Lemma sum_counts_bump (s : AlertSeverity) (counts : list (string * Z)) :
  map fst counts = map fst zero_counts ->
  map fst (bump (severity_value s) counts) = map fst zero_counts /\
  sum_counts (bump (severity_value s) counts) = sum_counts counts + 1.
Proof.
  destruct counts as [|[k1 n1] [|[k2 n2] [|[k3 n3] [|[k4 n4] [|? ?]]]]];
    cbn; try discriminate.
  intros [= -> -> -> ->].
  destruct s; cbn; split; (reflexivity || lia).
Qed.

Lemma severity_breakdown_sum (l : list (string * Alert)) :
  let counts :=
    foldr (fun kv counts => bump (severity_value (severity (snd kv))) counts)
      zero_counts l in
  map fst counts = map fst zero_counts /\
  sum_counts counts = Z.of_nat (length l).
Proof.
  induction l as [|kv l (IH1 & IH2)]; cbn zeta; cbn [foldr length].
  - split; reflexivity.
  - destruct (sum_counts_bump (severity (snd kv)) _ IH1) as (H1 & H2).
    split; [exact H1|]. rewrite H2, IH2. lia.
Qed.

(** X23. In [get_stats] the severity breakdown has exactly the four
    severity names as keys, in the order of the enumeration, and its
    counts add up to the reported number of active alerts. *)
Theorem get_stats_breakdown_adds_up (alert_rules : list Py.dict)
    (m : AlertManager) :
  exists n counts,
    Py.dict_lookup "active_alerts" (get_stats alert_rules m)
      = Some (Py.PInt n) /\
    Py.dict_lookup "severity_breakdown" (get_stats alert_rules m)
      = Some (Py.PDict (map (fun kn => (fst kn, Py.PInt (snd kn))) counts)) /\
    map fst counts = ["info"; "warning"; "error"; "critical"] /\
    sum_counts counts = n.
Proof.
  exists (Z.of_nat (size (active_alerts m))), (severity_breakdown m).
  split; [reflexivity|]. split; [reflexivity|].
  destruct (severity_breakdown_sum (map_to_list (active_alerts m)))
    as (H1 & H2).
  split; [exact H1|].
  unfold severity_breakdown. rewrite H2, length_map_to_list. reflexivity.
Qed.
End AlertRunFacts.

(** After the sample calls only the acknowledged alert is left. *)
Lemma active_alerts_well_kept_sample :
  exists a,
    Alerting.active_alerts
      (AlertRuns.run AlertRuns.sample_calls Alerting.sample_manager)
      !! "A1" = Some a /\
    AlertRuns.well_kept "A1" a.
Proof.
  eexists. split; [vm_compute; reflexivity|].
  apply (active_alerts_well_kept AlertRuns.sample_calls
           Alerting.sample_manager "A1").
  - reflexivity.
  - vm_compute. reflexivity.
Defined.

(** The two creations of the sample run send; the other calls do not. *)
Lemma run_notifies_above_threshold_sample :
  Alerting.min_severity Alerting.sample_manager = Some Alerting.WARNING /\
  exists per_call,
    Forall2 (AlertRuns.call_sends Alerting.WARNING
               (Alerting.notification_channels Alerting.sample_manager))
      AlertRuns.sample_calls per_call /\
    Alerting.sent
      (AlertRuns.run AlertRuns.sample_calls Alerting.sample_manager)
      = Alerting.sent Alerting.sample_manager ++ concat per_call.
Proof.
  split; [reflexivity|].
  destruct (run_notifies_above_threshold AlertRuns.sample_calls
              Alerting.sample_manager Alerting.WARNING eq_refl)
    as (_ & _ & per_call & H1 & H2 & _).
  exists per_call. split; [exact H1 | exact H2].
Defined.

(** ** The stock detectors and the mock details *)

Section StockDetectorFacts.
Import Py Detector.

Variable hash : pyval -> Z.

Lemma Qmax_b_lower (x : Q) : (0 <= Qmax_b x 0)%Q.
Proof.
  unfold Qmax_b. destruct (Qle_bool x 0) eqn:E; [apply Qle_refl|].
  destruct (Qlt_le_dec 0 x) as [H|H]; [apply Qlt_le_weak, H|].
  apply Qle_bool_iff in H. congruence.
Qed.

Lemma current_stock_level_nonneg (st : Detector) (item_id : pyval) (s : Q) :
  _get_current_stock_level hash st item_id = Ok s -> (0 <= s)%Q.
Proof.
  unfold _get_current_stock_level.
  destruct (hashable item_id); cbn [negb]; [|discriminate].
  destruct (sum_m _) as [total|]; cbn [bind]; [|discriminate].
  intros [= <-]. apply Qmax_b_lower.
Qed.

(** X24. The simulated stock level is never negative, so the negative
    stock detector reports a risk only for a stock-out whose normalized
    quantity is below -10: a stock-out of ten units or fewer is never
    reported, whatever the window holds. *)
Theorem negative_stock_needs_large_stock_out (st : Detector) (data : dict)
    (a : AnomalyResult) :
  _detect_negative_stock hash st data = Ok (Some a) ->
  eq_str (dict_get "action" data) "stock_out" = true /\
  exists current_stock q,
    _get_current_stock_level hash st (dict_get "item_id" data)
      = Ok current_stock /\
    (0 <= current_stock)%Q /\
    num_of (dict_get_default "quantity_normalized" (PInt 0) data) = Some q /\
    (q < -10)%Q /\
    a = mkAnomalyResult true (9 / 10) "negative_stock_risk" "high".
Proof.
  unfold _detect_negative_stock.
  destruct (eq_str (dict_get "action" data) "stock_out"); cbn [negb];
    [|discriminate].
  destruct (_get_current_stock_level hash st (dict_get "item_id" data))
    as [cs|] eqn:Ec; cbn [bind]; [|discriminate].
  destruct (num_of (dict_get_default "quantity_normalized" (PInt 0) data))
    as [q|]; [|discriminate].
  destruct (Qltb (cs + q) negative_stock_threshold) eqn:El; [|discriminate].
  intros [= <-]. split; [reflexivity|]. exists cs, q.
  pose proof (current_stock_level_nonneg st _ cs Ec) as Hcs.
  apply Qltb_lt in El. unfold negative_stock_threshold in El.
  repeat split; try reflexivity; try assumption. lra.
Qed.
End StockDetectorFacts.

(** A stock-out of 200 units against a baseline of 100 is reported. *)
Lemma negative_stock_needs_large_stock_out_example :
  Detector._detect_negative_stock Detector.sample_hash
    StockExamples.detector_with_large_stock_out StockExamples.large_stock_out
  = Py.Ok (Some (Detector.mkAnomalyResult true (9 / 10)
                   "negative_stock_risk" "high")) /\
  exists current_stock q,
    Py.num_of (Py.dict_get_default "quantity_normalized" (Py.PInt 0)
                 StockExamples.large_stock_out) = Some q /\
    (0 <= current_stock)%Q /\ (q < -10)%Q.
Proof.
  split; [vm_compute; reflexivity|].
  destruct (negative_stock_needs_large_stock_out Detector.sample_hash
              StockExamples.detector_with_large_stock_out
              StockExamples.large_stock_out
              (Detector.mkAnomalyResult true (9 / 10)
                 "negative_stock_risk" "high"))
    as (_ & cs & q & _ & H1 & H2 & H3 & _).
  { vm_compute. reflexivity. }
  exists cs, q. repeat split; assumption.
Defined.

Section MockDetailFacts.
Import Py Enricher.

Variable hash : pyval -> Z.
Variable str_of : pyval -> string.

Lemma nth_str_in (l : list string) (i : Z) :
  0 <= i < Z.of_nat (length l) -> In (nth_str l i) l.
Proof.
  intros H. unfold nth_str. apply nth_In. lia.
Qed.

(** X25. The mock details of an item are within fixed ranges whatever the
    hash: the category and the supplier are taken from their lists, the
    unit cost is between 10 and 109, the weight between 0.1 and 5, the
    reorder point between 50 and 149 and below the maximum stock, which is
    between 500 and 1499; an item is high-value exactly when its hash
    modulo 1000 is a multiple of 10. *)
Theorem mock_item_details_ranges (item_id : pyval) :
  exists category supplier unit_cost weight perishable high_value
         reorder_point max_stock,
    _generate_mock_item_details hash str_of item_id =
      [("name", PStr ("Item_" +:+ str_of item_id));
       ("category", PStr category); ("supplier", PStr supplier);
       ("unit_cost", PInt unit_cost); ("weight", PFloat weight);
       ("perishable", PBool perishable); ("high_value", PBool high_value);
       ("reorder_point", PInt reorder_point);
       ("max_stock", PInt max_stock)] /\
    In category ["Electronics"; "Clothing"; "Food"; "Tools"; "Books"] /\
    In supplier ["Supplier_A"; "Supplier_B"; "Supplier_C"; "Supplier_D"] /\
    10 <= unit_cost <= 109 /\
    (1 / 10 <= weight <= 5)%Q /\
    50 <= reorder_point <= 149 /\
    500 <= max_stock <= 1499 /\
    reorder_point < max_stock /\
    (high_value = true <-> (hash item_id mod 1000) mod 10 = 0) /\
    (perishable = true <-> (hash item_id mod 1000) mod 4 = 0).
Proof.
  unfold _generate_mock_item_details. cbn zeta.
  set (h := hash item_id mod 1000).
  assert (Hh : 0 <= h < 1000) by (apply Z.mod_pos_bound; lia).
  do 8 eexists. split; [reflexivity|].
  split; [apply nth_str_in; cbn [length];
          pose proof (Z.mod_pos_bound h 5); lia|].
  split; [apply nth_str_in; cbn [length];
          pose proof (Z.mod_pos_bound h 4); lia|].
  pose proof (Z.mod_pos_bound h 100) as H100.
  pose proof (Z.mod_pos_bound h 50) as H50.
  pose proof (Z.mod_pos_bound h 1000) as H1000.
  split; [lia|].
  split.
  { assert (H0 : (0 <= inject_Z (h mod 50))%Q)
      by (change (inject_Z 0 <= inject_Z (h mod 50))%Q;
          rewrite <- Zle_Qle; lia).
    assert (H1 : (inject_Z (h mod 50) <= 49)%Q)
      by (change (inject_Z (h mod 50) <= inject_Z 49)%Q;
          rewrite <- Zle_Qle; lia).
    set (w := inject_Z (h mod 50)) in *. clearbody w.
    change (1 / 10)%Q with (1 # 10)%Q.
    unfold Qdiv. change (/ 10)%Q with (1 # 10)%Q. split; lra. }
  split; [lia|]. split; [lia|]. split; [lia|].
  split; apply Z.eqb_eq.
Qed.
End MockDetailFacts.

Section TimingFacts.
Import Py Detector.

Lemma filter_m_keeps {A} (f : A -> result bool) (l r : list A) (x : A) :
  filter_m f l = Ok r -> In x l -> f x = Ok true -> In x r.
Proof.
  revert r. induction l as [|y l IH]; intros r H Hin Hx; [destruct Hin|].
  cbn [filter_m] in H.
  destruct (f y) as [b|] eqn:Ey; cbn [bind] in H; [|discriminate].
  destruct (filter_m f l) as [r'|]; cbn [bind] in H; [|discriminate].
  injection H as <-. destruct Hin as [->|Hin].
  - rewrite Hx in Ey. injection Ey as <-. left. reflexivity.
  - specialize (IH r' eq_refl Hin Hx). destruct b; [right|]; exact IH.
Qed.

Lemma length_pos_of_In {A} (x : A) (l : list A) :
  In x l -> (1 <= length l)%nat.
Proof. destruct l; [intros []|cbn; lia]. Qed.

(** X26. For an event that is in the detector's window, as it is when
    [detect] runs, whose action is a string and whose business context
    says whether it is in business hours, the timing detector reports
    unusual timing only if the window holds at least eleven events of
    that action: the event counts as after-hours activity itself, and the
    after-hours share has to be below one in ten. *)
Theorem unusual_timing_needs_eleven (st : Detector) (data bc : dict)
    (s : string) (v : pyval) (a : AnomalyResult) :
  In data (data_window st) ->
  dict_lookup "action" data = Some (PStr s) ->
  dict_lookup "business_context" data = Some (PDict bc) ->
  dict_lookup "is_business_hours" bc = Some v ->
  _detect_time_based_anomaly st data = Ok (Some a) ->
  truthy v = false /\
  (11 <= length (filter (fun d => py_eq (dict_get "action" d) (PStr s))
                   (data_window st)))%nat.
Proof.
  intros Hin Ha Hbc Hv. unfold _detect_time_based_anomaly.
  destruct (truthy (dict_get "timestamp_parsed" data)); cbn [negb];
    [|discriminate].
  destruct (dict_get "timestamp_parsed" data); try discriminate.
  unfold dict_get_default at 1. rewrite Hbc. cbn [attr_get bind].
  unfold dict_get at 1. rewrite Hv.
  destruct (truthy v) eqn:Tv; cbn [negb]; [discriminate|].
  unfold dict_get_default at 1. rewrite Ha.
  unfold _get_after_hours_frequency.
  set (same := filter (fun d => py_eq (dict_get "action" d) (PStr s))
                 (data_window st)).
  assert (Hsame : In data same).
  { subst same. apply list_elem_of_In, list_elem_of_filter. split.
    - unfold dict_get. rewrite Ha. cbn. apply Is_true_true, String.eqb_refl.
    - apply list_elem_of_In, Hin. }
  destruct (length same =? 0)%nat eqn:E0.
  { cbn [bind]. unfold Qltb. cbn. discriminate. }
  destruct (filter_m _ same) as [after|] eqn:Ef; cbn [bind]; [|discriminate].
  destruct (Qltb (Qlen after / Qlen same) (1 / 10)) eqn:El; [|discriminate].
  intros _. split; [reflexivity|].
  assert (Hafter : In data after).
  { eapply filter_m_keeps; [exact Ef | exact Hsame |].
    unfold dict_get_default. rewrite Hbc. cbn [attr_get_default bind].
    unfold dict_get_default. rewrite Hv. cbn [bind]. rewrite Tv.
    reflexivity. }
  apply length_pos_of_In in Hafter. apply length_pos_of_In in Hsame.
  apply Qltb_lt in El. unfold Qlen in El.
  set (na := Z.of_nat (length after)) in *.
  set (ns := Z.of_nat (length same)) in *.
  assert (Hna : 1 <= na) by lia. assert (Hns : 1 <= ns) by lia.
  assert (Hlt : na * 10 < ns).
  { clearbody na ns.
    assert (HS : (0 < inject_Z ns)%Q)
      by (change (inject_Z 0 < inject_Z ns)%Q; rewrite <- Zlt_Qlt; lia).
    apply (Qmult_lt_compat_r _ _ (inject_Z ns) HS) in El.
    assert (E : (inject_Z na / inject_Z ns * inject_Z ns == inject_Z na)%Q).
    { field. intros E. change (inject_Z ns == inject_Z 0)%Q in E.
      apply (proj1 (inject_Z_injective ns 0)) in E. lia. }
    rewrite E in El. clear E.
    assert (E10 : (inject_Z na * 10 < inject_Z ns)%Q).
    { change (1 / 10)%Q with (1 # 10)%Q in El. lra. }
    change 10%Q with (inject_Z 10) in E10.
    rewrite <- inject_Z_mult, <- Zlt_Qlt in E10. exact E10. }
  lia.
Qed.
End TimingFacts.

(** The eleventh stock-out of the item, the first after hours. *)
Lemma unusual_timing_needs_eleven_night :
  Detector._detect_time_based_anomaly StockExamples.detector_at_night
    StockExamples.night_event
  = Py.Ok (Some (Detector.mkAnomalyResult true (7 / 10) "unusual_timing"
                   "medium")) /\
  (11 <= length
           (filter (fun d => Detector.py_eq (Py.dict_get "action" d)
                               (Py.PStr "stock_out"))
              (Detector.data_window StockExamples.detector_at_night)))%nat.
Proof.
  split; [vm_compute; reflexivity|].
  apply (unusual_timing_needs_eleven StockExamples.detector_at_night
           StockExamples.night_event
           [("hour", Py.PInt 23); ("day_of_week", Py.PInt 0);
            ("is_business_hours", Py.PBool false);
            ("is_weekend", Py.PBool false); ("shift", Py.PStr "night")]
           "stock_out" (Py.PBool false)
           (Detector.mkAnomalyResult true (7 / 10) "unusual_timing"
              "medium")).
  - vm_compute. do 10 right. left. reflexivity.
  - reflexivity.
  - reflexivity.
  - reflexivity.
  - vm_compute. reflexivity.
Defined.
